(** * CustomQt: the native-message dispatcher of [customqt/windows.py]

    A shallow embedding of [WindowsStyler] (src/customqt/windows.py) and of
    the constant table (src/customqt/constants.py).

    Modelling conventions.
    - Python [int] is [Z]; the [LONG] fields of ctypes structures are [Z]
      with the 32-bit wrap-around of a ctypes store written out ([to_LONG]).
    - Python [float] (the device pixel ratio, [time.time()]) is an IEEE 754
      binary64 number, with the arithmetic of the Standard Library's
      [SpecFloat]: products and differences are rounded to nearest, ties to
      even.  [int(f)] is truncation toward zero and raises on an infinity
      or a NaN ([py_int]); an [int] that meets a float in a product is
      converted first ([float_of_int]).  A world may hold any [float]; the
      floats of a running program are the [valid] ones.
    - An [int] handed to a Qt function that takes a C [int] raises
      [OverflowError] outside the range of 32 bits ([in_c_int]).
    - A Python call that may raise returns [res A]; the methods of the
      styler live in the monad [M], which threads the [World] (the styler
      object plus the state of the OS and of the Qt event loop) and keeps
      the state reached when an exception is raised.
    - [exn] lists classes deriving from [Exception].  [KeyboardInterrupt]
      and [SystemExit], which no handler of the file mentions, are outside.
    - Calls into user32/gdi32/dwmapi through ctypes answer with the API's
      return value (0 or NULL on failure); they are not modelled as raising.
      The callables handed over by the application (the Qt window's
      methods, the title-bar hook, the previous native-event handler, the
      button's [setToolTip]) may raise.
    - [print] is not modelled.

    Embedded: [nativeEvent] and all it calls ([_handle_getminmax],
    [_handle_hittest], [_dispatch_titlebar], the maximize toggle, the cursor
    handling), the debounced scheduler with [_apply_corners_now] and
    [apply_rounded_corners], [showMaximized], [showNormal], [isMaximized],
    [setTitlebarMaximizeButton], [cleanup], and the one-time setup
    ([_post_init], [setup_win32_frame], [enable_acrylic_blur]).  The
    constructor, [_check_windows_11], [init] and [_setWindowFlags] are
    not. *)

From Stdlib Require Import ZArith QArith Bool List String Lia SpecFloat Zpower.
Import ListNotations.
Local Open Scope Z_scope.

(** ** Exceptions *)

Inductive exn : Type :=
| Exception
| ArithmeticError
| OverflowError
| AttributeError
| LookupError
| KeyError
| OSError
| RuntimeError
| TypeError
| ValueError
| UnicodeError.

Definition exn_eqb (a b : exn) : bool :=
  match a, b with
  | Exception, Exception | ArithmeticError, ArithmeticError
  | OverflowError, OverflowError | AttributeError, AttributeError
  | LookupError, LookupError | KeyError, KeyError | OSError, OSError
  | RuntimeError, RuntimeError | TypeError, TypeError
  | ValueError, ValueError | UnicodeError, UnicodeError => true
  | _, _ => false
  end.

(** The direct base class, inside the model. *)
Definition base (e : exn) : option exn :=
  match e with
  | Exception => None
  | OverflowError => Some ArithmeticError
  | KeyError => Some LookupError
  | UnicodeError => Some ValueError
  | _ => Some Exception
  end.

(** [issubclass e c]: the hierarchy above has depth three. *)
Definition issubclass (e c : exn) : bool :=
  exn_eqb e c ||
  match base e with
  | None => false
  | Some b1 =>
      exn_eqb b1 c ||
      match base b1 with
      | None => false
      | Some b2 => exn_eqb b2 c
      end
  end.

(** [except (c1, c2, ...)]: does the clause catch [e]? *)
Definition catches (classes : list exn) (e : exn) : bool :=
  existsb (issubclass e) classes.

Inductive res (A : Type) : Type :=
| Ok (a : A)
| Raise (e : exn).
Arguments Ok {A} a.
Arguments Raise {A} e.

(** ** Python values used by the file *)

(** *** [float]: IEEE 754 binary64 *)

Definition float : Type := spec_float.

Definition prec : Z := 53.
Definition emax : Z := 1024.

(** [a * b] and [a - b] on floats. *)
Definition fmul : float -> float -> float := SFmul prec emax.
Definition fsub : float -> float -> float := SFsub prec emax.

(** [a <= b] on floats. *)
Definition fle : float -> float -> bool := SFleb.

(** The double nearest to an integer, an infinity beyond the range. *)
Definition Z2float (z : Z) : float := binary_normalize prec emax z 0 false.

(** The conversion of an [int] that meets a float in a product:
    [OverflowError] when the integer is too large for a double. *)
Definition float_of_int (n : Z) : res float :=
  match Z2float n with
  | S754_infinity _ => Raise OverflowError
  | f => Ok f
  end.

(** The float a decimal literal denotes: the double nearest to the
    fraction, for a numerator and a denominator below 2^53. *)
Definition double (q : Q) : float :=
  SFdiv prec emax (Z2float (Qnum q)) (Z2float (Zpos (Qden q))).
Arguments double q%_Q.

(** [n * f] and [f * n] for an [int] [n] and a float [f]. *)
Definition int_times_float (n : Z) (f : float) : res float :=
  match float_of_int n with
  | Ok x => Ok (fmul x f)
  | Raise e => Raise e
  end.

Definition float_times_int (f : float) (n : Z) : res float :=
  match float_of_int n with
  | Ok x => Ok (fmul f x)
  | Raise e => Raise e
  end.

(** [int(f)] on a float: truncation toward zero; [OverflowError] on an
    infinity, [ValueError] on a NaN. *)
Definition py_int (f : float) : res Z :=
  match f with
  | S754_zero _ => Ok 0
  | S754_finite s m e => Ok (cond_Zopp s (Z.shiftl (Zpos m) e))
  | S754_infinity _ => Raise OverflowError
  | S754_nan => Raise ValueError
  end.

(** Neither an infinity nor a NaN. *)
Definition is_finite (f : float) : bool :=
  match f with
  | S754_zero _ | S754_finite _ _ _ => true
  | _ => false
  end.

(** The rational a finite float stands for. *)
Definition float_value (f : float) : Q :=
  match f with
  | S754_finite s m (Zneg k) => Qmake (cond_Zopp s (Zpos m)) (Pos.pow 2 k)
  | S754_finite s m e => inject_Z (cond_Zopp s (Zpos m) * 2 ^ e)
  | _ => 0%Q
  end.

(** A Python [int] handed to a parameter that is a C [int]: the binding
    raises [OverflowError] outside this range. *)
Definition in_c_int (z : Z) : bool := (- 2 ^ 31 <=? z) && (z <? 2 ^ 31).

(** Truth value of an [Optional[int]] handle: [None] and [0] are false. *)
Definition truthy (h : option Z) : bool :=
  match h with
  | Some z => negb (z =? 0)
  | None => false
  end.

(** A store into a ctypes [LONG] field keeps the low 32 bits, signed. *)
Definition to_LONG (z : Z) : Z := (z + 2 ^ 31) mod 2 ^ 32 - 2 ^ 31.

Definition in_LONG (z : Z) : Prop := - 2 ^ 31 <= z < 2 ^ 31.

(** ** constants.py *)

Module Windows.
Definition WM_NCMOUSEMOVE : Z := 0x00A0.
Definition WM_NCHITTEST : Z := 0x0084.
Definition WM_NCCALCSIZE : Z := 0x0083.
Definition WM_NCPAINT : Z := 0x0085.
Definition WM_NCACTIVATE : Z := 0x0086.
Definition WM_GETMINMAXINFO : Z := 0x0024.
Definition WM_SIZE : Z := 0x0005.
Definition WM_WINDOWPOSCHANGED : Z := 0x0047.
Definition WM_EXITSIZEMOVE : Z := 0x0232.
Definition WM_DPICHANGED : Z := 0x02E0.
Definition WM_NCLBUTTONDOWN : Z := 0x00A1.
Definition WM_NCLBUTTONUP : Z := 0x00A2.
Definition WM_NCLBUTTONDBLCLK : Z := 0x00A3.
Definition WM_SETCURSOR : Z := 0x0020.

Definition HTCLIENT : Z := 1.
Definition HTCAPTION : Z := 2.
Definition HTMINBUTTON : Z := 8.
Definition HTMAXBUTTON : Z := 9.
Definition HTLEFT : Z := 10.
Definition HTRIGHT : Z := 11.
Definition HTTOP : Z := 12.
Definition HTTOPLEFT : Z := 13.
Definition HTTOPRIGHT : Z := 14.
Definition HTBOTTOM : Z := 15.
Definition HTBOTTOMLEFT : Z := 16.
Definition HTBOTTOMRIGHT : Z := 17.
Definition HTCLOSE : Z := 20.

Definition SW_MAXIMIZE : Z := 3.
Definition SW_RESTORE : Z := 9.

Definition IDC_HAND : Z := 32649.

Definition MONITOR_DEFAULTTONEAREST : Z := 2.

Definition DWMWA_WINDOW_CORNER_PREFERENCE : Z := 33.
Definition DWMWCP_DONOTROUND : Z := 1.
Definition DWMWCP_ROUND : Z := 2.
End Windows.
Import Windows.

(** ** Structures *)

Record QPoint : Type := mkQPoint { qx : Z; qy : Z }.

Record POINT : Type := mkPOINT { x : Z; y : Z }.

Record RECT : Type := mkRECT { left : Z; top : Z; right : Z; bottom : Z }.

Record MINMAXINFO : Type := mkMINMAXINFO {
  ptReserved : POINT;
  ptMaxSize : POINT;
  ptMaxPosition : POINT;
  ptMinTrackSize : POINT;
  ptMaxTrackSize : POINT
}.

Record MONITORINFOEX : Type := mkMONITORINFOEX {
  rcMonitor : RECT;
  rcWork : RECT
}.

(** [wintypes.MSG], the fields the handler reads. *)
Record MSG : Type := mkMSG { message : Z; wParam : Z; lParam : Z }.

(** ** The collaborators *)

(** [self.window]: what each method of the host window answers. *)
Record QWidget : Type := mkQWidget {
  width : res Z;
  height : res Z;
  devicePixelRatio : res float;
  minimumWidth : res Z;
  minimumHeight : res Z;
  mapFromGlobal : QPoint -> res QPoint
}.

(** The button observer: which attributes it has, what [setToolTip] does. *)
Record QPushButton : Type := mkQPushButton {
  hasattr_setIcon : bool;
  hasattr_setToolTip : bool;
  setToolTip : string -> res unit
}.

(** A [QTimer] object, by identity. *)
Record QTimer : Type := mkQTimer { timer_id : nat }.

(** The bound methods handed to the timer facility. *)
Inductive Callback : Type :=
| cb_apply_corners_now.

(** A timeout waiting in the Qt event loop.  [owner] is the [QTimer]
    object that was started, [None] for the static [QTimer.singleShot],
    which hands no object back. *)
Record Pending : Type := mkPending {
  due : Q;
  owner : option nat;
  callback : Callback
}.

(** Calls that leave the process, in the order they are made. *)
Inductive Call : Type :=
| call_ShowWindow (hWnd : option Z) (nCmdShow : Z)
| call_SetCursor (hCursor : Z)
| call_SetWindowRgn (hWnd : option Z) (hRgn : Z)
| call_DwmSetWindowAttribute (hWnd : option Z) (attr value : Z)
| call_DeleteObject (h : Z)
| call_setToolTip (text : string)
| call_stop (t : QTimer)
| call_singleShot (msec : Z) (cb : Callback).

(** ** The styler object *)

Record WindowsStyler : Type := mkWindowsStyler {
  window : QWidget;
  _orig_native : string -> MSG -> res (bool * Z);
  _titlebar_hook : option (QPoint -> res (option (bool * Z)));
  hwnd : option Z;
  BORDER_WIDTH : Z;
  TITLE_BAR_FALLBACK_HEIGHT : Z;
  TITLE_BAR_FALLBACK : bool;
  ROUND_CORNER_RADIUS : Z;
  _titlebar_maximize_button : option QPushButton;
  _corner_timer : option QTimer;
  _last_corner_apply : float;
  _is_windows_11 : bool;
  _original_cursor : option Z
}.

(** ** The platform: user32, gdi32, dwmapi state and the Qt event loop *)

Record Platform : Type := mkPlatform {
  zoomed : bool;
  cursor : Z;
  LoadCursorW : Z -> Z -> Z;
  MonitorFromWindow : Z -> Z -> Z;
  GetMonitorInfoW : Z -> option MONITORINFOEX;
  GetWindowRect : Z -> option RECT;
  CreateRoundRectRgn : Z -> Z -> Z -> Z -> Z -> Z -> Z;
  DwmSetWindowAttribute : Z -> Z -> Z -> Z;
  memory : Z -> MINMAXINFO;
  QCursor_pos : res QPoint;
  time_time : float;
  next_timer : nat;
  pending : list Pending;
  calls : list Call
}.

Record World : Type := mkWorld { self : WindowsStyler; sys : Platform }.

(** Field updates. *)

Definition set_corner_timer (v : option QTimer) (s : WindowsStyler) : WindowsStyler :=
  mkWindowsStyler (window s) (_orig_native s) (_titlebar_hook s) (hwnd s)
    (BORDER_WIDTH s) (TITLE_BAR_FALLBACK_HEIGHT s) (TITLE_BAR_FALLBACK s)
    (ROUND_CORNER_RADIUS s) (_titlebar_maximize_button s) v
    (_last_corner_apply s) (_is_windows_11 s) (_original_cursor s).

Definition set_last_corner_apply (v : float) (s : WindowsStyler) : WindowsStyler :=
  mkWindowsStyler (window s) (_orig_native s) (_titlebar_hook s) (hwnd s)
    (BORDER_WIDTH s) (TITLE_BAR_FALLBACK_HEIGHT s) (TITLE_BAR_FALLBACK s)
    (ROUND_CORNER_RADIUS s) (_titlebar_maximize_button s) (_corner_timer s)
    v (_is_windows_11 s) (_original_cursor s).

Definition set_original_cursor (v : option Z) (s : WindowsStyler) : WindowsStyler :=
  mkWindowsStyler (window s) (_orig_native s) (_titlebar_hook s) (hwnd s)
    (BORDER_WIDTH s) (TITLE_BAR_FALLBACK_HEIGHT s) (TITLE_BAR_FALLBACK s)
    (ROUND_CORNER_RADIUS s) (_titlebar_maximize_button s) (_corner_timer s)
    (_last_corner_apply s) (_is_windows_11 s) v.

Definition set_zoomed (v : bool) (p : Platform) : Platform :=
  mkPlatform v (cursor p) (LoadCursorW p) (MonitorFromWindow p)
    (GetMonitorInfoW p) (GetWindowRect p) (CreateRoundRectRgn p)
    (DwmSetWindowAttribute p) (memory p) (QCursor_pos p) (time_time p)
    (next_timer p) (pending p) (calls p).

Definition set_cursor (v : Z) (p : Platform) : Platform :=
  mkPlatform (zoomed p) v (LoadCursorW p) (MonitorFromWindow p)
    (GetMonitorInfoW p) (GetWindowRect p) (CreateRoundRectRgn p)
    (DwmSetWindowAttribute p) (memory p) (QCursor_pos p) (time_time p)
    (next_timer p) (pending p) (calls p).

Definition set_memory (v : Z -> MINMAXINFO) (p : Platform) : Platform :=
  mkPlatform (zoomed p) (cursor p) (LoadCursorW p) (MonitorFromWindow p)
    (GetMonitorInfoW p) (GetWindowRect p) (CreateRoundRectRgn p)
    (DwmSetWindowAttribute p) v (QCursor_pos p) (time_time p)
    (next_timer p) (pending p) (calls p).

Definition set_time (v : float) (p : Platform) : Platform :=
  mkPlatform (zoomed p) (cursor p) (LoadCursorW p) (MonitorFromWindow p)
    (GetMonitorInfoW p) (GetWindowRect p) (CreateRoundRectRgn p)
    (DwmSetWindowAttribute p) (memory p) (QCursor_pos p) v
    (next_timer p) (pending p) (calls p).

Definition set_next_timer (v : nat) (p : Platform) : Platform :=
  mkPlatform (zoomed p) (cursor p) (LoadCursorW p) (MonitorFromWindow p)
    (GetMonitorInfoW p) (GetWindowRect p) (CreateRoundRectRgn p)
    (DwmSetWindowAttribute p) (memory p) (QCursor_pos p) (time_time p)
    v (pending p) (calls p).

Definition set_pending (v : list Pending) (p : Platform) : Platform :=
  mkPlatform (zoomed p) (cursor p) (LoadCursorW p) (MonitorFromWindow p)
    (GetMonitorInfoW p) (GetWindowRect p) (CreateRoundRectRgn p)
    (DwmSetWindowAttribute p) (memory p) (QCursor_pos p) (time_time p)
    (next_timer p) v (calls p).

Definition set_calls (v : list Call) (p : Platform) : Platform :=
  mkPlatform (zoomed p) (cursor p) (LoadCursorW p) (MonitorFromWindow p)
    (GetMonitorInfoW p) (GetWindowRect p) (CreateRoundRectRgn p)
    (DwmSetWindowAttribute p) (memory p) (QCursor_pos p) (time_time p)
    (next_timer p) (pending p) v.

(** ** The monad of the methods *)

Definition M (A : Type) : Type := World -> res A * World.

Definition ret {A : Type} (a : A) : M A := fun w => (Ok a, w).

Definition raise {A : Type} (e : exn) : M A := fun w => (Raise e, w).

Definition bind {A B : Type} (m : M A) (k : A -> M B) : M B :=
  fun w =>
    match m w with
    | (Ok a, w') => k a w'
    | (Raise e, w') => (Raise e, w')
    end.

Notation "v <- m ;; k" := (bind m (fun v => k))
  (at level 61, m at next level, right associativity).
Notation "m ;; k" := (bind m (fun _ => k))
  (at level 61, right associativity).

(** [try: body  except classes: handler]; the state reached by [body]
    when it raised is the state the handler starts from. *)
Definition try_except {A : Type} (body : M A) (classes : list exn)
    (handler : exn -> M A) : M A :=
  fun w =>
    match body w with
    | (Raise e, w') => if catches classes e then handler e w' else (Raise e, w')
    | r => r
    end.

(** A call to a collaborator that answers or raises. *)
Definition lift {A : Type} (r : res A) : M A := fun w => (r, w).

Definition gets {A : Type} (f : World -> A) : M A := fun w => (Ok (f w), w).

Definition modify_self (f : WindowsStyler -> WindowsStyler) : M unit :=
  fun w => (Ok tt, mkWorld (f (self w)) (sys w)).

Definition modify_sys (f : Platform -> Platform) : M unit :=
  fun w => (Ok tt, mkWorld (self w) (f (sys w))).

Definition record (c : Call) : M unit :=
  modify_sys (fun p => set_calls (calls p ++ [c]) p).

(** ctypes passes [None] as a NULL handle. *)
Definition handle_arg (h : option Z) : Z :=
  match h with Some z => z | None => 0 end.

(** ** The platform calls *)

Module user32.
Definition IsZoomed (hWnd : option Z) : M bool :=
  gets (fun w => truthy hWnd && zoomed (sys w)).

(** [SW_MAXIMIZE] zooms the window, [SW_RESTORE] brings it back; a NULL
    handle names no window. *)
Definition ShowWindow (hWnd : option Z) (nCmdShow : Z) : M unit :=
  record (call_ShowWindow hWnd nCmdShow) ;;
  if truthy hWnd then
    if nCmdShow =? SW_MAXIMIZE then modify_sys (set_zoomed true)
    else if nCmdShow =? SW_RESTORE then modify_sys (set_zoomed false)
    else ret tt
  else ret tt.

Definition GetCursor : M Z := gets (fun w => cursor (sys w)).

Definition SetCursor (hCursor : Z) : M unit :=
  record (call_SetCursor hCursor) ;;
  modify_sys (set_cursor hCursor).

Definition SetWindowRgn (hWnd : option Z) (hRgn : Z) : M unit :=
  record (call_SetWindowRgn hWnd hRgn).
End user32.

Module gdi32.
Definition DeleteObject (h : Z) : M unit := record (call_DeleteObject h).
End gdi32.

Module dwmapi.
Definition DwmSetWindowAttribute' (hWnd : option Z) (attr value : Z) : M Z :=
  record (call_DwmSetWindowAttribute hWnd attr value) ;;
  gets (fun w => DwmSetWindowAttribute (sys w) (handle_arg hWnd) attr value).
End dwmapi.

(** [time.time()] *)
Definition time : M float := gets (fun w => time_time (sys w)).

(** *** The Qt timer facility *)

(** [QTimer()]: a new object, not running. *)
Definition QTimer_new : M QTimer :=
  n <- gets (fun w => next_timer (sys w)) ;;
  modify_sys (set_next_timer (S n)) ;;
  ret (mkQTimer n).

Definition owned_by (t : QTimer) (p : Pending) : bool :=
  match owner p with
  | Some n => Nat.eqb n (timer_id t)
  | None => false
  end.

(** [t.stop()]: the timeout started on [t] itself is dropped. *)
Definition QTimer_stop (t : QTimer) : M unit :=
  record (call_stop t) ;;
  modify_sys (fun p => set_pending (filter (fun e => negb (owned_by t e)) (pending p)) p).

(** [QTimer.singleShot(msec, cb)] is a static function: called through an
    instance it neither starts nor references that instance.  [msec] is a C
    [int]: for a Python [int] outside its range the call raises
    [OverflowError] and nothing is scheduled.  The timeout is due [msec]
    milliseconds after the reading of the clock at the call. *)
Definition QTimer_singleShot (msec : Z) (cb : Callback) : M unit :=
  if negb (in_c_int msec) then raise OverflowError
  else
    record (call_singleShot msec cb) ;;
    now <- time ;;
    modify_sys (fun p =>
      set_pending
        (pending p ++
         [mkPending (float_value now + inject_Z msec / inject_Z 1000)%Q None cb]) p).

(** ** class WindowsStyler *)

(** [isMaximized], lines 407-411 *)
Definition isMaximized : M bool :=
  h <- gets (fun w => hwnd (self w)) ;;
  if negb (truthy h) then ret false
  else user32.IsZoomed h.

(** [_update_maximize_button_state], lines 352-364 *)
Definition _update_maximize_button_state (is_maximized : bool) : M unit :=
  b <- gets (fun w => _titlebar_maximize_button (self w)) ;;
  match b with
  | None => ret tt
  | Some button =>
      try_except
        (if hasattr_setToolTip button then
           let tooltip := if is_maximized then "Restore"%string else "Maximize"%string in
           record (call_setToolTip tooltip) ;;
           lift (setToolTip button tooltip)
         else ret tt)
        [Exception]
        (fun _ => ret tt)
  end.

(** [_set_dwm_corner_preference], lines 469-482 *)
Definition _set_dwm_corner_preference (preference : Z) : M unit :=
  s <- gets self ;;
  if negb (_is_windows_11 s) || negb (truthy (hwnd s)) then raise RuntimeError
  else
    hr <- dwmapi.DwmSetWindowAttribute' (hwnd s) DWMWA_WINDOW_CORNER_PREFERENCE preference ;;
    if negb (hr =? 0) then raise OSError else ret tt.

(** [_set_rounded_region], lines 440-467 *)
Definition _set_rounded_region (radius : Z) : M unit :=
  s <- gets self ;;
  if negb (truthy (hwnd s)) then ret tt
  else
    r <- gets (fun w => GetWindowRect (sys w) (handle_arg (hwnd s))) ;;
    match r with
    | None => ret tt
    | Some rect =>
        let width := right rect - left rect in
        let height := bottom rect - top rect in
        region <- try_except
          (region <- gets (fun w => CreateRoundRectRgn (sys w) 0 0 width height radius radius) ;;
           if negb (region =? 0) then
             user32.SetWindowRgn (hwnd s) region ;;
             ret None
           else ret (Some region))
          [Exception]
          (fun _ => ret None) ;;
        if truthy region then gdi32.DeleteObject (handle_arg region) else ret tt
    end.

(** [apply_rounded_corners], lines 413-438 *)
Definition apply_rounded_corners : M unit :=
  s <- gets self ;;
  if negb (truthy (hwnd s)) then ret tt
  else
    try_except
      (maximized <- isMaximized ;;
       if maximized then
         user32.SetWindowRgn (hwnd s) 0 ;;
         if _is_windows_11 s then _set_dwm_corner_preference DWMWCP_DONOTROUND
         else ret tt
       else
         done <- (if _is_windows_11 s then
                    try_except
                      (_set_dwm_corner_preference DWMWCP_ROUND ;; ret true)
                      [Exception]
                      (fun _ => ret false)
                  else ret false) ;;
         if done then ret tt
         else
           dpr <- lift (devicePixelRatio (window s)) ;;
           product <- lift (int_times_float (ROUND_CORNER_RADIUS s) dpr) ;;
           radius <- lift (py_int product) ;;
           _set_rounded_region radius)
      [Exception]
      (fun _ => ret tt).

(** [_apply_corners_now], lines 386-389 *)
Definition _apply_corners_now : M unit :=
  now <- time ;;
  modify_self (set_last_corner_apply now) ;;
  apply_rounded_corners.

(** [_debounced_apply_corners], lines 371-384 *)
Definition _debounced_apply_corners : M unit :=
  current_time <- time ;;
  t <- gets (fun w => _corner_timer (self w)) ;;
  match t with
  | Some timer => QTimer_stop timer
  | None => ret tt
  end ;;
  last <- gets (fun w => _last_corner_apply (self w)) ;;
  let time_since_last := fsub current_time last in
  milliseconds <- lift (float_times_int time_since_last 1000) ;;
  elapsed <- lift (py_int milliseconds) ;;
  let delay := Z.max 0 (50 - elapsed) in
  timer <- QTimer_new ;;
  modify_self (set_corner_timer (Some timer)) ;;
  QTimer_singleShot delay cb_apply_corners_now.

(** [showMaximized], lines 391-397 *)
Definition showMaximized : M unit :=
  h <- gets (fun w => hwnd (self w)) ;;
  if negb (truthy h) then ret tt
  else
    user32.ShowWindow h SW_MAXIMIZE ;;
    _update_maximize_button_state true ;;
    _debounced_apply_corners.

(** [showNormal], lines 399-405 *)
Definition showNormal : M unit :=
  h <- gets (fun w => hwnd (self w)) ;;
  if negb (truthy h) then ret tt
  else
    user32.ShowWindow h SW_RESTORE ;;
    _update_maximize_button_state false ;;
    _debounced_apply_corners.

(** *** The min-max constraint *)

Definition with_x (v : Z) (p : POINT) : POINT := mkPOINT (to_LONG v) (y p).
Definition with_y (v : Z) (p : POINT) : POINT := mkPOINT (x p) (to_LONG v).

Definition on_ptMaxSize (f : POINT -> POINT) (i : MINMAXINFO) : MINMAXINFO :=
  mkMINMAXINFO (ptReserved i) (f (ptMaxSize i)) (ptMaxPosition i)
    (ptMinTrackSize i) (ptMaxTrackSize i).

Definition on_ptMaxPosition (f : POINT -> POINT) (i : MINMAXINFO) : MINMAXINFO :=
  mkMINMAXINFO (ptReserved i) (ptMaxSize i) (f (ptMaxPosition i))
    (ptMinTrackSize i) (ptMaxTrackSize i).

Definition on_ptMinTrackSize (f : POINT -> POINT) (i : MINMAXINFO) : MINMAXINFO :=
  mkMINMAXINFO (ptReserved i) (ptMaxSize i) (ptMaxPosition i)
    (f (ptMinTrackSize i)) (ptMaxTrackSize i).

(** A field assignment through [MINMAXINFO.from_address(addr)]. *)
Definition store (addr : Z) (f : MINMAXINFO -> MINMAXINFO) : M unit :=
  modify_sys (fun p =>
    set_memory (fun a => if a =? addr then f (memory p a) else memory p a) p).

(** The [try] block of [_handle_getminmax], lines 223-279 *)
Definition _handle_getminmax_try (msg : MSG) : M (bool * Z) :=
  let info := lParam msg in
  s <- gets self ;;
  if negb (truthy (hwnd s)) then ret (false, 0)
  else
    monitor <- gets (fun w =>
      MonitorFromWindow (sys w) (handle_arg (hwnd s)) MONITOR_DEFAULTTONEAREST) ;;
    if monitor =? 0 then ret (false, 0)
    else
      mi <- gets (fun w => GetMonitorInfoW (sys w) monitor) ;;
      match mi with
      | None => ret (false, 0)
      | Some monitor_info =>
          let work := rcWork monitor_info in
          let full := rcMonitor monitor_info in
          store info (on_ptMaxPosition (with_x (left work - left full))) ;;
          store info (on_ptMaxPosition (with_y (top work - top full))) ;;
          store info (on_ptMaxSize (with_x (right work - left work))) ;;
          store info (on_ptMaxSize (with_y (bottom work - top work))) ;;
          mw <- lift (minimumWidth (window s)) ;;
          let min_width := Z.max mw 200 in
          mh <- lift (minimumHeight (window s)) ;;
          let min_height := Z.max mh 100 in
          store info (on_ptMinTrackSize (with_x min_width)) ;;
          store info (on_ptMinTrackSize (with_y min_height)) ;;
          ret (true, 0)
      end.

(** [_handle_getminmax], lines 216-284 *)
Definition _handle_getminmax (msg : MSG) : M (bool * Z) :=
  if lParam msg =? 0 then ret (false, 0)
  else
    try_except (_handle_getminmax_try msg)
      [OSError; ValueError]
      (fun _ => ret (false, 0)).

(** *** The hit test *)

(** [_dispatch_titlebar], lines 333-350 *)
Definition _dispatch_titlebar (global_pos : QPoint) (y : Z) : M (bool * Z) :=
  s <- gets self ;;
  answer <- match _titlebar_hook s with
            | Some hook =>
                try_except
                  (lift (hook global_pos))
                  [AttributeError; TypeError; ValueError]
                  (fun _ => ret None)
            | None => ret None
            end ;;
  match answer with
  | Some result => ret result
  | None =>
      if TITLE_BAR_FALLBACK s && (y <? TITLE_BAR_FALLBACK_HEIGHT s)
      then ret (true, HTCAPTION)
      else ret (false, 0)
  end.

(** The corner and edge tests of [_handle_hittest], lines 306-324, in the
    order of the source; [None] when none of them matches. *)
Definition resize_area (x y w h bw : Z) : option Z :=
  if (x <? bw) && (y <? bw) then Some HTTOPLEFT
  else if (x >? w - bw) && (y <? bw) then Some HTTOPRIGHT
  else if (x <? bw) && (y >? h - bw) then Some HTBOTTOMLEFT
  else if (x >? w - bw) && (y >? h - bw) then Some HTBOTTOMRIGHT
  else if y <? bw then Some HTTOP
  else if y >? h - bw then Some HTBOTTOM
  else if x <? bw then Some HTLEFT
  else if x >? w - bw then Some HTRIGHT
  else None.

(** The [try] block of [_handle_hittest], lines 289-327 *)
Definition _handle_hittest_try : M (bool * Z) :=
  s <- gets self ;;
  cp <- gets (fun w => QCursor_pos (sys w)) ;;
  pt <- lift cp ;;
  local <- lift (mapFromGlobal (window s) pt) ;;
  let x := qx local in
  let y := qy local in
  w <- lift (width (window s)) ;;
  h <- lift (height (window s)) ;;
  dpr <- lift (devicePixelRatio (window s)) ;;
  product <- lift (int_times_float (BORDER_WIDTH s) dpr) ;;
  bw <- lift (py_int product) ;;
  maximized <- isMaximized ;;
  if maximized then _dispatch_titlebar pt y
  else
    match resize_area x y w h bw with
    | Some code => ret (true, code)
    | None => _dispatch_titlebar pt y
    end.

(** [_handle_hittest], lines 286-331 *)
Definition _handle_hittest : M (bool * Z) :=
  try_except _handle_hittest_try [Exception] (fun _ => ret (false, 0)).

(** *** The dispatcher *)

Definition is_in (z : Z) (l : list Z) : bool := existsb (Z.eqb z) l.

(** The [WM_SETCURSOR] block of [nativeEvent], lines 152-166: [Some r] when
    it returns [r], [None] when control goes on to the next test. *)
Definition on_setcursor (msg : MSG) : M (option (bool * Z)) :=
  let ht := Z.land (lParam msg) 0xFFFF in
  if ht =? HTMAXBUTTON then
    saved <- gets (fun w => _original_cursor (self w)) ;;
    (if negb (truthy saved) then
       c <- user32.GetCursor ;;
       modify_self (set_original_cursor (Some c))
     else ret tt) ;;
    hcur <- gets (fun w => LoadCursorW (sys w) 0 IDC_HAND) ;;
    if negb (hcur =? 0) then
      user32.SetCursor hcur ;;
      ret (Some (true, 1))
    else ret None
  else
    saved <- gets (fun w => _original_cursor (self w)) ;;
    (if truthy saved then
       user32.SetCursor (handle_arg saved) ;;
       modify_self (set_original_cursor None)
     else ret tt) ;;
    ret None.

(** The non-client button block of [nativeEvent], lines 173-194. *)
Definition on_ncbutton (msg : MSG) : M (option (bool * Z)) :=
  let ht := wParam msg in
  if ht =? HTMAXBUTTON then
    if message msg =? WM_NCLBUTTONDOWN then ret (Some (true, 0))
    else if is_in (message msg) [WM_NCLBUTTONUP; WM_NCLBUTTONDBLCLK] then
      old_maximized <- isMaximized ;;
      h <- gets (fun w => hwnd (self w)) ;;
      (if old_maximized then user32.ShowWindow h SW_RESTORE
       else user32.ShowWindow h SW_MAXIMIZE) ;;
      _update_maximize_button_state (negb old_maximized) ;;
      _debounced_apply_corners ;;
      ret (Some (true, 0))
    else ret None
  else ret None.

Definition windows_generic_MSG : string := "windows_generic_MSG".

(** The last line of [nativeEvent], line 214: the handler that was
    installed before takes the message. *)
Definition call_orig_native (eventType : string) (msg : MSG) : M (bool * Z) :=
  s <- gets self ;; lift (_orig_native s eventType msg).

(** [nativeEvent], lines 138-214.  [msg] is the [MSG] record found at the
    address [message]. *)
Definition nativeEvent (eventType : string) (msg : MSG) : M (bool * Z) :=
  if negb (eventType =? windows_generic_MSG)%string
  then call_orig_native eventType msg
  else if is_in (message msg) [WM_NCPAINT; WM_NCACTIVATE] then ret (true, 0)
  else
    r1 <- (if message msg =? WM_SETCURSOR then on_setcursor msg else ret None) ;;
    match r1 with
    | Some r => ret r
    | None =>
        if is_in (message msg) [WM_NCCALCSIZE; WM_NCPAINT; WM_NCACTIVATE]
        then ret (true, 0)
        else
          r2 <- (if is_in (message msg)
                      [WM_NCLBUTTONDOWN; WM_NCLBUTTONUP; WM_NCLBUTTONDBLCLK]
                 then on_ncbutton msg else ret None) ;;
          match r2 with
          | Some r => ret r
          | None =>
              if message msg =? WM_GETMINMAXINFO then _handle_getminmax msg
              else if message msg =? WM_NCHITTEST then _handle_hittest
              else
                (if is_in (message msg)
                      [WM_SIZE; WM_WINDOWPOSCHANGED; WM_EXITSIZEMOVE; WM_DPICHANGED]
                 then _debounced_apply_corners else ret tt) ;;
                call_orig_native eventType msg
          end
    end.

(** *** The event loop *)

Definition run_callback (cb : Callback) : M unit :=
  match cb with
  | cb_apply_corners_now => _apply_corners_now
  end.

Definition is_due (now : Q) (p : Pending) : bool := Qle_bool (due p) now.

Fixpoint fire (ready : list Pending) (w : World) : World :=
  match ready with
  | [] => w
  | p :: rest => fire rest (snd (run_callback (callback p) w))
  end.

(** The event loop is reached when the clock reads [now]: every timeout
    that is due fires once, in the order of scheduling, and leaves the
    loop. *)
Definition event_loop (now : float) (w : World) : World :=
  let p := set_time now (sys w) in
  let ready := filter (is_due (float_value now)) (pending p) in
  let waiting := filter (fun e => negb (is_due (float_value now) e)) (pending p) in
  fire ready (mkWorld (self w) (set_pending waiting p)).

(** ** Sample worlds and the vocabulary of the statements *)

Module Demo.
(** The window of src/tests/test.py: 400 x 300, the constructor's defaults
    (border 8, fallback title bar of height 30), scale factor 1. *)
Definition widget : QWidget :=
  mkQWidget (Ok 400) (Ok 300) (Ok (double 1)) (Ok 200) (Ok 100) (fun p => Ok p).

Definition styler : WindowsStyler :=
  mkWindowsStyler widget (fun _ _ => Ok (false, 0)) None (Some 4242)
    8 30 true 15 None None (double 0) true None.

Definition blank : MINMAXINFO :=
  mkMINMAXINFO (mkPOINT 0 0) (mkPOINT 0 0) (mkPOINT 0 0) (mkPOINT 0 0) (mkPOINT 0 0).

(** One monitor, bounds (0,0)-(1920,1080), work area (10,10)-(1910,1070);
    the pointer at [pos]; the clock at 100 s. *)
Definition platform (pos : QPoint) : Platform :=
  mkPlatform false 65539 (fun _ _ => 65567) (fun _ _ => 77)
    (fun _ => Some (mkMONITORINFOEX (mkRECT 0 0 1920 1080) (mkRECT 10 10 1910 1070)))
    (fun _ => Some (mkRECT 100 100 500 400))
    (fun _ _ _ _ _ _ => 9001) (fun _ _ _ => 0)
    (fun _ => blank) (Ok pos) (double 100) 0 [] [].

Definition world (pos : QPoint) : World := mkWorld styler (platform pos).
End Demo.

(** A maximized window whose hook claims the left border for the point. *)
Definition hooked_maximized : World :=
  mkWorld
    (mkWindowsStyler Demo.widget (fun _ _ => Ok (false, 0))
       (Some (fun _ => Ok (Some (true, HTLEFT)))) (Some 4242)
       8 30 true 15 None None (double 0) true None)
    (set_zoomed true (Demo.platform (mkQPoint 0 150))).

(** A maximized window without hook, the pointer in the title bar. *)
Definition plain_maximized : World :=
  mkWorld Demo.styler (set_zoomed true (Demo.platform (mkQPoint 200 15))).

(** The fallback decision of [_dispatch_titlebar], lines 346-350. *)
Definition fallback_answer (s : WindowsStyler) (y : Z) : bool * Z :=
  if TITLE_BAR_FALLBACK s && (y <? TITLE_BAR_FALLBACK_HEIGHT s)
  then (true, HTCAPTION)
  else (false, 0).

(** The test window with a hook that raises [e]; the pointer at [pos]. *)
Definition raising_hook (e : exn) (pos : QPoint) : World :=
  mkWorld
    (mkWindowsStyler Demo.widget (fun _ _ => Ok (false, 0))
       (Some (fun _ => Raise e)) (Some 4242)
       8 30 true 15 None None (double 0) true None)
    (Demo.platform pos).

(** The styler as its constructor leaves it: [hwnd] is [None]. *)
Definition fresh : World :=
  mkWorld
    (mkWindowsStyler Demo.widget (fun _ _ => Ok (false, 0)) None None
       8 30 true 15 None None (double 0) true None)
    (Demo.platform (mkQPoint 0 0)).

(** The structure a [WM_GETMINMAXINFO] message points at, once the
    dispatcher has answered it. *)
Definition minmax_after (msg : MSG) (w : World) : MINMAXINFO :=
  memory (sys (snd (nativeEvent windows_generic_MSG msg w))) (lParam msg).

(** A work area as the OS reports it: inside the monitor's bounds, on a
    monitor whose width and height fit a [LONG]. *)
Definition inside (work full : RECT) : Prop :=
  left full <= left work /\ left work <= right work /\ right work <= right full /\
  top full <= top work /\ top work <= bottom work /\ bottom work <= bottom full /\
  right full - left full < 2 ^ 31 /\ bottom full - top full < 2 ^ 31.

(** [int(n * dpr)], lines 300 and 434: a length scaled by the device
    pixel ratio, or the exception of the conversions. *)
Definition scaled (n : Z) (dpr : float) : res Z :=
  match int_times_float n dpr with
  | Ok f => py_int f
  | Raise e => Raise e
  end.

(** A float as the program can hold one: an infinity, a NaN, a zero, or
    a finite number with a canonical mantissa and an exponent in range. *)
Definition valid (f : float) : bool := valid_binary prec emax f.

(** Zero, a positive number, positive infinity, or a NaN. *)
Definition not_negative (f : float) : Prop :=
  match f with
  | S754_finite true _ _ | S754_infinity true => False
  | _ => True
  end.

(** [int(time_since_last * 1000)] in the world [w], line 381. *)
Definition elapsed_ms (w : World) : res Z :=
  match float_times_int
          (fsub (time_time (sys w)) (_last_corner_apply (self w))) 1000 with
  | Ok f => py_int f
  | Raise e => Raise e
  end.

(** The delay [_debounced_apply_corners] hands to the timer in the world
    [w], or the exception that ends the call before a timeout is scheduled:
    the one of [int()], or the [OverflowError] of [singleShot] for a delay
    that is no C [int]. *)
Definition debounce_delay (w : World) : res Z :=
  match elapsed_ms w with
  | Ok elapsed =>
      let delay := Z.max 0 (50 - elapsed) in
      if in_c_int delay then Ok delay else Raise OverflowError
  | Raise e => Raise e
  end.

(** How a call that ends with the scheduler ends: with [r] when the
    scheduler returns, with the scheduler's exception otherwise. *)
Definition when_scheduled {A : Type} (w : World) (r : A) : res A :=
  match debounce_delay w with
  | Ok _ => Ok r
  | Raise e => Raise e
  end.

(** The [stop()] of the scheduler and of [cleanup]. *)
Definition stop_calls (w : World) : list Call :=
  match _corner_timer (self w) with
  | Some t => [call_stop t]
  | None => []
  end.

(** The calls one run of [_debounced_apply_corners] makes. *)
Definition debounce_calls (w : World) : list Call :=
  stop_calls w ++
  match debounce_delay w with
  | Ok delay => [call_singleShot delay cb_apply_corners_now]
  | Raise _ => []
  end.

(** The timeout one run of [_debounced_apply_corners] adds. *)
Definition debounce_timeout (w : World) : list Pending :=
  match debounce_delay w with
  | Ok delay =>
      [mkPending (float_value (time_time (sys w))
                  + inject_Z delay / inject_Z 1000)%Q None cb_apply_corners_now]
  | Raise _ => []
  end.

(** The timeouts a [stop()] on the stored timer object leaves waiting. *)
Definition after_stop (w : World) : list Pending :=
  match _corner_timer (self w) with
  | Some t => filter (fun e => negb (owned_by t e)) (pending (sys w))
  | None => pending (sys w)
  end.

(** [w'] has the saved cursor, the previous handler and the handle of [w]. *)
Definition keeps (w w' : World) : Prop :=
  _original_cursor (self w') = _original_cursor (self w) /\
  _orig_native (self w') = _orig_native (self w) /\
  hwnd (self w') = hwnd (self w).

(** The calls [_update_maximize_button_state] makes. *)
Definition observer_calls (s : WindowsStyler) (is_maximized : bool) : list Call :=
  match _titlebar_maximize_button s with
  | Some button =>
      if hasattr_setToolTip button
      then [call_setToolTip (if is_maximized then "Restore" else "Maximize")%string]
      else []
  | None => []
  end.

Inductive MsgClass : Type :=
| NcPaintActivate
| SetCursorMsg
| NcCalcSize
| NcButton
| GetMinMaxInfo
| NcHitTest
| SizeMove
| OtherMsg.

(** The class of a message number, following the order of the tests of
    [nativeEvent]. *)
Definition classify (m : Z) : MsgClass :=
  if is_in m [WM_NCPAINT; WM_NCACTIVATE] then NcPaintActivate
  else if m =? WM_SETCURSOR then SetCursorMsg
  else if m =? WM_NCCALCSIZE then NcCalcSize
  else if is_in m [WM_NCLBUTTONDOWN; WM_NCLBUTTONUP; WM_NCLBUTTONDBLCLK] then NcButton
  else if m =? WM_GETMINMAXINFO then GetMinMaxInfo
  else if m =? WM_NCHITTEST then NcHitTest
  else if is_in m [WM_SIZE; WM_WINDOWPOSCHANGED; WM_EXITSIZEMOVE; WM_DPICHANGED]
       then SizeMove
  else OtherMsg.

(** A block that returns, or lets control reach the last line. *)
Definition or_orig_native (block : M (option (bool * Z)))
    (eventType : string) (msg : MSG) : M (bool * Z) :=
  r <- block ;;
  match r with
  | Some a => ret a
  | None => call_orig_native eventType msg
  end.

(** The message is left to the previous handler: control reaches the last
    line of [nativeEvent]. *)
Definition handed_on (eventType : string) (msg : MSG) (w : World) : bool :=
  negb (eventType =? windows_generic_MSG)%string ||
  match classify (message msg) with
  | SetCursorMsg =>
      negb ((Z.land (lParam msg) 0xFFFF =? HTMAXBUTTON)
            && negb (LoadCursorW (sys w) 0 IDC_HAND =? 0))
  | NcButton => negb (wParam msg =? HTMAXBUTTON)
  | SizeMove =>
      match debounce_delay w with
      | Ok _ => true
      | Raise _ => false
      end
  | OtherMsg => true
  | _ => false
  end.

(** The maximized state [isMaximized] reports in [w]. *)
Definition maximized (w : World) : bool :=
  truthy (hwnd (self w)) && zoomed (sys w).

(** The directive opposite to a maximized state. *)
Definition opposite (is_maximized : bool) : Z :=
  if is_maximized then SW_RESTORE else SW_MAXIMIZE.

(** The corner-reapplication triggers among a list of calls: the timeouts
    handed to the timer facility with [_apply_corners_now]. *)
Definition is_trigger (c : Call) : bool :=
  match c with
  | call_singleShot _ cb_apply_corners_now => true
  | _ => false
  end.

Definition triggers (l : list Call) : nat := List.length (filter is_trigger l).

(** The world after the same message was handled twice. *)
Definition twice (msg : MSG) (w : World) : World :=
  snd (nativeEvent windows_generic_MSG msg
         (snd (nativeEvent windows_generic_MSG msg w))).

(** The test window behind a handler of its own that answers (true, 7). *)
Definition own_handler : World :=
  mkWorld
    (mkWindowsStyler Demo.widget (fun _ _ => Ok (true, 7)) None (Some 4242)
       8 30 true 15 None None (double 0) true None)
    (Demo.platform (mkQPoint 0 0)).

(** The test window on a system that cannot supply the hand cursor. *)
Definition no_hand_cursor : World :=
  mkWorld Demo.styler
    (mkPlatform false 65539 (fun _ _ => 0) (fun _ _ => 77)
       (fun _ => Some (mkMONITORINFOEX (mkRECT 0 0 1920 1080)
                         (mkRECT 10 10 1910 1070)))
       (fun _ => Some (mkRECT 100 100 500 400))
       (fun _ _ _ _ _ _ => 9001) (fun _ _ _ => 0)
       (fun _ => Demo.blank) (Ok (mkQPoint 380 10)) (double 100) 0 [] []).

(** A cursor-set message whose low word is [HTMAXBUTTON]. *)
Definition setcursor_on_button : MSG := mkMSG WM_SETCURSOR 4242 0x02000009.

(** The test window whose Qt object is gone: its size accessors raise
    [RuntimeError]. *)
Definition deleted_widget : World :=
  mkWorld
    (mkWindowsStyler
       (mkQWidget (Ok 400) (Ok 300) (Ok (double 1)) (Raise RuntimeError)
          (Raise RuntimeError) (fun _ => Raise RuntimeError))
       (fun _ _ => Ok (false, 0)) None (Some 4242)
       8 30 true 15 None None (double 0) true None)
    (Demo.platform (mkQPoint 0 0)).

(** The test window behind a handler of its own that raises. *)
Definition raising_handler : World :=
  mkWorld
    (mkWindowsStyler Demo.widget (fun _ _ => Raise ValueError) None (Some 4242)
       8 30 true 15 None None (double 0) true None)
    (Demo.platform (mkQPoint 0 0)).

(** The same window with accessors that raise [OSError]. *)
Definition failing_widget : World :=
  mkWorld
    (mkWindowsStyler
       (mkQWidget (Ok 400) (Ok 300) (Ok (double 1)) (Raise OSError)
          (Raise OSError) (fun _ => Raise OSError))
       (fun _ _ => Ok (false, 0)) None (Some 4242)
       8 30 true 15 None None (double 0) true None)
    (Demo.platform (mkQPoint 0 0)).

(** The test window after the wall clock was set back: the corners were
    last applied when it read 3000000 s, it now reads 100 s. *)
Definition clock_set_back : World :=
  mkWorld
    (mkWindowsStyler Demo.widget (fun _ _ => Ok (false, 0)) None (Some 4242)
       8 30 true 15 None None (double 3000000) true None)
    (Demo.platform (mkQPoint 380 10)).

(** No timeout waiting in the loop belongs to a [QTimer] object. *)
Definition all_static (w : World) : Prop :=
  forall p, In p (pending (sys w)) -> owner p = None.

(** [n] calls of the debounced scheduler in a row. *)
Fixpoint triggered (n : nat) (w : World) : World :=
  match n with
  | O => w
  | S k => snd (_debounced_apply_corners (triggered k w))
  end.

(** The world 10 ms after the corners were last applied. *)
Definition after_apply : World :=
  mkWorld
    (mkWindowsStyler Demo.widget (fun _ _ => Ok (false, 0)) None (Some 4242)
       8 30 true 15 None None (double (9999 # 100)) true None)
    (Demo.platform (mkQPoint 0 0)).

(** Two size messages, 20 ms apart, both within 50 ms of the last
    application. *)
Definition burst : World :=
  snd (nativeEvent windows_generic_MSG (mkMSG WM_SIZE 0 0)
         (event_loop (double (10002 # 100))
            (snd (nativeEvent windows_generic_MSG (mkMSG WM_SIZE 0 0)
                    after_apply)))).

(** ** More of the class, and the vocabulary of the further statements *)

(** The messages [nativeEvent] has a test for. *)
Definition owned_messages : list Z :=
  [WM_NCPAINT; WM_NCACTIVATE; WM_SETCURSOR; WM_NCCALCSIZE;
   WM_NCLBUTTONDOWN; WM_NCLBUTTONUP; WM_NCLBUTTONDBLCLK;
   WM_GETMINMAXINFO; WM_NCHITTEST;
   WM_SIZE; WM_WINDOWPOSCHANGED; WM_EXITSIZEMOVE; WM_DPICHANGED].

(** A cursor-set message over the client area. *)
Definition setcursor_on_client : MSG := mkMSG WM_SETCURSOR 4242 0x02000001.

(** The test window with the arrow cursor 65539 saved while the hand cursor
    65567 is shown. *)
Definition hovering : World :=
  mkWorld (set_original_cursor (Some 65539) Demo.styler)
    (set_cursor 65567 (Demo.platform (mkQPoint 380 10))).

(** The test window on a desktop where no monitor is found. *)
Definition no_monitor : World :=
  mkWorld Demo.styler
    (mkPlatform false 65539 (fun _ _ => 65567) (fun _ _ => 0)
       (fun _ => None) (fun _ => Some (mkRECT 100 100 500 400))
       (fun _ _ _ _ _ _ => 9001) (fun _ _ _ => 0)
       (fun _ => Demo.blank) (Ok (mkQPoint 0 0)) (double 100) 0 [] []).

(** The test window with a hook that claims every point for the maximize
    button, and with one that raises. *)
Definition greedy_hook (pos : QPoint) : World :=
  mkWorld
    (mkWindowsStyler Demo.widget (fun _ _ => Ok (false, 0))
       (Some (fun _ => Ok (Some (true, HTMAXBUTTON)))) (Some 4242)
       8 30 true 15 None None (double 0) true None)
    (Demo.platform pos).

(** The calls of the native attempt that comes first on Windows 11. *)
Definition native_attempt (s : WindowsStyler) : list Call :=
  if _is_windows_11 s
  then [call_DwmSetWindowAttribute (hwnd s)
          DWMWA_WINDOW_CORNER_PREFERENCE DWMWCP_ROUND]
  else [].

(** The native way is not open: not Windows 11, or the compositor refuses
    the corner preference. *)
Definition native_refused (w : World) : Prop :=
  _is_windows_11 (self w) = false \/
  DwmSetWindowAttribute (sys w) (handle_arg (hwnd (self w)))
    DWMWA_WINDOW_CORNER_PREFERENCE DWMWCP_ROUND <> 0.

(** The test window on Windows 10, scale factor 1.2; the region handle is
    made of the width, the height and the radius it was created with. *)
Definition windows_10 : World :=
  mkWorld
    (mkWindowsStyler
       (mkQWidget (Ok 400) (Ok 300) (Ok (double (12 # 10))) (Ok 200) (Ok 100)
          (fun p => Ok p))
       (fun _ _ => Ok (false, 0)) None (Some 4242)
       8 30 true 15 None None (double 0) false None)
    (mkPlatform false 65539 (fun _ _ => 65567) (fun _ _ => 77)
       (fun _ => Some (mkMONITORINFOEX (mkRECT 0 0 1920 1080)
                         (mkRECT 10 10 1910 1070)))
       (fun _ => Some (mkRECT 100 100 700 550))
       (fun _ _ cx cy rx _ => cx * 1000000 + cy * 1000 + rx)
       (fun _ _ _ => 0)
       (fun _ => Demo.blank) (Ok (mkQPoint 0 0)) (double 100) 0 [] []).


Definition set_titlebar_maximize_button (v : option QPushButton)
    (s : WindowsStyler) : WindowsStyler :=
  mkWindowsStyler (window s) (_orig_native s) (_titlebar_hook s) (hwnd s)
    (BORDER_WIDTH s) (TITLE_BAR_FALLBACK_HEIGHT s) (TITLE_BAR_FALLBACK s)
    (ROUND_CORNER_RADIUS s) v (_corner_timer s)
    (_last_corner_apply s) (_is_windows_11 s) (_original_cursor s).

(** [setTitlebarMaximizeButton], lines 366-369 *)
Definition setTitlebarMaximizeButton (button : QPushButton) : M unit :=
  modify_self (set_titlebar_maximize_button (Some button)) ;;
  is_maximized <- isMaximized ;;
  _update_maximize_button_state is_maximized.

(** [cleanup], lines 512-517 *)
Definition cleanup : M unit :=
  t <- gets (fun w => _corner_timer (self w)) ;;
  match t with
  | Some timer => QTimer_stop timer
  | None => ret tt
  end ;;
  saved <- gets (fun w => _original_cursor (self w)) ;;
  if truthy saved then user32.SetCursor (handle_arg saved) else ret tt.

(** The text [_update_maximize_button_state] puts on the button. *)
Definition tooltip (is_maximized : bool) : string :=
  if is_maximized then "Restore"%string else "Maximize"%string.

(** A button whose [setToolTip] raises [RuntimeError]. *)
Definition broken_button : QPushButton :=
  mkQPushButton true true (fun _ => Raise RuntimeError).

(** The test window with the broken button registered. *)
Definition with_broken_button : World :=
  mkWorld (set_titlebar_maximize_button (Some broken_button) Demo.styler)
    (Demo.platform (mkQPoint 0 0)).

(** The test window after a trigger, with the arrow cursor saved while the
    hand cursor is shown. *)
Definition before_close : World :=
  snd (_debounced_apply_corners hovering).

(** *** The one-time setup *)

(** constants.py, the style and frame constants *)
Module WindowsFrame.
Definition GWL_STYLE : Z := -16.
Definition WS_CAPTION : Z := 0x00C00000.
Definition WS_THICKFRAME : Z := 0x00040000.
Definition SWP_NOMOVE : Z := 0x0002.
Definition SWP_NOSIZE : Z := 0x0001.
Definition SWP_FRAMECHANGED : Z := 0x0020.
Definition DWMWA_NCRENDERING_POLICY : Z := 2.
(** The value constants.py gives to the name; what the compositor makes of
    it is outside the model. *)
Definition DWMNCRP_DISABLED : Z := 2.
Definition DWM_BB_ENABLE : Z := 0x00000001.
End WindowsFrame.
Import WindowsFrame.

(** The calls of the setup that the log of [World] has no name for. *)
Inductive FrameCall : Type :=
| call_setattr (name : string)
| call_SetWindowLongW (hWnd : option Z) (nIndex dwNewLong : Z)
| call_SetWindowPos (hWnd : option Z) (hWndInsertAfter X Y cx cy uFlags : Z)
| call_DwmEnableBlurBehindWindow (hWnd : option Z)
    (dwFlags : Z) (fEnable : bool) (hRgnBlur : Z) (fTransitionOnMaximized : bool).

(** The world together with the window longs of the native window
    ([window_long nIndex] is what the OS holds at that index) and the log of
    the setup calls.  The two logs are kept apart: the order between a call
    of one and a call of the other is not recorded. *)
Record Desktop : Type := mkDesktop {
  world : World;
  window_long : Z -> Z;
  frame_calls : list FrameCall
}.

Definition set_hwnd (v : option Z) (s : WindowsStyler) : WindowsStyler :=
  mkWindowsStyler (window s) (_orig_native s) (_titlebar_hook s) v
    (BORDER_WIDTH s) (TITLE_BAR_FALLBACK_HEIGHT s) (TITLE_BAR_FALLBACK s)
    (ROUND_CORNER_RADIUS s) (_titlebar_maximize_button s) (_corner_timer s)
    (_last_corner_apply s) (_is_windows_11 s) (_original_cursor s).

(** The style [setup_win32_frame] computes from the one it read, lines
    117-118: [style |= WS_THICKFRAME; style &= ~WS_CAPTION]. *)
Definition frame_style (style : Z) : Z :=
  Z.land (Z.lor style WS_THICKFRAME) (Z.lnot WS_CAPTION).

(** [setup_win32_frame], lines 110-136.  [GetWindowLongW] answers a C int,
    and [SetWindowLongW] takes one: both go through [to_LONG]. *)
Definition setup_win32_frame (d : Desktop) : Desktop :=
  let h := hwnd (self (world d)) in
  if negb (truthy h) then d
  else
    let style := to_LONG (window_long d GWL_STYLE) in
    let style := frame_style style in
    let longs := fun i => if i =? GWL_STYLE then to_LONG style
                          else window_long d i in
    let log := frame_calls d ++
      [call_SetWindowLongW h GWL_STYLE style;
       call_SetWindowPos h 0 0 0 0 0
         (Z.lor (Z.lor SWP_NOMOVE SWP_NOSIZE) SWP_FRAMECHANGED)] in
    mkDesktop
      (snd (dwmapi.DwmSetWindowAttribute' h DWMWA_NCRENDERING_POLICY
              DWMNCRP_DISABLED (world d)))
      longs log.

(** [enable_acrylic_blur], lines 495-510: the result of the call is only
    printed. *)
Definition enable_acrylic_blur (d : Desktop) : Desktop :=
  let h := hwnd (self (world d)) in
  if negb (truthy h) then d
  else
    mkDesktop (world d) (window_long d)
      (frame_calls d ++
       [call_DwmEnableBlurBehindWindow h DWM_BB_ENABLE true 0 false]).

(** [_post_init], lines 90-107.  [winId] is what [self.window.winId()]
    answers.  An exception of the scheduler ends the setup before the
    blur. *)
Definition _post_init (winId : res Z) (d : Desktop) : res unit * Desktop :=
  match winId with
  | Raise e => (Raise e, d)
  | Ok id =>
      let d1 := mkDesktop
                  (mkWorld (set_hwnd (Some id) (self (world d))) (sys (world d)))
                  (window_long d) (frame_calls d) in
      if negb (truthy (Some id)) then (Raise RuntimeError, d1)
      else
        let d2 := mkDesktop (world d1) (window_long d1)
                    (frame_calls d1 ++
                     [call_setattr "nativeEvent"; call_setattr "showMaximized";
                      call_setattr "showNormal"; call_setattr "isMaximized"]) in
        let d3 := setup_win32_frame d2 in
        match _debounced_apply_corners (world d3) with
        | (Ok _, w4) =>
            (Ok tt,
             enable_acrylic_blur
               (mkDesktop w4 (window_long d3) (frame_calls d3)))
        | (Raise e, w4) =>
            (Raise e, mkDesktop w4 (window_long d3) (frame_calls d3))
        end
  end.

(** The styler as constructed, on a desktop whose window has the style
    [WS_OVERLAPPEDWINDOW | WS_VISIBLE] (0x10CF0000). *)
Definition created : Desktop :=
  mkDesktop fresh (fun i => if i =? GWL_STYLE then 0x10CF0000 else 0) [].

(** ** Basic facts *)

Arguments fmul : simpl never.
Arguments fsub : simpl never.
Arguments Z2float : simpl never.
Arguments float_of_int : simpl never.
Arguments int_times_float : simpl never.
Arguments float_times_int : simpl never.
Arguments py_int : simpl never.
Arguments double : simpl never.
Arguments float_value : simpl never.
Arguments in_c_int : simpl never.
Arguments scaled : simpl never.
Arguments Z.sub : simpl nomatch.
Arguments Z.max : simpl nomatch.

Ltac unfold_monad :=
  unfold bind, ret, raise, lift, gets, modify_self, modify_sys, record, try_except in *.

(** Case analysis on the innermost scrutinee of the goal. *)
Ltac break_match :=
  match goal with
  | |- context [match ?t with _ => _ end] =>
      lazymatch t with
      | context [match _ with _ => _ end] => fail
      | _ => destruct t eqn:?
      end
  end.

Lemma to_LONG_id (z : Z) : in_LONG z -> to_LONG z = z.
Proof.
  unfold in_LONG, to_LONG. intros Hz.
  rewrite Z.mod_small by lia. lia.
Qed.

Lemma catches_Exception (e : exn) : catches [Exception] e = true.
Proof. destruct e; reflexivity. Qed.

Lemma isMaximized_pure (w : World) : snd (isMaximized w) = w.
Proof.
  unfold isMaximized, user32.IsZoomed. unfold_monad. simpl.
  destruct (truthy (hwnd (self w))); reflexivity.
Qed.

Lemma isMaximized_value (w : World) :
  fst (isMaximized w) = Ok (truthy (hwnd (self w)) && zoomed (sys w)).
Proof.
  unfold isMaximized, user32.IsZoomed. unfold_monad. simpl.
  destruct (truthy (hwnd (self w))); reflexivity.
Qed.

Lemma isMaximized_run (w : World) :
  isMaximized w = (Ok (truthy (hwnd (self w)) && zoomed (sys w)), w).
Proof.
  rewrite (surjective_pairing (isMaximized w)).
  now rewrite isMaximized_value, isMaximized_pure.
Qed.

Lemma dispatch_titlebar_pure (pt : QPoint) (y : Z) (w : World) :
  snd (_dispatch_titlebar pt y w) = w.
Proof.
  unfold _dispatch_titlebar. unfold_monad. simpl.
  repeat (break_match; simpl; try reflexivity).
Qed.

Lemma hittest_pure (w : World) : snd (_handle_hittest w) = w.
Proof.
  unfold _handle_hittest, _handle_hittest_try. unfold_monad. simpl.
  rewrite isMaximized_run.
  repeat (break_match; simpl; try reflexivity);
    match goal with
    | H : _dispatch_titlebar ?p ?y ?w = (_, ?w') |- _ =>
        pose proof (dispatch_titlebar_pure p y w) as Hp; rewrite H in Hp; exact Hp
    end.
Qed.

Lemma hittest_total (w : World) : exists r, fst (_handle_hittest w) = Ok r.
Proof.
  unfold _handle_hittest, try_except.
  destruct (_handle_hittest_try w) as [[r | e] w'].
  - now exists r.
  - rewrite catches_Exception. now exists (false, 0).
Qed.

(** The hit test when the window and the pointer answer. *)
Lemma hittest_try_run
    (w : World) (pt local : QPoint) (W H B : Z) (d : float) :
  QCursor_pos (sys w) = Ok pt ->
  mapFromGlobal (window (self w)) pt = Ok local ->
  width (window (self w)) = Ok W ->
  height (window (self w)) = Ok H ->
  devicePixelRatio (window (self w)) = Ok d ->
  scaled (BORDER_WIDTH (self w)) d = Ok B ->
  _handle_hittest_try w =
    if truthy (hwnd (self w)) && zoomed (sys w)
    then _dispatch_titlebar pt (qy local) w
    else match resize_area (qx local) (qy local) W H B with
         | Some code => (Ok (true, code), w)
         | None => _dispatch_titlebar pt (qy local) w
         end.
Proof.
  intros Hpos Hmap Hw Hh Hd HB.
  unfold _handle_hittest_try. unfold_monad. simpl.
  rewrite Hpos, Hmap, Hw, Hh, Hd. unfold scaled in HB.
  destruct (int_times_float (BORDER_WIDTH (self w)) d) as [f | e];
    [|discriminate].
  rewrite HB, isMaximized_run.
  destruct (truthy (hwnd (self w)) && zoomed (sys w)); [reflexivity|].
  destruct (resize_area _ _ _ _ _); reflexivity.
Qed.

Ltac bool_cases :=
  repeat match goal with
         | |- context [?a <? ?b] => destruct (Z.ltb_spec a b)
         | |- context [?a >? ?b] => destruct (Z.gtb_spec a b)
         end; simpl; try reflexivity; try lia.

(** What [resize_area] answers on a window wider and taller than twice the
    border. *)
Lemma resize_area_spec (x y w h bw : Z) :
  2 * bw < w -> 2 * bw < h ->
  (x < bw -> y < bw -> resize_area x y w h bw = Some HTTOPLEFT) /\
  (x > w - bw -> y < bw -> resize_area x y w h bw = Some HTTOPRIGHT) /\
  (x < bw -> y > h - bw -> resize_area x y w h bw = Some HTBOTTOMLEFT) /\
  (x > w - bw -> y > h - bw -> resize_area x y w h bw = Some HTBOTTOMRIGHT) /\
  (bw <= x <= w - bw -> y < bw -> resize_area x y w h bw = Some HTTOP) /\
  (bw <= x <= w - bw -> y > h - bw -> resize_area x y w h bw = Some HTBOTTOM) /\
  (x < bw -> bw <= y <= h - bw -> resize_area x y w h bw = Some HTLEFT) /\
  (x > w - bw -> bw <= y <= h - bw -> resize_area x y w h bw = Some HTRIGHT) /\
  (bw <= x <= w - bw -> bw <= y <= h - bw -> resize_area x y w h bw = None).
Proof.
  intros Hw Hh. unfold resize_area.
  repeat split; intros; bool_cases.
Qed.

(** ** The hit test on a restored window *)

(** C3.  On a window that is not maximized, of width [W], height [H] and
    scaled border [B] with [2 B < W] and [2 B < H], the hit test answers with
    one region and leaves the state alone; the two bands of one axis never
    overlap, so at most one corner box holds the point; a point within [B]
    of two adjacent edges gets the corner code, a point within [B] of one
    edge only gets that edge's code, and any other point gets the title-bar
    decision. *)
Theorem hittest_corner_precedence
    (w : World) (pt local : QPoint) (W H B : Z) (d : float) :
  QCursor_pos (sys w) = Ok pt ->
  mapFromGlobal (window (self w)) pt = Ok local ->
  width (window (self w)) = Ok W ->
  height (window (self w)) = Ok H ->
  devicePixelRatio (window (self w)) = Ok d ->
  scaled (BORDER_WIDTH (self w)) d = Ok B ->
  fst (isMaximized w) = Ok false ->
  2 * B < W -> 2 * B < H ->
  (exists r, _handle_hittest w = (Ok r, w)) /\
  ~ (qx local < B /\ qx local > W - B) /\
  ~ (qy local < B /\ qy local > H - B) /\
  (qx local < B -> qy local < B ->
   fst (_handle_hittest w) = Ok (true, HTTOPLEFT)) /\
  (qx local > W - B -> qy local < B ->
   fst (_handle_hittest w) = Ok (true, HTTOPRIGHT)) /\
  (qx local < B -> qy local > H - B ->
   fst (_handle_hittest w) = Ok (true, HTBOTTOMLEFT)) /\
  (qx local > W - B -> qy local > H - B ->
   fst (_handle_hittest w) = Ok (true, HTBOTTOMRIGHT)) /\
  (B <= qx local <= W - B -> qy local < B ->
   fst (_handle_hittest w) = Ok (true, HTTOP)) /\
  (B <= qx local <= W - B -> qy local > H - B ->
   fst (_handle_hittest w) = Ok (true, HTBOTTOM)) /\
  (qx local < B -> B <= qy local <= H - B ->
   fst (_handle_hittest w) = Ok (true, HTLEFT)) /\
  (qx local > W - B -> B <= qy local <= H - B ->
   fst (_handle_hittest w) = Ok (true, HTRIGHT)) /\
  (B <= qx local <= W - B -> B <= qy local <= H - B ->
   _handle_hittest w =
   try_except (_dispatch_titlebar pt (qy local)) [Exception]
     (fun _ => ret (false, 0)) w).
Proof.
  intros Hpos Hmap Hw Hh Hd HB Hmax HW HH.
  rewrite isMaximized_value in Hmax. injection Hmax as Hmax.
  pose proof (@hittest_try_run w pt local W H B d Hpos Hmap Hw Hh Hd HB) as Hrun.
  rewrite Hmax in Hrun.
  destruct (@resize_area_spec (qx local) (qy local) W H B HW HH)
    as (TL & TR & BL & BR & T & Bo & L & R & I).
  assert (Hcode : forall c,
             resize_area (qx local) (qy local) W H B = Some c ->
             fst (_handle_hittest w) = Ok (true, c)).
  { intros c Hc. unfold _handle_hittest, try_except.
    rewrite Hrun, Hc. reflexivity. }
  split.
  { destruct (hittest_total w) as [r Hr]. exists r.
    rewrite (surjective_pairing (_handle_hittest w)).
    now rewrite Hr, hittest_pure. }
  repeat split; try lia; intros; try (apply Hcode; auto).
  unfold _handle_hittest, try_except.
  rewrite Hrun, I by assumption. reflexivity.
Qed.

(** The examples of C3: (2,2) and (200,2) on the 400 x 300 window, border 8. *)
Lemma hittest_corner_precedence_witness :
  fst (_handle_hittest (Demo.world (mkQPoint 2 2))) = Ok (true, HTTOPLEFT) /\
  fst (_handle_hittest (Demo.world (mkQPoint 200 2))) = Ok (true, HTTOP).
Proof.
  split.
  - refine (proj1 (proj2 (proj2 (proj2
      (@hittest_corner_precedence (Demo.world (mkQPoint 2 2))
         (mkQPoint 2 2) (mkQPoint 2 2) 400 300 8 (double 1)
         eq_refl eq_refl eq_refl eq_refl eq_refl eq_refl eq_refl _ _)))) _ _);
      simpl; lia.
  - refine (proj1 (proj2 (proj2 (proj2 (proj2 (proj2 (proj2 (proj2
      (@hittest_corner_precedence (Demo.world (mkQPoint 200 2))
         (mkQPoint 200 2) (mkQPoint 200 2) 400 300 8 (double 1)
         eq_refl eq_refl eq_refl eq_refl eq_refl eq_refl eq_refl _ _)))))))) _ _);
      simpl; lia.
Defined.

Arguments catches : simpl never.

(** ** The hit test on a maximized window *)

(** C4 (amended).  On a maximized window the hit test skips the border
    tests.  Its answer is the caption, or client (false, 0), or the definite
    answer of a registered hook.  When the pointer and the window can be
    read, a definite answer of the hook for the point is returned as it is,
    whatever code it carries, wherever the point lies; without a hook, or
    when the hook has no opinion, the answer is the fallback one, which is
    the caption or (false, 0).  The world is left as it was. *)
Theorem maximized_hittest (w : World) :
  fst (isMaximized w) = Ok true ->
  (fst (_handle_hittest w) = Ok (true, HTCAPTION) \/
   fst (_handle_hittest w) = Ok (false, 0) \/
   (exists hook pt r,
       _titlebar_hook (self w) = Some hook /\
       QCursor_pos (sys w) = Ok pt /\
       hook pt = Ok (Some r) /\
       fst (_handle_hittest w) = Ok r)) /\
  (forall (pt local : QPoint) (W H B : Z) (d : float),
     QCursor_pos (sys w) = Ok pt ->
     mapFromGlobal (window (self w)) pt = Ok local ->
     width (window (self w)) = Ok W ->
     height (window (self w)) = Ok H ->
     devicePixelRatio (window (self w)) = Ok d ->
     scaled (BORDER_WIDTH (self w)) d = Ok B ->
     (forall hook r,
        _titlebar_hook (self w) = Some hook ->
        hook pt = Ok (Some r) ->
        _handle_hittest w = (Ok r, w)) /\
     (_titlebar_hook (self w) = None \/
      (exists hook, _titlebar_hook (self w) = Some hook /\ hook pt = Ok None) ->
      _handle_hittest w = (Ok (fallback_answer (self w) (qy local)), w) /\
      (fallback_answer (self w) (qy local) = (true, HTCAPTION) \/
       fallback_answer (self w) (qy local) = (false, 0)))).
Proof.
  intros Hmax. rewrite isMaximized_value in Hmax. injection Hmax as Hmax.
  split.
  - unfold _handle_hittest, _handle_hittest_try. unfold_monad. simpl.
    rewrite isMaximized_run, Hmax.
    unfold _dispatch_titlebar. unfold_monad. simpl.
    repeat (break_match; simpl; auto); subst;
      try match goal with
          | H : catches [Exception] _ = false |- _ =>
              rewrite catches_Exception in H; discriminate
          end.
    right; right. eauto 10.
  - intros pt local W H B d Hpos Hmap Hw Hh Hd HB.
    pose proof (hittest_try_run w pt local W H B d Hpos Hmap Hw Hh Hd HB) as Hrun.
    rewrite Hmax in Hrun.
    split.
    + intros hook r Hs Hans. unfold _handle_hittest, try_except.
      rewrite Hrun. unfold _dispatch_titlebar. unfold_monad. simpl.
      now rewrite Hs, Hans.
    + intros Hhook. split.
      * unfold _handle_hittest, try_except. rewrite Hrun.
        unfold _dispatch_titlebar, fallback_answer. unfold_monad. simpl.
        destruct Hhook as [Hn | (hook & Hs & Hnone)].
        -- rewrite Hn. now destruct (TITLE_BAR_FALLBACK (self w) && _).
        -- rewrite Hs, Hnone. now destruct (TITLE_BAR_FALLBACK (self w) && _).
      * unfold fallback_answer.
        destruct (TITLE_BAR_FALLBACK (self w) && _); auto.
Qed.

(** C4 as stated fails: the maximized window answers with a border code. *)
Lemma maximized_hittest_border_code :
  fst (isMaximized hooked_maximized) = Ok true /\
  fst (_handle_hittest hooked_maximized) = Ok (true, HTLEFT) /\
  Ok (true, HTLEFT) <> Ok (true, HTCAPTION) /\
  Ok (true, HTLEFT) <> @Ok (bool * Z) (false, 0).
Proof. repeat split; try reflexivity; discriminate. Qed.

(** The theorem on the maximized test window: the title bar without a hook,
    and the point (0, 150) for which the hook names the left border. *)
Lemma maximized_hittest_witness :
  fst (isMaximized plain_maximized) = Ok true /\
  _handle_hittest plain_maximized = (Ok (true, HTCAPTION), plain_maximized) /\
  _handle_hittest hooked_maximized = (Ok (true, HTLEFT), hooked_maximized).
Proof.
  split; [reflexivity|]. split.
  - exact (proj1 (proj2 (proj2 (maximized_hittest plain_maximized eq_refl)
                           (mkQPoint 200 15) (mkQPoint 200 15) 400 300 8
                           (double 1) eq_refl eq_refl eq_refl eq_refl eq_refl
                           eq_refl)
                    (or_introl eq_refl))).
  - exact (proj1 (proj2 (maximized_hittest hooked_maximized eq_refl)
                    (mkQPoint 0 150) (mkQPoint 0 150) 400 300 8
                    (double 1) eq_refl eq_refl eq_refl eq_refl eq_refl
                    eq_refl)
             (fun _ => Ok (Some (true, HTLEFT))) (true, HTLEFT)
             eq_refl eq_refl).
Defined.

(** ** A failing title-bar hook *)

(** C7 (amended).  When the hit test reaches the hook (the window is
    maximized, or no corner or edge matched) and the hook raises, nothing
    propagates and the state is untouched.  An [AttributeError], [TypeError]
    or [ValueError] counts as no opinion: the answer is the fallback one,
    caption when the fallback is enabled and the vertical offset is below
    the fallback height, (false, 0) otherwise.  Any other exception reaches
    the handler of the hit test, which answers (false, 0) wherever the
    point is. *)
Theorem hook_failure
    (w : World) (hook : QPoint -> res (option (bool * Z)))
    (pt local : QPoint) (W H B : Z) (d : float) (e : exn) :
  _titlebar_hook (self w) = Some hook ->
  QCursor_pos (sys w) = Ok pt ->
  hook pt = Raise e ->
  mapFromGlobal (window (self w)) pt = Ok local ->
  width (window (self w)) = Ok W ->
  height (window (self w)) = Ok H ->
  devicePixelRatio (window (self w)) = Ok d ->
  scaled (BORDER_WIDTH (self w)) d = Ok B ->
  fst (isMaximized w) = Ok true \/
  resize_area (qx local) (qy local) W H B = None ->
  _handle_hittest w =
    (Ok (if catches [AttributeError; TypeError; ValueError] e
         then fallback_answer (self w) (qy local)
         else (false, 0)), w).
Proof.
  intros Hhook Hpos Hraise Hmap Hw Hh Hd HB Hreach.
  assert (Hdisp : _dispatch_titlebar pt (qy local) w =
                  if catches [AttributeError; TypeError; ValueError] e
                  then (Ok (fallback_answer (self w) (qy local)), w)
                  else (Raise e, w)).
  { unfold _dispatch_titlebar, fallback_answer. unfold_monad. simpl.
    rewrite Hhook, Hraise.
    destruct (catches _ e); [|reflexivity].
    destruct (TITLE_BAR_FALLBACK (self w) && _); reflexivity. }
  unfold _handle_hittest, try_except.
  rewrite (hittest_try_run w pt local W H B d Hpos Hmap Hw Hh Hd HB).
  rewrite isMaximized_value in Hreach.
  assert (Hgo : (if truthy (hwnd (self w)) && zoomed (sys w)
                 then _dispatch_titlebar pt (qy local) w
                 else match resize_area (qx local) (qy local) W H B with
                      | Some code => (Ok (true, code), w)
                      | None => _dispatch_titlebar pt (qy local) w
                      end) = _dispatch_titlebar pt (qy local) w).
  { destruct Hreach as [Hm | Hr].
    - injection Hm as Hm. now rewrite Hm.
    - rewrite Hr. now destruct (truthy (hwnd (self w)) && zoomed (sys w)). }
  rewrite Hgo, Hdisp.
  destruct (catches [AttributeError; TypeError; ValueError] e); [reflexivity|].
  now rewrite catches_Exception.
Qed.

(** C7 as stated fails: the hook raises [RuntimeError] at (200,15), above
    the fallback height 30, and the answer is (false, 0), not the caption. *)
Lemma hook_runtime_error_not_fallback :
  fallback_answer (self (raising_hook RuntimeError (mkQPoint 200 15))) 15
    = (true, HTCAPTION) /\
  fst (_handle_hittest (raising_hook RuntimeError (mkQPoint 200 15)))
    = Ok (false, 0) /\
  @Ok (bool * Z) (false, 0) <> Ok (true, HTCAPTION).
Proof. split; [reflexivity | split; [reflexivity | discriminate]]. Qed.

(** The theorem at a hook raising [ValueError] and at one raising
    [RuntimeError], pointer at (200,15). *)
Lemma hook_failure_witness :
  _handle_hittest (raising_hook ValueError (mkQPoint 200 15))
    = (Ok (true, HTCAPTION), raising_hook ValueError (mkQPoint 200 15)) /\
  _handle_hittest (raising_hook RuntimeError (mkQPoint 200 15))
    = (Ok (false, 0), raising_hook RuntimeError (mkQPoint 200 15)).
Proof.
  split.
  - exact (hook_failure (raising_hook ValueError (mkQPoint 200 15))
             (fun _ => Raise ValueError) (mkQPoint 200 15) (mkQPoint 200 15)
             400 300 8 (double 1) ValueError
             eq_refl eq_refl eq_refl eq_refl eq_refl eq_refl eq_refl eq_refl
             (or_intror eq_refl)).
  - exact (hook_failure (raising_hook RuntimeError (mkQPoint 200 15))
             (fun _ => Raise RuntimeError) (mkQPoint 200 15) (mkQPoint 200 15)
             400 300 8 (double 1) RuntimeError
             eq_refl eq_refl eq_refl eq_refl eq_refl eq_refl eq_refl eq_refl
             (or_intror eq_refl)).
Defined.

(** ** Before the native handle exists *)

(** C10.  While [hwnd] is unset ([None], or the null handle), [isMaximized]
    answers [False] and [showMaximized] and [showNormal] return at once:
    no call is made and the world is the one they started from. *)
Theorem no_handle_no_effect (w : World) :
  truthy (hwnd (self w)) = false ->
  isMaximized w = (Ok false, w) /\
  showMaximized w = (Ok tt, w) /\
  showNormal w = (Ok tt, w).
Proof.
  intros Hh. repeat split.
  - rewrite isMaximized_run, Hh. reflexivity.
  - unfold showMaximized. unfold_monad. simpl. now rewrite Hh.
  - unfold showNormal. unfold_monad. simpl. now rewrite Hh.
Qed.

Lemma no_handle_no_effect_witness :
  hwnd (self fresh) = None /\
  isMaximized fresh = (Ok false, fresh) /\
  showMaximized fresh = (Ok tt, fresh) /\
  showNormal fresh = (Ok tt, fresh).
Proof.
  split; [reflexivity|].
  exact (no_handle_no_effect fresh eq_refl).
Defined.

(** ** The dispatcher, message by message *)

Lemma nativeEvent_hittest (msg : MSG) (w : World) :
  message msg = WM_NCHITTEST ->
  nativeEvent windows_generic_MSG msg w = _handle_hittest w.
Proof.
  intros Hm. unfold nativeEvent. rewrite Hm. simpl.
  unfold_monad. reflexivity.
Qed.

Lemma nativeEvent_getminmax (msg : MSG) (w : World) :
  message msg = WM_GETMINMAXINFO ->
  nativeEvent windows_generic_MSG msg w = _handle_getminmax msg w.
Proof.
  intros Hm. unfold nativeEvent. rewrite Hm. simpl.
  unfold_monad. reflexivity.
Qed.

(** ** The min-max constraint *)

(** C6.  When the monitor under the window and its description are found,
    a [WM_GETMINMAXINFO] message is answered (true, 0); the maximized
    position written is the work area's origin minus the monitor's origin,
    the maximized size is the work area's width and height, and the minimum
    track size is the window's minimum size, not below (200, 100).  The
    fields are [LONG]s, so each value goes through [to_LONG]; it is stored
    as it is for a work area inside its monitor and for a minimum size in
    the range of a [LONG]. *)
Theorem getminmax_work_area
    (w : World) (msg : MSG) (mi : MONITORINFOEX) (mw mh : Z) :
  message msg = WM_GETMINMAXINFO ->
  lParam msg <> 0 ->
  truthy (hwnd (self w)) = true ->
  MonitorFromWindow (sys w) (handle_arg (hwnd (self w)))
    MONITOR_DEFAULTTONEAREST <> 0 ->
  GetMonitorInfoW (sys w)
    (MonitorFromWindow (sys w) (handle_arg (hwnd (self w)))
       MONITOR_DEFAULTTONEAREST) = Some mi ->
  minimumWidth (window (self w)) = Ok mw ->
  minimumHeight (window (self w)) = Ok mh ->
  fst (nativeEvent windows_generic_MSG msg w) = Ok (true, 0) /\
  ptMaxPosition (minmax_after msg w) =
    mkPOINT (to_LONG (left (rcWork mi) - left (rcMonitor mi)))
            (to_LONG (top (rcWork mi) - top (rcMonitor mi))) /\
  ptMaxSize (minmax_after msg w) =
    mkPOINT (to_LONG (right (rcWork mi) - left (rcWork mi)))
            (to_LONG (bottom (rcWork mi) - top (rcWork mi))) /\
  ptMinTrackSize (minmax_after msg w) =
    mkPOINT (to_LONG (Z.max mw 200)) (to_LONG (Z.max mh 100)) /\
  (inside (rcWork mi) (rcMonitor mi) ->
   ptMaxPosition (minmax_after msg w) =
     mkPOINT (left (rcWork mi) - left (rcMonitor mi))
             (top (rcWork mi) - top (rcMonitor mi)) /\
   ptMaxSize (minmax_after msg w) =
     mkPOINT (right (rcWork mi) - left (rcWork mi))
             (bottom (rcWork mi) - top (rcWork mi))) /\
  (in_LONG mw -> in_LONG mh ->
   ptMinTrackSize (minmax_after msg w) =
     mkPOINT (Z.max mw 200) (Z.max mh 100)).
Proof.
  intros Hm Hl Hh Hmon Hinfo Hmw Hmh.
  assert (Hstored :
    fst (nativeEvent windows_generic_MSG msg w) = Ok (true, 0) /\
    ptMaxPosition (minmax_after msg w) =
      mkPOINT (to_LONG (left (rcWork mi) - left (rcMonitor mi)))
              (to_LONG (top (rcWork mi) - top (rcMonitor mi))) /\
    ptMaxSize (minmax_after msg w) =
      mkPOINT (to_LONG (right (rcWork mi) - left (rcWork mi)))
              (to_LONG (bottom (rcWork mi) - top (rcWork mi))) /\
    ptMinTrackSize (minmax_after msg w) =
      mkPOINT (to_LONG (Z.max mw 200)) (to_LONG (Z.max mh 100))).
  { unfold minmax_after. rewrite (nativeEvent_getminmax msg w Hm).
    unfold _handle_getminmax, _handle_getminmax_try.
    apply Z.eqb_neq in Hl, Hmon.
    rewrite Hl. unfold try_except, store. unfold_monad. simpl.
    rewrite Hh. simpl. rewrite Hmon, Hinfo, Hmw, Hmh. simpl.
    rewrite Z.eqb_refl. simpl.
    repeat split. }
  destruct Hstored as (Hr & Hpos & Hsize & Hmin).
  repeat (split; [assumption|]).
  split.
  - intros (H1 & H2 & H3 & H4 & H5 & H6 & H7 & H8).
    rewrite Hpos, Hsize.
    rewrite !to_LONG_id by (unfold in_LONG; lia). split; reflexivity.
  - intros Hw' Hh'. rewrite Hmin.
    rewrite !to_LONG_id by (unfold in_LONG in *; lia). reflexivity.
Qed.

(** The example of C6: work area (10,10)-(1910,1070) on a monitor
    (0,0)-(1920,1080), minimum size (200,100). *)
Lemma getminmax_work_area_witness :
  fst (nativeEvent windows_generic_MSG (mkMSG WM_GETMINMAXINFO 0 4096)
         (Demo.world (mkQPoint 0 0))) = Ok (true, 0) /\
  ptMaxPosition (minmax_after (mkMSG WM_GETMINMAXINFO 0 4096)
                   (Demo.world (mkQPoint 0 0))) = mkPOINT 10 10 /\
  ptMaxSize (minmax_after (mkMSG WM_GETMINMAXINFO 0 4096)
               (Demo.world (mkQPoint 0 0))) = mkPOINT 1900 1060 /\
  ptMinTrackSize (minmax_after (mkMSG WM_GETMINMAXINFO 0 4096)
                    (Demo.world (mkQPoint 0 0))) = mkPOINT 200 100.
Proof.
  destruct (getminmax_work_area (Demo.world (mkQPoint 0 0))
              (mkMSG WM_GETMINMAXINFO 0 4096)
              (mkMONITORINFOEX (mkRECT 0 0 1920 1080) (mkRECT 10 10 1910 1070))
              200 100 eq_refl ltac:(discriminate) eq_refl ltac:(discriminate)
              eq_refl eq_refl eq_refl)
    as (Hr & _ & _ & _ & Hexact & Hmin).
  assert (Hin : inside (mkRECT 10 10 1910 1070) (mkRECT 0 0 1920 1080))
    by (unfold inside; simpl; lia).
  destruct (Hexact Hin) as (Hpos & Hsize).
  split; [exact Hr|].
  split; [exact Hpos|].
  split; [exact Hsize|].
  apply Hmin; unfold in_LONG; lia.
Defined.

(** ** The debounced scheduler, one call *)

Lemma debounced_spec (w : World) :
  fst (_debounced_apply_corners w) = when_scheduled w tt /\
  calls (sys (snd (_debounced_apply_corners w))) =
    calls (sys w) ++ debounce_calls w /\
  pending (sys (snd (_debounced_apply_corners w))) =
    after_stop w ++ debounce_timeout w /\
  zoomed (sys (snd (_debounced_apply_corners w))) = zoomed (sys w) /\
  cursor (sys (snd (_debounced_apply_corners w))) = cursor (sys w) /\
  time_time (sys (snd (_debounced_apply_corners w))) = time_time (sys w) /\
  _last_corner_apply (self (snd (_debounced_apply_corners w))) =
    _last_corner_apply (self w) /\
  _titlebar_maximize_button (self (snd (_debounced_apply_corners w))) =
    _titlebar_maximize_button (self w) /\
  hwnd (self (snd (_debounced_apply_corners w))) = hwnd (self w) /\
  _orig_native (self (snd (_debounced_apply_corners w))) =
    _orig_native (self w) /\
  _original_cursor (self (snd (_debounced_apply_corners w))) =
    _original_cursor (self w).
Proof.
  unfold _debounced_apply_corners, QTimer_stop, QTimer_new, QTimer_singleShot,
    time, debounce_calls, debounce_timeout, stop_calls, after_stop,
    when_scheduled, debounce_delay, elapsed_ms.
  unfold_monad. cbn.
  destruct (_corner_timer (self w)); cbn;
    (destruct (float_times_int
                 (fsub (time_time (sys w)) (_last_corner_apply (self w))) 1000)
       as [f | e]; cbn;
     [destruct (py_int f) as [ms | e]; cbn;
      [destruct (in_c_int (Z.max 0 (50 - ms))); cbn|]|]);
    repeat split; rewrite <- ?app_assoc, ?app_nil_r; reflexivity.
Qed.

(** ** What the handlers leave alone *)

Lemma keeps_refl (w : World) : keeps w w.
Proof. repeat split. Qed.

Lemma keeps_trans (w1 w2 w3 : World) : keeps w1 w2 -> keeps w2 w3 -> keeps w1 w3.
Proof.
  unfold keeps. intros (A1 & B1 & C1) (A2 & B2 & C2).
  repeat split; congruence.
Qed.

Lemma debounced_keeps (w : World) : keeps w (snd (_debounced_apply_corners w)).
Proof.
  destruct (debounced_spec w) as (_ & _ & _ & _ & _ & _ & _ & _ & Hh & Ho & Hc).
  unfold keeps. auto.
Qed.

(** The scheduler reads the clock and the stamp of the last application
    only: two worlds that agree on them get the same delay. *)
Lemma debounce_delay_ext (w w' : World) :
  time_time (sys w') = time_time (sys w) ->
  _last_corner_apply (self w') = _last_corner_apply (self w) ->
  debounce_delay w' = debounce_delay w.
Proof.
  intros Ht Hl. unfold debounce_delay, elapsed_ms. now rewrite Ht, Hl.
Qed.

Lemma update_button_spec (b : bool) (w : World) :
  fst (_update_maximize_button_state b w) = Ok tt /\
  self (snd (_update_maximize_button_state b w)) = self w /\
  zoomed (sys (snd (_update_maximize_button_state b w))) = zoomed (sys w) /\
  cursor (sys (snd (_update_maximize_button_state b w))) = cursor (sys w) /\
  time_time (sys (snd (_update_maximize_button_state b w))) = time_time (sys w) /\
  pending (sys (snd (_update_maximize_button_state b w))) = pending (sys w) /\
  calls (sys (snd (_update_maximize_button_state b w))) =
    calls (sys w) ++ observer_calls (self w) b.
Proof.
  unfold _update_maximize_button_state, observer_calls. unfold_monad. simpl.
  destruct (_titlebar_maximize_button (self w)) as [button|]; simpl.
  - destruct (hasattr_setToolTip button); simpl.
    + destruct (setToolTip button _) as [[] | e]; simpl;
        try rewrite catches_Exception; simpl; repeat split.
    + repeat split. now rewrite app_nil_r.
  - repeat split. now rewrite app_nil_r.
Qed.

Lemma getminmax_keeps (msg : MSG) (w : World) :
  keeps w (snd (_handle_getminmax msg w)).
Proof.
  unfold _handle_getminmax, _handle_getminmax_try, store. unfold_monad.
  repeat (break_match; simpl; try apply keeps_refl);
    repeat match goal with
           | H : (_, _) = (_, _) |- _ => inversion H; subst; clear H
           end;
    try apply keeps_refl; repeat split.
Qed.

(** ** The dispatcher as a table *)

Ltac by_message :=
  repeat match goal with
         | |- context [message ?m =? ?c] =>
             let H := fresh "Hm" in
             destruct (Z.eqb_spec (message m) c) as [H | H];
             [rewrite H in *; simpl | simpl]
         end.

Lemma nativeEvent_table (msg : MSG) (w : World) :
  nativeEvent windows_generic_MSG msg w =
  match classify (message msg) with
  | NcPaintActivate | NcCalcSize => (Ok (true, 0), w)
  | SetCursorMsg => or_orig_native (on_setcursor msg) windows_generic_MSG msg w
  | NcButton => or_orig_native (on_ncbutton msg) windows_generic_MSG msg w
  | GetMinMaxInfo => _handle_getminmax msg w
  | NcHitTest => _handle_hittest w
  | SizeMove =>
      (_debounced_apply_corners ;; call_orig_native windows_generic_MSG msg) w
  | OtherMsg => call_orig_native windows_generic_MSG msg w
  end.
Proof.
  unfold nativeEvent, classify, or_orig_native, call_orig_native, is_in.
  simpl. by_message; unfold_monad; try reflexivity.
Qed.

Lemma nativeEvent_other_type (eventType : string) (msg : MSG) (w : World) :
  (eventType =? windows_generic_MSG)%string = false ->
  nativeEvent eventType msg w = call_orig_native eventType msg w.
Proof.
  intros Ht. unfold nativeEvent. rewrite Ht. reflexivity.
Qed.

(** ** The maximize button *)

(** [ShowWindow] on the styler's own handle. *)
Lemma ShowWindow_spec (h : option Z) (cmd : Z) (w : World) :
  fst (user32.ShowWindow h cmd w) = Ok tt /\
  self (snd (user32.ShowWindow h cmd w)) = self w /\
  calls (sys (snd (user32.ShowWindow h cmd w))) =
    calls (sys w) ++ [call_ShowWindow h cmd] /\
  cursor (sys (snd (user32.ShowWindow h cmd w))) = cursor (sys w) /\
  time_time (sys (snd (user32.ShowWindow h cmd w))) = time_time (sys w) /\
  pending (sys (snd (user32.ShowWindow h cmd w))) = pending (sys w) /\
  zoomed (sys (snd (user32.ShowWindow h cmd w))) =
    if truthy h then
      if cmd =? SW_MAXIMIZE then true
      else if cmd =? SW_RESTORE then false
      else zoomed (sys w)
    else zoomed (sys w).
Proof.
  unfold user32.ShowWindow. unfold_monad. simpl.
  destruct (truthy h); simpl; [|repeat split].
  destruct (cmd =? SW_MAXIMIZE); simpl; [repeat split|].
  destruct (cmd =? SW_RESTORE); simpl; repeat split.
Qed.

Lemma toggle_spec (msg : MSG) (w : World) :
  wParam msg = HTMAXBUTTON ->
  is_in (message msg) [WM_NCLBUTTONUP; WM_NCLBUTTONDBLCLK] = true ->
  fst (on_ncbutton msg w) = when_scheduled w (Some (true, 0)) /\
  calls (sys (snd (on_ncbutton msg w))) =
    calls (sys w)
      ++ [call_ShowWindow (hwnd (self w)) (opposite (maximized w))]
      ++ observer_calls (self w) (negb (maximized w))
      ++ debounce_calls w /\
  zoomed (sys (snd (on_ncbutton msg w))) =
    (if truthy (hwnd (self w)) then negb (zoomed (sys w)) else zoomed (sys w)) /\
  cursor (sys (snd (on_ncbutton msg w))) = cursor (sys w) /\
  keeps w (snd (on_ncbutton msg w)) /\
  debounce_delay (snd (on_ncbutton msg w)) = debounce_delay w.
Proof.
  intros Hht Hmsg.
  assert (Hdown : (message msg =? WM_NCLBUTTONDOWN) = false).
  { unfold is_in in Hmsg. simpl in Hmsg.
    rewrite !orb_true_iff in Hmsg.
    destruct Hmsg as [H | [H | H]]; try discriminate;
      apply Z.eqb_eq in H; rewrite H; reflexivity. }
  set (cmd := opposite (maximized w)).
  set (w1 := snd (user32.ShowWindow (hwnd (self w)) cmd w)).
  set (w2 := snd (_update_maximize_button_state (negb (maximized w)) w1)).
  set (w3 := snd (_debounced_apply_corners w2)).
  destruct (ShowWindow_spec (hwnd (self w)) cmd w)
    as (S1 & S2 & S3 & S4 & S5 & S6 & S7).
  destruct (update_button_spec (negb (maximized w)) w1)
    as (U1 & U2 & U3 & U4 & U5 & U6 & U7).
  destruct (debounced_spec w2)
    as (D1 & D2 & D3 & D4 & D5 & D6 & D7 & D8 & D9 & D10 & D11).
  fold w1 in S2, S3, S4, S5, S6, S7.
  fold w2 in U2, U3, U4, U5, U6, U7.
  fold w3 in D2, D3, D4, D5, D6, D7, D8, D9, D10, D11.
  assert (Hdd : debounce_delay w2 = debounce_delay w).
  { apply debounce_delay_ext; congruence. }
  assert (Hrun : on_ncbutton msg w = (when_scheduled w (Some (true, 0)), w3)).
  { unfold on_ncbutton. rewrite Hht, Hdown, Hmsg. simpl.
    unfold bind. rewrite isMaximized_run. fold (maximized w). unfold gets.
    replace (if maximized w
             then user32.ShowWindow (hwnd (self w)) SW_RESTORE
             else user32.ShowWindow (hwnd (self w)) SW_MAXIMIZE)
      with (user32.ShowWindow (hwnd (self w)) cmd)
      by (unfold cmd, opposite; now destruct (maximized w)).
    rewrite (surjective_pairing (user32.ShowWindow (hwnd (self w)) cmd w)), S1.
    fold w1.
    rewrite (surjective_pairing
               (_update_maximize_button_state (negb (maximized w)) w1)), U1.
    fold w2.
    rewrite (surjective_pairing (_debounced_apply_corners w2)), D1.
    fold w3. unfold when_scheduled. rewrite Hdd.
    now destruct (debounce_delay w). }
  assert (Hdc : debounce_calls w2 = debounce_calls w).
  { unfold debounce_calls, stop_calls. now rewrite Hdd, U2, S2. }
  rewrite Hrun. simpl.
  split; [reflexivity|].
  split.
  { rewrite D2, U7, S3, S2, Hdc. now rewrite <- !app_assoc. }
  split.
  { rewrite D4, U3, S7. unfold cmd, opposite, maximized.
    destruct (truthy (hwnd (self w))); [|reflexivity].
    simpl. now destruct (zoomed (sys w)). }
  split; [congruence|].
  split.
  { unfold keeps. rewrite D11, D10, D9, U2, S2. repeat split. }
  rewrite <- Hdd. apply debounce_delay_ext; congruence.
Qed.

Lemma triggers_app (l1 l2 : list Call) :
  triggers (l1 ++ l2) = (triggers l1 + triggers l2)%nat.
Proof. unfold triggers. now rewrite filter_app, List.length_app. Qed.

Lemma triggers_debounce (w : World) :
  triggers (debounce_calls w) =
    match debounce_delay w with Ok _ => 1%nat | Raise _ => 0%nat end.
Proof.
  unfold debounce_calls, stop_calls.
  destruct (_corner_timer (self w)); destruct (debounce_delay w); reflexivity.
Qed.

Lemma triggers_observer (s : WindowsStyler) (b : bool) :
  triggers (observer_calls s b) = 0%nat.
Proof.
  unfold observer_calls.
  destruct (_titlebar_maximize_button s) as [button|]; [|reflexivity].
  destruct (hasattr_setToolTip button); reflexivity.
Qed.

Lemma classify_button_up (msg : MSG) :
  is_in (message msg) [WM_NCLBUTTONUP; WM_NCLBUTTONDBLCLK] = true ->
  classify (message msg) = NcButton.
Proof.
  unfold is_in. simpl. rewrite !orb_true_iff.
  intros [H | [H | H]]; try discriminate;
    apply Z.eqb_eq in H; rewrite H; reflexivity.
Qed.

Lemma nativeEvent_toggle (msg : MSG) (w : World) :
  is_in (message msg) [WM_NCLBUTTONUP; WM_NCLBUTTONDBLCLK] = true ->
  wParam msg = HTMAXBUTTON ->
  nativeEvent windows_generic_MSG msg w =
    (when_scheduled w (true, 0), snd (on_ncbutton msg w)).
Proof.
  intros Hmsg Hht.
  rewrite nativeEvent_table, (classify_button_up msg Hmsg).
  destruct (toggle_spec msg w Hht Hmsg) as (Hr & _).
  unfold or_orig_native, bind.
  rewrite (surjective_pairing (on_ncbutton msg w)), Hr.
  unfold when_scheduled. now destruct (debounce_delay w).
Qed.

(** C5 (amended).  A non-client button-up or double-click on the maximize
    button makes, in order: [ShowWindow] with the directive opposite to the
    maximized state, the observer's tooltip update, and one round of the
    debounced scheduler.  With a window handle the maximized state is
    flipped, and handling the message twice gives back the maximized state
    of the start.  When the scheduler returns, which it does when the delay
    it computes is a C [int], the message is answered (true, 0) and one
    trigger was added, two after the message was handled twice.  When the
    scheduler raises, its exception leaves the dispatcher and no trigger
    was added. *)
Theorem maximize_button_toggle (w : World) (msg : MSG) :
  is_in (message msg) [WM_NCLBUTTONUP; WM_NCLBUTTONDBLCLK] = true ->
  wParam msg = HTMAXBUTTON ->
  fst (nativeEvent windows_generic_MSG msg w) = when_scheduled w (true, 0) /\
  calls (sys (snd (nativeEvent windows_generic_MSG msg w))) =
    calls (sys w)
      ++ [call_ShowWindow (hwnd (self w)) (opposite (maximized w))]
      ++ observer_calls (self w) (negb (maximized w))
      ++ debounce_calls w /\
  (truthy (hwnd (self w)) = true ->
   fst (isMaximized (snd (nativeEvent windows_generic_MSG msg w))) =
     Ok (negb (maximized w))) /\
  fst (isMaximized (twice msg w)) = fst (isMaximized w) /\
  (forall delay, debounce_delay w = Ok delay ->
     fst (nativeEvent windows_generic_MSG msg w) = Ok (true, 0) /\
     triggers (calls (sys (snd (nativeEvent windows_generic_MSG msg w)))) =
       S (triggers (calls (sys w))) /\
     fst (nativeEvent windows_generic_MSG msg
            (snd (nativeEvent windows_generic_MSG msg w))) = Ok (true, 0) /\
     triggers (calls (sys (twice msg w))) = S (S (triggers (calls (sys w))))) /\
  (forall e, debounce_delay w = Raise e ->
     fst (nativeEvent windows_generic_MSG msg w) = Raise e /\
     triggers (calls (sys (snd (nativeEvent windows_generic_MSG msg w)))) =
       triggers (calls (sys w))).
Proof.
  intros Hmsg Hht.
  assert (Hstep : forall v,
    fst (nativeEvent windows_generic_MSG msg v) = when_scheduled v (true, 0) /\
    calls (sys (snd (nativeEvent windows_generic_MSG msg v))) =
      calls (sys v)
        ++ [call_ShowWindow (hwnd (self v)) (opposite (maximized v))]
        ++ observer_calls (self v) (negb (maximized v))
        ++ debounce_calls v /\
    triggers (calls (sys (snd (nativeEvent windows_generic_MSG msg v)))) =
      (triggers (calls (sys v)) +
       match debounce_delay v with Ok _ => 1 | Raise _ => 0 end)%nat /\
    maximized (snd (nativeEvent windows_generic_MSG msg v)) =
      (if truthy (hwnd (self v)) then negb (maximized v) else false) /\
    hwnd (self (snd (nativeEvent windows_generic_MSG msg v))) = hwnd (self v) /\
    debounce_delay (snd (nativeEvent windows_generic_MSG msg v)) =
      debounce_delay v).
  { intros v. rewrite (nativeEvent_toggle msg v Hmsg Hht). simpl.
    destruct (toggle_spec msg v Hht Hmsg)
      as (_ & Hc & Hz & _ & (_ & _ & Hh) & Hdd).
    split; [reflexivity|]. split; [exact Hc|]. split.
    { rewrite Hc, !triggers_app, triggers_observer, triggers_debounce.
      simpl. lia. }
    split; [|split; [exact Hh | exact Hdd]].
    unfold maximized. rewrite Hh, Hz.
    destruct (truthy (hwnd (self v))); reflexivity. }
  destruct (Hstep w) as (R1 & C1 & T1 & M1 & H1 & E1).
  destruct (Hstep (snd (nativeEvent windows_generic_MSG msg w)))
    as (R2 & _ & T2 & M2 & _ & _).
  split; [exact R1|]. split; [exact C1|]. split; [|split; [|split]].
  - intros Hh. rewrite isMaximized_value. fold (maximized
      (snd (nativeEvent windows_generic_MSG msg w))).
    now rewrite M1, Hh.
  - rewrite !isMaximized_value. unfold twice.
    fold (maximized w).
    fold (maximized (snd (nativeEvent windows_generic_MSG msg
                            (snd (nativeEvent windows_generic_MSG msg w))))).
    rewrite M2, H1, M1. unfold maximized.
    destruct (truthy (hwnd (self w))); simpl; [|reflexivity].
    now rewrite negb_involutive.
  - intros delay Hd. unfold when_scheduled in R1, R2.
    rewrite E1 in R2, T2. rewrite Hd in R1, R2, T1, T2.
    split; [exact R1|]. split; [rewrite T1; lia|].
    split; [exact R2|]. unfold twice. rewrite T2, T1. lia.
  - intros e He. unfold when_scheduled in R1. rewrite He in R1, T1.
    split; [exact R1 | rewrite T1; lia].
Qed.

(** C5 as stated fails: with the wall clock set back by more than 2^31 ms
    behind the last application, the delay 2999900050 is no C [int]; the
    directive is issued, but [OverflowError] leaves the dispatcher and no
    reapplication is triggered. *)
Lemma toggle_with_clock_set_back :
  debounce_delay clock_set_back = Raise OverflowError /\
  fst (nativeEvent windows_generic_MSG (mkMSG WM_NCLBUTTONUP HTMAXBUTTON 0)
         clock_set_back) = Raise OverflowError /\
  calls (sys (snd (nativeEvent windows_generic_MSG
                     (mkMSG WM_NCLBUTTONUP HTMAXBUTTON 0) clock_set_back))) =
    [call_ShowWindow (Some 4242) SW_MAXIMIZE] /\
  Raise OverflowError <> @Ok (bool * Z) (true, 0).
Proof.
  split; [vm_compute; reflexivity|].
  split; [vm_compute; reflexivity|].
  split; [vm_compute; reflexivity | discriminate].
Qed.

Lemma maximize_button_toggle_witness :
  fst (nativeEvent windows_generic_MSG (mkMSG WM_NCLBUTTONUP HTMAXBUTTON 0)
         (Demo.world (mkQPoint 380 10))) = Ok (true, 0) /\
  fst (isMaximized (snd (nativeEvent windows_generic_MSG
         (mkMSG WM_NCLBUTTONUP HTMAXBUTTON 0)
         (Demo.world (mkQPoint 380 10))))) = Ok true /\
  fst (isMaximized (twice (mkMSG WM_NCLBUTTONUP HTMAXBUTTON 0)
         (Demo.world (mkQPoint 380 10)))) = Ok false /\
  triggers (calls (sys (twice (mkMSG WM_NCLBUTTONUP HTMAXBUTTON 0)
         (Demo.world (mkQPoint 380 10))))) = 2%nat.
Proof.
  destruct (maximize_button_toggle (Demo.world (mkQPoint 380 10))
              (mkMSG WM_NCLBUTTONUP HTMAXBUTTON 0) eq_refl eq_refl)
    as (_ & _ & Hflip & Hback & Hok & _).
  destruct (Hok 0 eq_refl) as (Hr & _ & _ & Htr).
  split; [exact Hr|].
  split; [exact (Hflip eq_refl)|].
  split; [exact Hback | exact Htr].
Defined.

(** ** Size, move and DPI messages *)

Lemma classify_size (msg : MSG) :
  is_in (message msg)
    [WM_SIZE; WM_WINDOWPOSCHANGED; WM_EXITSIZEMOVE; WM_DPICHANGED] = true ->
  classify (message msg) = SizeMove.
Proof.
  unfold is_in. simpl. rewrite !orb_true_iff.
  intros [H | [H | [H | [H | H]]]]; try discriminate;
    apply Z.eqb_eq in H; rewrite H; reflexivity.
Qed.

(** C8 (amended).  A size, window-pos-changed, exit-size-move or
    DPI-changed message runs the debounced scheduler once.  When the
    scheduler returns, one trigger was added and the message is handed to
    the previous native-event handler: the dispatcher returns that handler's
    answer as it is, hence (false, 0) when the handler answers (false, 0).
    When the scheduler raises, its exception leaves the dispatcher and no
    trigger was added. *)
Theorem size_messages_reach_previous_handler (w : World) (msg : MSG) :
  is_in (message msg)
    [WM_SIZE; WM_WINDOWPOSCHANGED; WM_EXITSIZEMOVE; WM_DPICHANGED] = true ->
  calls (sys (snd (nativeEvent windows_generic_MSG msg w))) =
    calls (sys w) ++ debounce_calls w /\
  (forall delay, debounce_delay w = Ok delay ->
     nativeEvent windows_generic_MSG msg w =
       (_orig_native (self w) windows_generic_MSG msg,
        snd (_debounced_apply_corners w)) /\
     triggers (calls (sys (snd (nativeEvent windows_generic_MSG msg w)))) =
       S (triggers (calls (sys w))) /\
     (_orig_native (self w) windows_generic_MSG msg = Ok (false, 0) ->
      fst (nativeEvent windows_generic_MSG msg w) = Ok (false, 0))) /\
  (forall e, debounce_delay w = Raise e ->
     nativeEvent windows_generic_MSG msg w =
       (Raise e, snd (_debounced_apply_corners w)) /\
     triggers (calls (sys (snd (nativeEvent windows_generic_MSG msg w)))) =
       triggers (calls (sys w))).
Proof.
  intros Hmsg.
  destruct (debounced_spec w)
    as (D1 & D2 & _ & _ & _ & _ & _ & _ & _ & D10 & _).
  assert (Hrun : nativeEvent windows_generic_MSG msg w =
                 (match debounce_delay w with
                  | Ok _ => _orig_native (self w) windows_generic_MSG msg
                  | Raise e => Raise e
                  end, snd (_debounced_apply_corners w))).
  { rewrite nativeEvent_table, (classify_size msg Hmsg).
    unfold call_orig_native. unfold_monad.
    rewrite (surjective_pairing (_debounced_apply_corners w)), D1.
    unfold when_scheduled.
    destruct (debounce_delay w); simpl; [now rewrite D10 | reflexivity]. }
  rewrite Hrun. simpl.
  split; [exact D2|]. split.
  - intros delay Hd. rewrite Hd. split; [reflexivity|]. split; [|auto].
    rewrite D2, triggers_app, triggers_debounce, Hd. lia.
  - intros e He. rewrite He. split; [reflexivity|].
    rewrite D2, triggers_app, triggers_debounce, He. lia.
Qed.

(** C8 as stated fails: [WM_SIZE] is answered (true, 7). *)
Lemma size_message_answered_by_previous_handler :
  fst (nativeEvent windows_generic_MSG (mkMSG WM_SIZE 0 0) own_handler)
    = Ok (true, 7) /\
  Ok (true, 7) <> @Ok (bool * Z) (false, 0).
Proof. split; [vm_compute; reflexivity | discriminate]. Qed.

(** The theorem on the test window, and on the test window with the clock
    set back. *)
Lemma size_messages_reach_previous_handler_witness :
  fst (nativeEvent windows_generic_MSG (mkMSG WM_SIZE 0 0)
         (Demo.world (mkQPoint 0 0))) = Ok (false, 0) /\
  triggers (calls (sys (snd (nativeEvent windows_generic_MSG (mkMSG WM_SIZE 0 0)
         (Demo.world (mkQPoint 0 0)))))) = 1%nat /\
  fst (nativeEvent windows_generic_MSG (mkMSG WM_SIZE 0 0) clock_set_back) =
    Raise OverflowError.
Proof.
  destruct (size_messages_reach_previous_handler (Demo.world (mkQPoint 0 0))
              (mkMSG WM_SIZE 0 0) eq_refl) as (_ & Hok & _).
  destruct (Hok 0 eq_refl) as (_ & Ht & Hr).
  destruct (size_messages_reach_previous_handler clock_set_back
              (mkMSG WM_SIZE 0 0) eq_refl) as (_ & _ & Hraise).
  destruct (Hraise OverflowError eq_refl) as (He & _).
  split; [exact (Hr eq_refl)|]. split; [exact Ht|].
  now rewrite He.
Defined.

(** ** The cursor over the maximize button *)

Lemma or_orig_native_snd (block : M (option (bool * Z)))
    (eventType : string) (msg : MSG) (w : World) :
  snd (or_orig_native block eventType msg w) = snd (block w).
Proof.
  unfold or_orig_native, call_orig_native. unfold_monad.
  destruct (block w) as [[[r|] | e] w']; reflexivity.
Qed.

(** The [HTMAXBUTTON] branch of the [WM_SETCURSOR] block. *)
Lemma on_setcursor_button (msg : MSG) (w : World) :
  Z.land (lParam msg) 0xFFFF = HTMAXBUTTON ->
  fst (on_setcursor msg w) =
    Ok (if LoadCursorW (sys w) 0 IDC_HAND =? 0 then None else Some (true, 1)) /\
  _original_cursor (self (snd (on_setcursor msg w))) =
    (if truthy (_original_cursor (self w))
     then _original_cursor (self w)
     else Some (cursor (sys w))) /\
  cursor (sys (snd (on_setcursor msg w))) =
    (if LoadCursorW (sys w) 0 IDC_HAND =? 0
     then cursor (sys w)
     else LoadCursorW (sys w) 0 IDC_HAND) /\
  calls (sys (snd (on_setcursor msg w))) =
    calls (sys w) ++
    (if LoadCursorW (sys w) 0 IDC_HAND =? 0 then []
     else [call_SetCursor (LoadCursorW (sys w) 0 IDC_HAND)]).
Proof.
  intros Hht. unfold on_setcursor, user32.GetCursor, user32.SetCursor.
  rewrite Hht. unfold_monad. simpl.
  destruct (truthy (_original_cursor (self w))) eqn:Hs; simpl;
    destruct (LoadCursorW (sys w) 0 IDC_HAND =? 0); simpl;
    rewrite ?Hs; repeat split; now rewrite ?app_nil_r.
Qed.

(** The other branch: a saved cursor is handed back and forgotten. *)
Lemma on_setcursor_elsewhere (msg : MSG) (w : World) :
  Z.land (lParam msg) 0xFFFF <> HTMAXBUTTON ->
  fst (on_setcursor msg w) = Ok None /\
  (truthy (_original_cursor (self w)) = true ->
   _original_cursor (self (snd (on_setcursor msg w))) = None /\
   cursor (sys (snd (on_setcursor msg w))) =
     handle_arg (_original_cursor (self w)) /\
   calls (sys (snd (on_setcursor msg w))) =
     calls (sys w) ++ [call_SetCursor (handle_arg (_original_cursor (self w)))]) /\
  (truthy (_original_cursor (self w)) = false ->
   snd (on_setcursor msg w) = w).
Proof.
  intros Hht. apply Z.eqb_neq in Hht.
  unfold on_setcursor, user32.SetCursor. rewrite Hht. unfold_monad. simpl.
  destruct (truthy (_original_cursor (self w))); simpl;
    repeat split; intros; try discriminate; reflexivity.
Qed.

Lemma on_ncbutton_keeps (msg : MSG) (w : World) :
  keeps w (snd (on_ncbutton msg w)).
Proof.
  destruct (Z.eqb_spec (wParam msg) HTMAXBUTTON) as [Hht | Hht].
  - destruct (message msg =? WM_NCLBUTTONDOWN) eqn:Hd.
    + unfold on_ncbutton. rewrite Hht, Hd. apply keeps_refl.
    + destruct (is_in (message msg) [WM_NCLBUTTONUP; WM_NCLBUTTONDBLCLK]) eqn:Hu.
      * now destruct (toggle_spec msg w Hht Hu) as (_ & _ & _ & _ & Hk & _).
      * unfold on_ncbutton. rewrite Hht, Hd, Hu. apply keeps_refl.
  - apply Z.eqb_neq in Hht. unfold on_ncbutton. rewrite Hht. apply keeps_refl.
Qed.

(** Whatever the message, the dispatcher touches the saved cursor only in
    its [WM_SETCURSOR] block. *)
Lemma nativeEvent_saved_cursor (eventType : string) (msg : MSG) (w : World) :
  _original_cursor (self (snd (nativeEvent eventType msg w))) =
    _original_cursor (self w) \/
  (eventType = windows_generic_MSG /\ message msg = WM_SETCURSOR /\
   snd (nativeEvent eventType msg w) = snd (on_setcursor msg w)).
Proof.
  destruct (String.eqb_spec eventType windows_generic_MSG) as [-> | Hne].
  - rewrite nativeEvent_table. unfold classify.
    destruct (is_in (message msg) [WM_NCPAINT; WM_NCACTIVATE]); [now left|].
    destruct (Z.eqb_spec (message msg) WM_SETCURSOR) as [Hm | Hm].
    { right. repeat split; auto. apply or_orig_native_snd. }
    destruct (message msg =? WM_NCCALCSIZE); [now left|].
    destruct (is_in (message msg) _).
    { left. rewrite or_orig_native_snd. apply on_ncbutton_keeps. }
    destruct (message msg =? WM_GETMINMAXINFO).
    { left. apply getminmax_keeps. }
    destruct (message msg =? WM_NCHITTEST).
    { left. now rewrite hittest_pure. }
    destruct (is_in (message msg) _).
    + left. unfold call_orig_native. unfold_monad.
      destruct (debounced_keeps w) as (Hk & _).
      destruct (_debounced_apply_corners w) as [[[] | e] w']; exact Hk.
    + now left.
  - left. rewrite nativeEvent_other_type.
    + reflexivity.
    + now apply String.eqb_neq.
Qed.

Lemma nativeEvent_setcursor (msg : MSG) (w : World) :
  message msg = WM_SETCURSOR ->
  nativeEvent windows_generic_MSG msg w =
    or_orig_native (on_setcursor msg) windows_generic_MSG msg w.
Proof.
  intros Hm. rewrite nativeEvent_table, Hm. reflexivity.
Qed.

Lemma truthy_Some (c : Z) : c <> 0 -> truthy (Some c) = true.
Proof. intros Hc. simpl. now apply Z.eqb_neq in Hc; rewrite Hc. Qed.

Lemma on_setcursor_ok (msg : MSG) (w : World) :
  (exists r, fst (on_setcursor msg w) = Ok r) /\
  _orig_native (self (snd (on_setcursor msg w))) = _orig_native (self w).
Proof.
  destruct (Z.eq_dec (Z.land (lParam msg) 0xFFFF) HTMAXBUTTON) as [Hb | Hb].
  - destruct (on_setcursor_button msg w Hb) as (Hr & _).
    split; [eauto|].
    unfold on_setcursor, user32.GetCursor, user32.SetCursor.
    rewrite Hb. unfold_monad. simpl.
    destruct (truthy (_original_cursor (self w))); simpl;
      destruct (LoadCursorW (sys w) 0 IDC_HAND =? 0); reflexivity.
  - destruct (on_setcursor_elsewhere msg w Hb) as (Hr & _).
    split; [eauto|].
    apply Z.eqb_neq in Hb.
    unfold on_setcursor, user32.SetCursor. rewrite Hb. unfold_monad. simpl.
    destruct (truthy (_original_cursor (self w))); reflexivity.
Qed.

(** C9 (amended).  On a cursor-set message over the maximize button the
    current cursor is saved only when no cursor is saved yet, so a second
    such message keeps the cursor saved by the first.  When the hand cursor
    loads, it is installed and the answer is (true, 1); when it does not,
    nothing is installed, no call is made, and the answer is the one of the
    previous handler.  Whatever the message, a saved cursor is either still
    the saved one afterwards, or it has been made the active cursor again
    and the slot is empty: the slot never takes a second cursor in place of
    the first. *)
Theorem cursor_saved_once (w : World) (msg : MSG) :
  message msg = WM_SETCURSOR ->
  Z.land (lParam msg) 0xFFFF = HTMAXBUTTON ->
  _original_cursor (self (snd (nativeEvent windows_generic_MSG msg w))) =
    (if truthy (_original_cursor (self w))
     then _original_cursor (self w)
     else Some (cursor (sys w))) /\
  (truthy (_original_cursor
             (self (snd (nativeEvent windows_generic_MSG msg w)))) = true ->
   _original_cursor (self (twice msg w)) =
     _original_cursor (self (snd (nativeEvent windows_generic_MSG msg w)))) /\
  (LoadCursorW (sys w) 0 IDC_HAND <> 0 ->
   fst (nativeEvent windows_generic_MSG msg w) = Ok (true, 1) /\
   cursor (sys (snd (nativeEvent windows_generic_MSG msg w))) =
     LoadCursorW (sys w) 0 IDC_HAND /\
   calls (sys (snd (nativeEvent windows_generic_MSG msg w))) =
     calls (sys w) ++ [call_SetCursor (LoadCursorW (sys w) 0 IDC_HAND)]) /\
  (LoadCursorW (sys w) 0 IDC_HAND = 0 ->
   fst (nativeEvent windows_generic_MSG msg w) =
     _orig_native (self w) windows_generic_MSG msg /\
   cursor (sys (snd (nativeEvent windows_generic_MSG msg w))) =
     cursor (sys w) /\
   calls (sys (snd (nativeEvent windows_generic_MSG msg w))) =
     calls (sys w)) /\
  (forall (eventType : string) (m : MSG) (c : Z),
     _original_cursor (self w) = Some c -> c <> 0 ->
     _original_cursor (self (snd (nativeEvent eventType m w))) = Some c \/
     (_original_cursor (self (snd (nativeEvent eventType m w))) = None /\
      cursor (sys (snd (nativeEvent eventType m w))) = c)).
Proof.
  intros Hm Hht.
  assert (Hsave : forall v,
    _original_cursor (self (snd (nativeEvent windows_generic_MSG msg v))) =
      (if truthy (_original_cursor (self v))
       then _original_cursor (self v)
       else Some (cursor (sys v)))).
  { intros v. rewrite (nativeEvent_setcursor msg v Hm), or_orig_native_snd.
    now destruct (on_setcursor_button msg v Hht) as (_ & Hs & _). }
  split; [apply Hsave|]. split; [|split; [|split]].
  - intros Ht. unfold twice. rewrite Hsave, Ht. reflexivity.
  - intros Hload. apply Z.eqb_neq in Hload.
    destruct (on_setcursor_button msg w Hht) as (Hr & _ & Hc & Hcalls).
    rewrite Hload in Hr, Hc, Hcalls.
    rewrite (nativeEvent_setcursor msg w Hm), or_orig_native_snd.
    split; [|split; assumption].
    unfold or_orig_native, bind.
    rewrite (surjective_pairing (on_setcursor msg w)), Hr. reflexivity.
  - intros Hload. apply Z.eqb_eq in Hload.
    destruct (on_setcursor_button msg w Hht) as (Hr & _ & Hc & Hcalls).
    rewrite Hload in Hr, Hc, Hcalls. rewrite app_nil_r in Hcalls.
    rewrite (nativeEvent_setcursor msg w Hm), or_orig_native_snd.
    split; [|split; assumption].
    unfold or_orig_native, call_orig_native, bind, gets, lift.
    rewrite (surjective_pairing (on_setcursor msg w)), Hr. simpl.
    destruct (on_setcursor_ok msg w) as (_ & Ho). now rewrite Ho.
  - intros eventType m c Hc Hnz.
    destruct (nativeEvent_saved_cursor eventType m w) as [Hk | (_ & _ & Hs)].
    + left. now rewrite Hk.
    + rewrite Hs.
      destruct (Z.eq_dec (Z.land (lParam m) 0xFFFF) HTMAXBUTTON) as [Hb | Hb].
      * left. destruct (on_setcursor_button m w Hb) as (_ & Hsv & _).
        now rewrite Hsv, Hc, (truthy_Some c Hnz).
      * right. destruct (on_setcursor_elsewhere m w Hb) as (_ & Hrest & _).
        rewrite Hc in Hrest.
        destruct (Hrest (truthy_Some c Hnz)) as (Hn & Hcur & _).
        split; assumption.
Qed.

(** C9 as stated fails: [LoadCursorW] answers NULL, no cursor is installed
    and the message is answered by the previous handler, (false, 0). *)
Lemma setcursor_without_hand_cursor :
  Z.land (lParam setcursor_on_button) 0xFFFF = HTMAXBUTTON /\
  fst (nativeEvent windows_generic_MSG setcursor_on_button no_hand_cursor)
    = Ok (false, 0) /\
  cursor (sys (snd (nativeEvent windows_generic_MSG setcursor_on_button
                      no_hand_cursor))) = cursor (sys no_hand_cursor) /\
  calls (sys (snd (nativeEvent windows_generic_MSG setcursor_on_button
                     no_hand_cursor))) = [] /\
  @Ok (bool * Z) (false, 0) <> Ok (true, 1).
Proof. repeat split. discriminate. Qed.

(** The theorem on the test window, where the hand cursor loads, and on the
    system that cannot supply it behind a handler that answers (true, 7). *)
Lemma cursor_saved_once_witness :
  _original_cursor (self (snd (nativeEvent windows_generic_MSG
     setcursor_on_button (Demo.world (mkQPoint 380 10))))) = Some 65539 /\
  _original_cursor (self (twice setcursor_on_button
     (Demo.world (mkQPoint 380 10)))) = Some 65539 /\
  fst (nativeEvent windows_generic_MSG setcursor_on_button
         (Demo.world (mkQPoint 380 10))) = Ok (true, 1) /\
  cursor (sys (snd (nativeEvent windows_generic_MSG setcursor_on_button
         (Demo.world (mkQPoint 380 10))))) = 65567 /\
  nativeEvent windows_generic_MSG setcursor_on_button
    (mkWorld (self own_handler) (sys no_hand_cursor)) =
    (Ok (true, 7),
     mkWorld (set_original_cursor (Some 65539) (self own_handler))
       (sys no_hand_cursor)).
Proof.
  destruct (cursor_saved_once (Demo.world (mkQPoint 380 10))
              setcursor_on_button eq_refl eq_refl)
    as (Hsave & Htwice & Hhand & _).
  destruct (Hhand ltac:(discriminate)) as (Hr & Hc & _).
  destruct (cursor_saved_once (mkWorld (self own_handler) (sys no_hand_cursor))
              setcursor_on_button eq_refl eq_refl)
    as (_ & _ & _ & Hnone & _).
  destruct (Hnone eq_refl) as (Hr' & _).
  split; [exact Hsave|].
  split; [exact (Htwice eq_refl)|].
  split; [exact Hr|]. split; [exact Hc|].
  rewrite (surjective_pairing (nativeEvent _ _ _)), Hr'. reflexivity.
Defined.

(** ** Exceptions at the boundary of the dispatcher *)

(** What [_handle_getminmax] makes of a failure inside its [try] block. *)
Lemma getminmax_failure (msg : MSG) (w : World) (e : exn) :
  lParam msg <> 0 ->
  fst (_handle_getminmax_try msg w) = Raise e ->
  fst (_handle_getminmax msg w) =
    if catches [OSError; ValueError] e then Ok (false, 0) else Raise e.
Proof.
  intros Hl He. apply Z.eqb_neq in Hl.
  unfold _handle_getminmax, try_except. rewrite Hl.
  destruct (_handle_getminmax_try msg w) as [[r | e'] w']; simpl in He.
  - discriminate.
  - injection He as ->. now destruct (catches _ e).
Qed.

(** The answer of the non-client button block. *)
Lemma on_ncbutton_result (msg : MSG) (w : World) :
  is_in (message msg)
    [WM_NCLBUTTONDOWN; WM_NCLBUTTONUP; WM_NCLBUTTONDBLCLK] = true ->
  fst (on_ncbutton msg w) =
    if wParam msg =? HTMAXBUTTON
    then if message msg =? WM_NCLBUTTONDOWN
         then Ok (Some (true, 0))
         else when_scheduled w (Some (true, 0))
    else Ok None.
Proof.
  intros Hm.
  destruct (Z.eqb_spec (wParam msg) HTMAXBUTTON) as [Hht | Hht].
  - destruct (message msg =? WM_NCLBUTTONDOWN) eqn:Hd.
    + unfold on_ncbutton. rewrite Hht, Hd. reflexivity.
    + assert (Hu : is_in (message msg) [WM_NCLBUTTONUP; WM_NCLBUTTONDBLCLK]
                   = true).
      { unfold is_in in *. simpl in *. now rewrite Hd in Hm. }
      now destruct (toggle_spec msg w Hht Hu) as (Hr & _).
  - apply Z.eqb_neq in Hht. unfold on_ncbutton. rewrite Hht. reflexivity.
Qed.

Lemma classify_button (m : Z) :
  classify m = NcButton ->
  is_in m [WM_NCLBUTTONDOWN; WM_NCLBUTTONUP; WM_NCLBUTTONDBLCLK] = true.
Proof.
  unfold classify.
  repeat match goal with
         | |- context [if ?c then _ else _] =>
             destruct c eqn:?; try discriminate; try reflexivity
         end.
Qed.

Lemma classify_size_inv (m : Z) :
  classify m = SizeMove ->
  is_in m [WM_SIZE; WM_WINDOWPOSCHANGED; WM_EXITSIZEMOVE; WM_DPICHANGED] = true.
Proof.
  unfold classify.
  repeat match goal with
         | |- context [if ?c then _ else _] =>
             destruct c eqn:?; try discriminate; try reflexivity
         end.
Qed.

Lemma classify_getminmax (m : Z) :
  classify m = GetMinMaxInfo -> m = WM_GETMINMAXINFO.
Proof.
  unfold classify.
  repeat match goal with
         | |- context [if ?c then _ else _] =>
             destruct c eqn:?; try discriminate
         end.
  intros _. now apply Z.eqb_eq.
Qed.

(** What the dispatcher answers, class by class. *)
Lemma nativeEvent_result (msg : MSG) (w : World) :
  fst (nativeEvent windows_generic_MSG msg w) =
  match classify (message msg) with
  | NcPaintActivate | NcCalcSize => Ok (true, 0)
  | SetCursorMsg =>
      if (Z.land (lParam msg) 0xFFFF =? HTMAXBUTTON)
         && negb (LoadCursorW (sys w) 0 IDC_HAND =? 0)
      then Ok (true, 1)
      else _orig_native (self w) windows_generic_MSG msg
  | NcButton =>
      if wParam msg =? HTMAXBUTTON
      then if message msg =? WM_NCLBUTTONDOWN
           then Ok (true, 0)
           else when_scheduled w (true, 0)
      else _orig_native (self w) windows_generic_MSG msg
  | GetMinMaxInfo => fst (_handle_getminmax msg w)
  | NcHitTest => fst (_handle_hittest w)
  | SizeMove =>
      match debounce_delay w with
      | Ok _ => _orig_native (self w) windows_generic_MSG msg
      | Raise e => Raise e
      end
  | OtherMsg => _orig_native (self w) windows_generic_MSG msg
  end.
Proof.
  rewrite nativeEvent_table.
  destruct (classify (message msg)) eqn:Hc; try reflexivity.
  - destruct (on_setcursor_ok msg w) as (_ & Ho).
    unfold or_orig_native, call_orig_native, bind, gets, lift, ret.
    rewrite (surjective_pairing (on_setcursor msg w)).
    destruct (Z.eqb_spec (Z.land (lParam msg) 0xFFFF) HTMAXBUTTON) as [Hb | Hb].
    + destruct (on_setcursor_button msg w Hb) as (Hr & _). rewrite Hr.
      destruct (LoadCursorW (sys w) 0 IDC_HAND =? 0); simpl;
        [now rewrite Ho | reflexivity].
    + destruct (on_setcursor_elsewhere msg w Hb) as (Hr & _). rewrite Hr.
      simpl. now rewrite Ho.
  - pose proof (on_ncbutton_result msg w (classify_button _ Hc)) as Hr.
    destruct (on_ncbutton_keeps msg w) as (_ & Ho & _).
    unfold or_orig_native, call_orig_native, bind, gets, lift, ret.
    rewrite (surjective_pairing (on_ncbutton msg w)), Hr.
    destruct (wParam msg =? HTMAXBUTTON); [|simpl; now rewrite Ho].
    destruct (message msg =? WM_NCLBUTTONDOWN); [reflexivity|].
    unfold when_scheduled. now destruct (debounce_delay w).
  - destruct (debounced_spec w)
      as (D1 & _ & _ & _ & _ & _ & _ & _ & _ & D10 & _).
    unfold call_orig_native. unfold_monad.
    rewrite (surjective_pairing (_debounced_apply_corners w)), D1.
    unfold when_scheduled.
    destruct (debounce_delay w); simpl; [now rewrite D10 | reflexivity].
Qed.

(** C2 (amended).  A failure inside the hit test is answered (false, 0),
    and a hit-test message never raises.  Inside the min-max handling an
    [OSError] or a [ValueError] is answered (false, 0) and any other
    exception leaves the dispatcher.  A release or double-click on the
    maximize button is answered (true, 0) when the debounced scheduler
    returns, whatever the button observer does; a size, window-pos-changed,
    exit-size-move or DPI-changed message is handed on when the scheduler
    returns; the exception of a scheduler that raises leaves the
    dispatcher.  A message that is handed on gets the answer of the previous
    handler, so that an exception of that handler leaves the dispatcher.
    An exception leaves [nativeEvent] in these three cases only: the
    previous handler raised it on a message handed on, or the min-max
    handling raised it and it is neither an [OSError] nor a [ValueError],
    or the scheduler raised it on a maximize toggle or on a size
    message. *)
Theorem dispatcher_exception_boundary (w : World) (msg : MSG) :
  (message msg = WM_NCHITTEST ->
   exists r,
     fst (nativeEvent windows_generic_MSG msg w) = Ok r /\
     (forall e, fst (_handle_hittest_try w) = Raise e -> r = (false, 0))) /\
  (message msg = WM_GETMINMAXINFO -> lParam msg <> 0 ->
   forall e,
     fst (_handle_getminmax_try msg w) = Raise e ->
     fst (nativeEvent windows_generic_MSG msg w) =
       if catches [OSError; ValueError] e then Ok (false, 0) else Raise e) /\
  (is_in (message msg) [WM_NCLBUTTONUP; WM_NCLBUTTONDBLCLK] = true ->
   wParam msg = HTMAXBUTTON ->
   fst (nativeEvent windows_generic_MSG msg w) = when_scheduled w (true, 0)) /\
  (is_in (message msg)
     [WM_SIZE; WM_WINDOWPOSCHANGED; WM_EXITSIZEMOVE; WM_DPICHANGED] = true ->
   forall e, debounce_delay w = Raise e ->
     fst (nativeEvent windows_generic_MSG msg w) = Raise e) /\
  (forall eventType : string,
     handed_on eventType msg w = true ->
     fst (nativeEvent eventType msg w) = _orig_native (self w) eventType msg) /\
  (forall (eventType : string) (e : exn),
     fst (nativeEvent eventType msg w) = Raise e ->
     (handed_on eventType msg w = true /\
      _orig_native (self w) eventType msg = Raise e) \/
     (eventType = windows_generic_MSG /\
      message msg = WM_GETMINMAXINFO /\
      lParam msg <> 0 /\
      catches [OSError; ValueError] e = false /\
      fst (_handle_getminmax_try msg w) = Raise e) \/
     (eventType = windows_generic_MSG /\
      debounce_delay w = Raise e /\
      (is_in (message msg)
         [WM_SIZE; WM_WINDOWPOSCHANGED; WM_EXITSIZEMOVE; WM_DPICHANGED] = true \/
       (is_in (message msg) [WM_NCLBUTTONUP; WM_NCLBUTTONDBLCLK] = true /\
        wParam msg = HTMAXBUTTON)))).
Proof.
  split; [|split; [|split; [|split; [|split]]]].
  - intros Hm. rewrite (nativeEvent_hittest msg w Hm).
    unfold _handle_hittest, try_except.
    destruct (_handle_hittest_try w) as [[r | e] w'].
    + exists r. split; [reflexivity|]. intros e He. discriminate.
    + rewrite catches_Exception. exists (false, 0). split; reflexivity.
  - intros Hm Hl e He. rewrite (nativeEvent_getminmax msg w Hm).
    now apply getminmax_failure.
  - intros Hmsg Hht. now rewrite (nativeEvent_toggle msg w Hmsg Hht).
  - intros Hmsg e He.
    rewrite nativeEvent_result, (classify_size msg Hmsg), He. reflexivity.
  - intros eventType. unfold handed_on.
    destruct (String.eqb_spec eventType windows_generic_MSG) as [-> | Hne].
    2:{ intros _. rewrite nativeEvent_other_type by now apply String.eqb_neq.
        reflexivity. }
    simpl. rewrite nativeEvent_result.
    destruct (classify (message msg)); try discriminate; try reflexivity.
    + intros Hn. apply negb_true_iff in Hn. now rewrite Hn.
    + intros Hn. apply negb_true_iff in Hn. now rewrite Hn.
    + now destruct (debounce_delay w).
  - intros eventType e. unfold handed_on.
    destruct (String.eqb_spec eventType windows_generic_MSG) as [-> | Hne].
    2:{ rewrite nativeEvent_other_type by now apply String.eqb_neq.
        unfold call_orig_native. unfold_monad. simpl. auto. }
    simpl. rewrite nativeEvent_result.
    destruct (classify (message msg)) eqn:Hc; try discriminate.
    + destruct (_ && _); [discriminate | auto].
    + destruct (Z.eqb_spec (wParam msg) HTMAXBUTTON) as [Hht | Hht];
        [|auto].
      destruct (message msg =? WM_NCLBUTTONDOWN) eqn:Hd; [discriminate|].
      unfold when_scheduled.
      destruct (debounce_delay w) as [d | e'] eqn:Hdd; [discriminate|].
      intros He. injection He as <-. right; right.
      split; [reflexivity|]. split; [reflexivity|]. right.
      split; [|exact Hht].
      pose proof (classify_button _ Hc) as Hm.
      unfold is_in in *. simpl in *. now rewrite Hd in Hm.
    + intros He. right; left.
      pose proof (classify_getminmax _ Hc) as Hm.
      destruct (Z.eq_dec (lParam msg) 0) as [Hl | Hl].
      { unfold _handle_getminmax in He. rewrite Hl in He. discriminate. }
      destruct (_handle_getminmax_try msg w) as [[r | e'] w'] eqn:Htry.
      { unfold _handle_getminmax, try_except in He.
        apply Z.eqb_neq in Hl. rewrite Hl, Htry in He. discriminate. }
      assert (Hf := getminmax_failure msg w e' Hl).
      rewrite Htry in Hf. specialize (Hf eq_refl). rewrite Hf in He.
      destruct (catches [OSError; ValueError] e') eqn:Hcatch; [discriminate|].
      injection He as <-. auto.
    + destruct (hittest_total w) as (r & Hr). rewrite Hr. discriminate.
    + destruct (debounce_delay w) as [d | e'] eqn:Hdd; [auto|].
      intros He. injection He as <-. right; right.
      split; [reflexivity|]. split; [reflexivity|]. left.
      now apply classify_size_inv.
    + auto.
Qed.

(** C2 as stated fails: the [RuntimeError] raised while the min-max
    information is filled in leaves [nativeEvent], and so does the
    [ValueError] of a previous handler on a message the dispatcher does not
    own. *)
Lemma getminmax_runtime_error_escapes :
  fst (nativeEvent windows_generic_MSG (mkMSG WM_GETMINMAXINFO 0 4096)
         deleted_widget) = Raise RuntimeError /\
  fst (nativeEvent windows_generic_MSG (mkMSG WM_NCMOUSEMOVE 0 0)
         raising_handler) = Raise ValueError.
Proof. split; reflexivity. Qed.

(** The theorem on the window whose Qt object is gone, on the window whose
    accessors raise [OSError], on the window with the broken button, on the
    window behind a handler that raises, and on the window whose clock was
    set back. *)
Lemma dispatcher_exception_boundary_witness :
  fst (nativeEvent windows_generic_MSG (mkMSG WM_NCHITTEST 0 0)
         deleted_widget) = Ok (false, 0) /\
  fst (nativeEvent windows_generic_MSG (mkMSG WM_GETMINMAXINFO 0 4096)
         failing_widget) = Ok (false, 0) /\
  fst (nativeEvent windows_generic_MSG (mkMSG WM_NCLBUTTONUP HTMAXBUTTON 0)
         with_broken_button) = Ok (true, 0) /\
  fst (nativeEvent windows_generic_MSG (mkMSG WM_SIZE 0 0) raising_handler) =
    Raise ValueError /\
  fst (nativeEvent windows_generic_MSG (mkMSG WM_SIZE 0 0) clock_set_back) =
    Raise OverflowError.
Proof.
  split; [|split; [|split; [|split]]].
  - destruct (proj1 (dispatcher_exception_boundary deleted_widget
                       (mkMSG WM_NCHITTEST 0 0)) eq_refl) as (r & Hr & Hf).
    rewrite Hr. f_equal. exact (Hf RuntimeError eq_refl).
  - exact (proj1 (proj2 (dispatcher_exception_boundary failing_widget
                           (mkMSG WM_GETMINMAXINFO 0 4096)))
             eq_refl ltac:(discriminate) OSError eq_refl).
  - exact (proj1 (proj2 (proj2 (dispatcher_exception_boundary
                                  with_broken_button
                                  (mkMSG WM_NCLBUTTONUP HTMAXBUTTON 0))))
             eq_refl eq_refl).
  - exact (proj1 (proj2 (proj2 (proj2 (proj2
             (dispatcher_exception_boundary raising_handler
                (mkMSG WM_SIZE 0 0))))))
             windows_generic_MSG eq_refl).
  - exact (proj1 (proj2 (proj2 (proj2
             (dispatcher_exception_boundary clock_set_back
                (mkMSG WM_SIZE 0 0)))))
             eq_refl OverflowError eq_refl).
Defined.

(** ** A burst of triggers *)

Lemma filter_static (t : QTimer) (l : list Pending) :
  (forall p, In p l -> owner p = None) ->
  filter (fun e => negb (owned_by t e)) l = l.
Proof.
  induction l as [|p l IH]; intros Hall; [reflexivity|].
  simpl. unfold owned_by at 1. rewrite (Hall p (or_introl eq_refl)). simpl.
  f_equal. apply IH. intros q Hq. apply Hall. now right.
Qed.

(** The [stop()] of the scheduler cancels nothing: the timeouts that were
    waiting still wait, and the new one is added. *)
Lemma debounced_adds_one (w : World) :
  all_static w ->
  pending (sys (snd (_debounced_apply_corners w))) =
    pending (sys w) ++ debounce_timeout w /\
  all_static (snd (_debounced_apply_corners w)).
Proof.
  intros Hall.
  destruct (debounced_spec w) as (_ & _ & Hp & _).
  assert (Hstop : after_stop w = pending (sys w)).
  { unfold after_stop. destruct (_corner_timer (self w)); [|reflexivity].
    now apply filter_static. }
  rewrite Hstop in Hp. split; [exact Hp|].
  unfold all_static. rewrite Hp. intros p Hin.
  apply in_app_or in Hin. destruct Hin as [Hin | Hin]; [auto|].
  unfold debounce_timeout in Hin.
  destruct (debounce_delay w); simpl in Hin; [|contradiction].
  destruct Hin as [<- | []]. reflexivity.
Qed.

Lemma triggered_delay (n : nat) (w : World) :
  debounce_delay (triggered n w) = debounce_delay w.
Proof.
  induction n as [|n IH]; [reflexivity|].
  simpl triggered. rewrite <- IH.
  destruct (debounced_spec (triggered n w))
    as (_ & _ & _ & _ & _ & Ht & Hl & _).
  now apply debounce_delay_ext.
Qed.

(** A burst of [n] triggers, each of which schedules, leaves [n] more
    timeouts waiting. *)
Lemma burst_pending (n : nat) (w : World) (delay : Z) :
  all_static w ->
  debounce_delay w = Ok delay ->
  List.length (pending (sys (triggered n w))) =
    (n + List.length (pending (sys w)))%nat /\
  all_static (triggered n w).
Proof.
  intros Hall Hd. induction n as [|n [IHlen IHall]]; [now split|].
  simpl triggered.
  destruct (debounced_adds_one (triggered n w) IHall) as (Hp & Hs).
  split; [|exact Hs].
  rewrite Hp, List.length_app, IHlen. unfold debounce_timeout.
  rewrite triggered_delay, Hd. simpl. lia.
Qed.

(** C1, the code at a burst of two triggers: two timeouts wait in the loop
    after the burst, and when the 50 ms have elapsed both fire, so the
    corner preference is applied twice. *)
Theorem burst_of_two_applies_twice :
  pending (sys burst) =
    [mkPending (float_value (double 100) + inject_Z 40 / inject_Z 1000)%Q
       None cb_apply_corners_now;
     mkPending (float_value (double (10002 # 100))
                + inject_Z 20 / inject_Z 1000)%Q
       None cb_apply_corners_now] /\
  calls (sys burst) =
    [call_singleShot 40 cb_apply_corners_now;
     call_stop (mkQTimer 0);
     call_singleShot 20 cb_apply_corners_now] /\
  calls (sys (event_loop (double (10005 # 100)) burst)) =
    calls (sys burst) ++
    [call_DwmSetWindowAttribute (Some 4242)
       DWMWA_WINDOW_CORNER_PREFERENCE DWMWCP_ROUND;
     call_DwmSetWindowAttribute (Some 4242)
       DWMWA_WINDOW_CORNER_PREFERENCE DWMWCP_ROUND] /\
  pending (sys (event_loop (double (10005 # 100)) burst)) = [].
Proof. repeat split; vm_compute; reflexivity. Qed.

(** ** Messages the dispatcher answers at once or hands on *)

Lemma is_in_cases (z : Z) (l : list Z) :
  is_in z l = true -> In z l.
Proof.
  unfold is_in. intros H. apply existsb_exists in H.
  destruct H as (c & Hin & Heq). apply Z.eqb_eq in Heq. now subst.
Qed.

(** X1.  A non-client paint, activate or calc-size message is answered
    (true, 0) whatever its parameters, and the world is left as it was: no
    call is made, no cursor restored, nothing scheduled. *)
Theorem nonclient_frame_suppressed (w : World) (msg : MSG) :
  is_in (message msg) [WM_NCPAINT; WM_NCACTIVATE; WM_NCCALCSIZE] = true ->
  nativeEvent windows_generic_MSG msg w = (Ok (true, 0), w).
Proof.
  intros Hm. apply is_in_cases in Hm.
  rewrite nativeEvent_table.
  destruct Hm as [H | [H | [H | []]]]; rewrite <- H; reflexivity.
Qed.

Lemma nonclient_frame_suppressed_witness :
  nativeEvent windows_generic_MSG (mkMSG WM_NCCALCSIZE 1 4096)
    (Demo.world (mkQPoint 5 5)) = (Ok (true, 0), Demo.world (mkQPoint 5 5)).
Proof.
  exact (nonclient_frame_suppressed (Demo.world (mkQPoint 5 5))
           (mkMSG WM_NCCALCSIZE 1 4096) eq_refl).
Defined.

(** X2.  Non-client button messages.  A press on the maximize button is
    swallowed: (true, 0), and the world is untouched, so the window is not
    yet maximized or restored.  A press, release or double-click on any
    other part of the frame is left to the previous handler, whose answer
    is returned; the world is untouched. *)
Theorem nonclient_button_routing (w : World) (msg : MSG) :
  is_in (message msg)
    [WM_NCLBUTTONDOWN; WM_NCLBUTTONUP; WM_NCLBUTTONDBLCLK] = true ->
  (wParam msg = HTMAXBUTTON -> message msg = WM_NCLBUTTONDOWN ->
   nativeEvent windows_generic_MSG msg w = (Ok (true, 0), w)) /\
  (wParam msg <> HTMAXBUTTON ->
   nativeEvent windows_generic_MSG msg w =
     (_orig_native (self w) windows_generic_MSG msg, w)).
Proof.
  intros Hm.
  assert (Hc : classify (message msg) = NcButton).
  { apply is_in_cases in Hm.
    destruct Hm as [H | [H | [H | []]]]; rewrite <- H; reflexivity. }
  rewrite nativeEvent_table, Hc. split.
  - intros Hht Hd. unfold or_orig_native, on_ncbutton.
    rewrite Hht, Hd. reflexivity.
  - intros Hht. apply Z.eqb_neq in Hht.
    unfold or_orig_native, on_ncbutton, call_orig_native.
    rewrite Hht. reflexivity.
Qed.

Lemma nonclient_button_routing_witness :
  nativeEvent windows_generic_MSG (mkMSG WM_NCLBUTTONDOWN HTMAXBUTTON 0)
    (Demo.world (mkQPoint 380 10)) =
    (Ok (true, 0), Demo.world (mkQPoint 380 10)) /\
  nativeEvent windows_generic_MSG (mkMSG WM_NCLBUTTONUP HTCLOSE 0) own_handler =
    (Ok (true, 7), own_handler).
Proof.
  split.
  - exact (proj1 (nonclient_button_routing (Demo.world (mkQPoint 380 10))
                    (mkMSG WM_NCLBUTTONDOWN HTMAXBUTTON 0) eq_refl)
             eq_refl eq_refl).
  - exact (proj2 (nonclient_button_routing own_handler
                    (mkMSG WM_NCLBUTTONUP HTCLOSE 0) eq_refl)
             ltac:(discriminate)).
Defined.

(** X3.  A message of another event type, or a message number the
    dispatcher has no test for, goes to the previous handler: its answer or
    its exception is what [nativeEvent] gives, and the world is untouched. *)
Theorem unowned_message_forwarded (w : World) (eventType : string) (msg : MSG) :
  (eventType =? windows_generic_MSG)%string = false \/
  is_in (message msg) owned_messages = false ->
  nativeEvent eventType msg w = (_orig_native (self w) eventType msg, w).
Proof.
  intros [Ht | Hm].
  - now rewrite nativeEvent_other_type.
  - destruct (String.eqb_spec eventType windows_generic_MSG) as [-> | Hne].
    + rewrite nativeEvent_table.
      unfold is_in, owned_messages in Hm. simpl in Hm.
      repeat (apply orb_false_elim in Hm; destruct Hm as [? Hm]).
      unfold classify, is_in. simpl.
      repeat match goal with
             | H : (message msg =? ?c) = false |- _ => rewrite H; clear H
             end.
      reflexivity.
    + rewrite nativeEvent_other_type; [reflexivity|].
      now apply String.eqb_neq.
Qed.

Lemma unowned_message_forwarded_witness :
  nativeEvent "xcb_generic_event_t" (mkMSG WM_NCHITTEST 0 0) own_handler =
    (Ok (true, 7), own_handler) /\
  nativeEvent windows_generic_MSG (mkMSG WM_NCMOUSEMOVE 0 0) raising_handler =
    (Raise ValueError, raising_handler).
Proof.
  split.
  - exact (unowned_message_forwarded own_handler "xcb_generic_event_t"
             (mkMSG WM_NCHITTEST 0 0) (or_introl eq_refl)).
  - exact (unowned_message_forwarded raising_handler windows_generic_MSG
             (mkMSG WM_NCMOUSEMOVE 0 0) (or_intror eq_refl)).
Defined.

(** ** The cursor, away from the maximize button *)

(** X4.  A cursor-set message that does not indicate the maximize button is
    answered by the previous handler.  With no cursor saved the world is
    untouched.  With a cursor saved, that cursor is made the active one by
    one [SetCursor] call and the slot is emptied. *)
Theorem setcursor_elsewhere_restores (w : World) (msg : MSG) :
  message msg = WM_SETCURSOR ->
  Z.land (lParam msg) 0xFFFF <> HTMAXBUTTON ->
  fst (nativeEvent windows_generic_MSG msg w) =
    _orig_native (self w) windows_generic_MSG msg /\
  (truthy (_original_cursor (self w)) = false ->
   snd (nativeEvent windows_generic_MSG msg w) = w) /\
  (truthy (_original_cursor (self w)) = true ->
   _original_cursor (self (snd (nativeEvent windows_generic_MSG msg w))) = None /\
   cursor (sys (snd (nativeEvent windows_generic_MSG msg w))) =
     handle_arg (_original_cursor (self w)) /\
   calls (sys (snd (nativeEvent windows_generic_MSG msg w))) =
     calls (sys w) ++ [call_SetCursor (handle_arg (_original_cursor (self w)))]).
Proof.
  intros Hm Hht.
  destruct (on_setcursor_elsewhere msg w Hht) as (Hr & Hsaved & Hnone).
  destruct (on_setcursor_ok msg w) as (_ & Ho).
  rewrite (nativeEvent_setcursor msg w Hm), or_orig_native_snd.
  split; [|split; assumption].
  unfold or_orig_native, call_orig_native, bind, gets, lift, ret.
  rewrite (surjective_pairing (on_setcursor msg w)), Hr. simpl.
  now rewrite Ho.
Qed.

Lemma setcursor_elsewhere_restores_witness :
  fst (nativeEvent windows_generic_MSG setcursor_on_client hovering) =
    Ok (false, 0) /\
  _original_cursor (self (snd (nativeEvent windows_generic_MSG
                                 setcursor_on_client hovering))) = None /\
  cursor (sys (snd (nativeEvent windows_generic_MSG
                      setcursor_on_client hovering))) = 65539.
Proof.
  destruct (setcursor_elsewhere_restores hovering setcursor_on_client
              eq_refl ltac:(discriminate)) as (Hr & _ & Hs).
  destruct (Hs eq_refl) as (Hslot & Hcur & _).
  split; [exact Hr|]. split; [exact Hslot | exact Hcur].
Defined.

(** X5.  Hovering the maximize button and leaving it again is a round
    trip for the cursor: starting with no cursor saved and some cursor
    active, after the two cursor-set messages the active cursor is the one
    of the start and the slot is empty again, whether or not the hand
    cursor could be loaded in between. *)
Theorem cursor_hover_round_trip (w : World) (enter leave : MSG) :
  message enter = WM_SETCURSOR ->
  Z.land (lParam enter) 0xFFFF = HTMAXBUTTON ->
  message leave = WM_SETCURSOR ->
  Z.land (lParam leave) 0xFFFF <> HTMAXBUTTON ->
  truthy (_original_cursor (self w)) = false ->
  cursor (sys w) <> 0 ->
  cursor (sys (snd (nativeEvent windows_generic_MSG leave
                      (snd (nativeEvent windows_generic_MSG enter w))))) =
    cursor (sys w) /\
  _original_cursor
    (self (snd (nativeEvent windows_generic_MSG leave
                  (snd (nativeEvent windows_generic_MSG enter w))))) = None.
Proof.
  intros He Hhe Hl Hhl Hnone Hcur.
  rewrite (nativeEvent_setcursor enter w He), or_orig_native_snd.
  rewrite (nativeEvent_setcursor leave _ Hl), or_orig_native_snd.
  destruct (on_setcursor_button enter w Hhe) as (_ & Hsaved & _).
  rewrite Hnone in Hsaved.
  destruct (on_setcursor_elsewhere leave (snd (on_setcursor enter w)) Hhl)
    as (_ & Hrest & _).
  rewrite Hsaved in Hrest.
  destruct (Hrest (truthy_Some (cursor (sys w)) Hcur)) as (Hslot & Hc & _).
  split; assumption.
Qed.

Lemma cursor_hover_round_trip_witness :
  cursor (sys (snd (nativeEvent windows_generic_MSG setcursor_on_client
                      (snd (nativeEvent windows_generic_MSG setcursor_on_button
                              (Demo.world (mkQPoint 380 10))))))) = 65539 /\
  _original_cursor
    (self (snd (nativeEvent windows_generic_MSG setcursor_on_client
                  (snd (nativeEvent windows_generic_MSG setcursor_on_button
                          (Demo.world (mkQPoint 380 10))))))) = None.
Proof.
  exact (cursor_hover_round_trip (Demo.world (mkQPoint 380 10))
           setcursor_on_button setcursor_on_client
           eq_refl eq_refl eq_refl ltac:(discriminate) eq_refl
           ltac:(discriminate)).
Defined.

(** ** The min-max constraint when something is missing *)

(** X6.  A get-min-max-info message is answered (false, 0), and neither the
    structure it points at nor anything else is touched, when its pointer is
    null, when the styler has no window handle, when no monitor is found for
    the window, or when the monitor's description cannot be read. *)
Theorem getminmax_unhandled_untouched (w : World) (msg : MSG) :
  message msg = WM_GETMINMAXINFO ->
  lParam msg = 0 \/
  truthy (hwnd (self w)) = false \/
  MonitorFromWindow (sys w) (handle_arg (hwnd (self w)))
    MONITOR_DEFAULTTONEAREST = 0 \/
  GetMonitorInfoW (sys w)
    (MonitorFromWindow (sys w) (handle_arg (hwnd (self w)))
       MONITOR_DEFAULTTONEAREST) = None ->
  nativeEvent windows_generic_MSG msg w = (Ok (false, 0), w).
Proof.
  intros Hm Hcase. rewrite (nativeEvent_getminmax msg w Hm).
  unfold _handle_getminmax, _handle_getminmax_try.
  destruct (Z.eqb_spec (lParam msg) 0) as [Hl | Hl]; [reflexivity|].
  unfold try_except, bind, gets, ret. simpl.
  destruct (truthy (hwnd (self w))) eqn:Hh; [|reflexivity]. simpl.
  destruct (Z.eqb_spec (MonitorFromWindow (sys w) (handle_arg (hwnd (self w)))
                          MONITOR_DEFAULTTONEAREST) 0) as [Hmon | Hmon];
    [reflexivity|].
  destruct (GetMonitorInfoW (sys w) _) eqn:Hi; [|reflexivity].
  destruct Hcase as [H | [H | [H | H]]]; congruence.
Qed.

Lemma getminmax_unhandled_untouched_witness :
  nativeEvent windows_generic_MSG (mkMSG WM_GETMINMAXINFO 0 4096) no_monitor =
    (Ok (false, 0), no_monitor) /\
  nativeEvent windows_generic_MSG (mkMSG WM_GETMINMAXINFO 0 4096) fresh =
    (Ok (false, 0), fresh).
Proof.
  split.
  - exact (getminmax_unhandled_untouched no_monitor
             (mkMSG WM_GETMINMAXINFO 0 4096) eq_refl
             (or_intror (or_intror (or_introl eq_refl)))).
  - exact (getminmax_unhandled_untouched fresh
             (mkMSG WM_GETMINMAXINFO 0 4096) eq_refl
             (or_intror (or_introl eq_refl))).
Defined.

(** X7.  The maximized position and size are written before the window is
    asked for its minimum size.  When [minimumWidth] or [minimumHeight]
    raises, the message is answered (false, 0) for an [OSError] or a
    [ValueError] and the exception propagates otherwise, but in both cases
    the structure already holds the new maximized position and size, with
    the minimum track size it had before. *)
Theorem getminmax_partial_write
    (w : World) (msg : MSG) (mi : MONITORINFOEX) (e : exn) :
  lParam msg <> 0 ->
  truthy (hwnd (self w)) = true ->
  MonitorFromWindow (sys w) (handle_arg (hwnd (self w)))
    MONITOR_DEFAULTTONEAREST <> 0 ->
  GetMonitorInfoW (sys w)
    (MonitorFromWindow (sys w) (handle_arg (hwnd (self w)))
       MONITOR_DEFAULTTONEAREST) = Some mi ->
  minimumWidth (window (self w)) = Raise e \/
  (exists mw, minimumWidth (window (self w)) = Ok mw /\
              minimumHeight (window (self w)) = Raise e) ->
  fst (_handle_getminmax msg w) =
    (if catches [OSError; ValueError] e then Ok (false, 0) else Raise e) /\
  ptMaxPosition (memory (sys (snd (_handle_getminmax msg w))) (lParam msg)) =
    mkPOINT (to_LONG (left (rcWork mi) - left (rcMonitor mi)))
            (to_LONG (top (rcWork mi) - top (rcMonitor mi))) /\
  ptMaxSize (memory (sys (snd (_handle_getminmax msg w))) (lParam msg)) =
    mkPOINT (to_LONG (right (rcWork mi) - left (rcWork mi)))
            (to_LONG (bottom (rcWork mi) - top (rcWork mi))) /\
  ptMinTrackSize (memory (sys (snd (_handle_getminmax msg w))) (lParam msg)) =
    ptMinTrackSize (memory (sys w) (lParam msg)).
Proof.
  intros Hl Hh Hmon Hinfo Hfail.
  apply Z.eqb_neq in Hl, Hmon.
  unfold _handle_getminmax, _handle_getminmax_try.
  rewrite Hl. unfold try_except, store. unfold_monad. simpl.
  rewrite Hh. simpl. rewrite Hmon, Hinfo.
  destruct Hfail as [Hw | (mw & Hw & Hhe)].
  - rewrite Hw. simpl.
    destruct (catches [OSError; ValueError] e); simpl;
      rewrite Z.eqb_refl; repeat split.
  - rewrite Hw, Hhe. simpl.
    destruct (catches [OSError; ValueError] e); simpl;
      rewrite Z.eqb_refl; repeat split.
Qed.

Lemma getminmax_partial_write_witness :
  fst (_handle_getminmax (mkMSG WM_GETMINMAXINFO 0 4096) failing_widget) =
    Ok (false, 0) /\
  ptMaxPosition (memory (sys (snd (_handle_getminmax
      (mkMSG WM_GETMINMAXINFO 0 4096) failing_widget))) 4096) = mkPOINT 10 10 /\
  ptMaxSize (memory (sys (snd (_handle_getminmax
      (mkMSG WM_GETMINMAXINFO 0 4096) failing_widget))) 4096) =
    mkPOINT 1900 1060 /\
  ptMinTrackSize (memory (sys (snd (_handle_getminmax
      (mkMSG WM_GETMINMAXINFO 0 4096) failing_widget))) 4096) = mkPOINT 0 0.
Proof.
  exact (getminmax_partial_write failing_widget (mkMSG WM_GETMINMAXINFO 0 4096)
           (mkMONITORINFOEX (mkRECT 0 0 1920 1080) (mkRECT 10 10 1910 1070))
           OSError ltac:(discriminate) eq_refl ltac:(discriminate) eq_refl
           (or_introl eq_refl)).
Defined.

(** X8.  Whatever the message and the world, the min-max handling writes
    nowhere but into the maximized position, the maximized size and the
    minimum track size of the structure its pointer names: the reserved
    point and the maximum track size of that structure, the memory at every
    other address, the styler and the rest of the platform state stay as
    they were, and no call is made. *)
Theorem getminmax_writes_only_its_fields (w : World) (msg : MSG) :
  self (snd (_handle_getminmax msg w)) = self w /\
  calls (sys (snd (_handle_getminmax msg w))) = calls (sys w) /\
  pending (sys (snd (_handle_getminmax msg w))) = pending (sys w) /\
  zoomed (sys (snd (_handle_getminmax msg w))) = zoomed (sys w) /\
  cursor (sys (snd (_handle_getminmax msg w))) = cursor (sys w) /\
  ptReserved (memory (sys (snd (_handle_getminmax msg w))) (lParam msg)) =
    ptReserved (memory (sys w) (lParam msg)) /\
  ptMaxTrackSize (memory (sys (snd (_handle_getminmax msg w))) (lParam msg)) =
    ptMaxTrackSize (memory (sys w) (lParam msg)) /\
  (forall a, a <> lParam msg ->
     memory (sys (snd (_handle_getminmax msg w))) a = memory (sys w) a).
Proof.
  unfold _handle_getminmax, _handle_getminmax_try, store. unfold_monad.
  repeat (break_match; simpl; try (repeat split; fail));
    repeat match goal with
           | H : (_, _) = (_, _) |- _ => inversion H; subst; clear H
           end;
    simpl; rewrite ?Z.eqb_refl; repeat split;
    intros addr Haddr; apply Z.eqb_neq in Haddr; now rewrite ?Haddr.
Qed.

(** ** More on the hit test *)

(** X9.  Hit-testing is a query: in every world, whatever the window, the
    pointer or the hook answer or raise, a hit-test message gets an answer
    and the world after it is the world before it. *)
Theorem hittest_is_a_query (w : World) (msg : MSG) :
  (exists r, _handle_hittest w = (Ok r, w)) /\
  (message msg = WM_NCHITTEST ->
   exists r, nativeEvent windows_generic_MSG msg w = (Ok r, w)).
Proof.
  assert (Hq : exists r, _handle_hittest w = (Ok r, w)).
  { destruct (hittest_total w) as (r & Hr). exists r.
    rewrite (surjective_pairing (_handle_hittest w)).
    now rewrite Hr, hittest_pure. }
  split; [exact Hq|].
  intros Hm. now rewrite (nativeEvent_hittest msg w Hm).
Qed.

Lemma hittest_is_a_query_witness :
  exists r,
    nativeEvent windows_generic_MSG (mkMSG WM_NCHITTEST 0 0) deleted_widget =
      (Ok r, deleted_widget).
Proof.
  exact (proj2 (hittest_is_a_query deleted_widget (mkMSG WM_NCHITTEST 0 0))
           eq_refl).
Defined.

(** X10.  Without a hook, or with a hook that has no opinion on the point,
    a point that reaches the title-bar decision (the window is maximized, or
    no corner or edge matched) is the caption when the fallback is enabled
    and the point's vertical offset is below the fallback height, and the
    client answer (false, 0) otherwise; in particular with the fallback
    disabled it is always (false, 0). *)
Theorem titlebar_fallback_decision
    (w : World) (pt local : QPoint) (W H B : Z) (d : float) :
  QCursor_pos (sys w) = Ok pt ->
  mapFromGlobal (window (self w)) pt = Ok local ->
  width (window (self w)) = Ok W ->
  height (window (self w)) = Ok H ->
  devicePixelRatio (window (self w)) = Ok d ->
  scaled (BORDER_WIDTH (self w)) d = Ok B ->
  _titlebar_hook (self w) = None \/
  (exists hook, _titlebar_hook (self w) = Some hook /\ hook pt = Ok None) ->
  fst (isMaximized w) = Ok true \/
  resize_area (qx local) (qy local) W H B = None ->
  _handle_hittest w =
    (Ok (if TITLE_BAR_FALLBACK (self w)
            && (qy local <? TITLE_BAR_FALLBACK_HEIGHT (self w))
         then (true, HTCAPTION)
         else (false, 0)), w).
Proof.
  intros Hpos Hmap Hw Hh Hd HB Hhook Hreach.
  assert (Hdisp : _dispatch_titlebar pt (qy local) w =
            (Ok (if TITLE_BAR_FALLBACK (self w)
                    && (qy local <? TITLE_BAR_FALLBACK_HEIGHT (self w))
                 then (true, HTCAPTION)
                 else (false, 0)), w)).
  { unfold _dispatch_titlebar. unfold_monad. simpl.
    destruct Hhook as [Hn | (hook & Hs & Hnone)].
    - rewrite Hn. now destruct (TITLE_BAR_FALLBACK (self w) && _).
    - rewrite Hs, Hnone. now destruct (TITLE_BAR_FALLBACK (self w) && _). }
  unfold _handle_hittest, try_except.
  rewrite (hittest_try_run w pt local W H B d Hpos Hmap Hw Hh Hd HB).
  rewrite isMaximized_value in Hreach.
  destruct Hreach as [Hm | Hr].
  - injection Hm as Hm. now rewrite Hm, Hdisp.
  - rewrite Hr, Hdisp.
    now destruct (truthy (hwnd (self w)) && zoomed (sys w)).
Qed.

(** The spec's examples on the 400 x 300 window: (200,15) lies below the
    border 8 and above the fallback height 30, (200,200) lies below it. *)
Lemma titlebar_fallback_decision_witness :
  _handle_hittest (Demo.world (mkQPoint 200 15)) =
    (Ok (true, HTCAPTION), Demo.world (mkQPoint 200 15)) /\
  _handle_hittest (Demo.world (mkQPoint 200 200)) =
    (Ok (false, 0), Demo.world (mkQPoint 200 200)).
Proof.
  split.
  - exact (titlebar_fallback_decision (Demo.world (mkQPoint 200 15))
             (mkQPoint 200 15) (mkQPoint 200 15) 400 300 8 (double 1)
             eq_refl eq_refl eq_refl eq_refl eq_refl eq_refl
             (or_introl eq_refl) (or_intror eq_refl)).
  - exact (titlebar_fallback_decision (Demo.world (mkQPoint 200 200))
             (mkQPoint 200 200) (mkQPoint 200 200) 400 300 8 (double 1)
             eq_refl eq_refl eq_refl eq_refl eq_refl eq_refl
             (or_introl eq_refl) (or_intror eq_refl)).
Defined.

(** X11.  On a window that is not maximized the hook is consulted only
    off the border: where a corner or an edge matches, its resize code is
    the answer whatever the hook would say or raise; where none matches, a
    definite answer of the hook is returned as it is. *)
Theorem hook_only_off_the_border
    (w : World) (pt local : QPoint) (W H B : Z) (d : float) :
  QCursor_pos (sys w) = Ok pt ->
  mapFromGlobal (window (self w)) pt = Ok local ->
  width (window (self w)) = Ok W ->
  height (window (self w)) = Ok H ->
  devicePixelRatio (window (self w)) = Ok d ->
  scaled (BORDER_WIDTH (self w)) d = Ok B ->
  fst (isMaximized w) = Ok false ->
  (forall code,
     resize_area (qx local) (qy local) W H B = Some code ->
     _handle_hittest w = (Ok (true, code), w)) /\
  (forall hook r,
     resize_area (qx local) (qy local) W H B = None ->
     _titlebar_hook (self w) = Some hook ->
     hook pt = Ok (Some r) ->
     _handle_hittest w = (Ok r, w)).
Proof.
  intros Hpos Hmap Hw Hh Hd HB Hmax.
  rewrite isMaximized_value in Hmax. injection Hmax as Hmax.
  pose proof (hittest_try_run w pt local W H B d Hpos Hmap Hw Hh Hd HB) as Hrun.
  rewrite Hmax in Hrun.
  split.
  - intros code Hc. unfold _handle_hittest, try_except.
    now rewrite Hrun, Hc.
  - intros hook r Hnone Hs Hans. unfold _handle_hittest, try_except.
    rewrite Hrun, Hnone.
    unfold _dispatch_titlebar. unfold_monad. simpl.
    now rewrite Hs, Hans.
Qed.

Lemma hook_only_off_the_border_witness :
  _handle_hittest (greedy_hook (mkQPoint 398 2)) =
    (Ok (true, HTTOPRIGHT), greedy_hook (mkQPoint 398 2)) /\
  _handle_hittest (greedy_hook (mkQPoint 380 12)) =
    (Ok (true, HTMAXBUTTON), greedy_hook (mkQPoint 380 12)) /\
  _handle_hittest (raising_hook RuntimeError (mkQPoint 2 150)) =
    (Ok (true, HTLEFT), raising_hook RuntimeError (mkQPoint 2 150)).
Proof.
  split; [|split].
  - exact (proj1 (hook_only_off_the_border (greedy_hook (mkQPoint 398 2))
                    (mkQPoint 398 2) (mkQPoint 398 2) 400 300 8 (double 1)
                    eq_refl eq_refl eq_refl eq_refl eq_refl eq_refl eq_refl)
             HTTOPRIGHT eq_refl).
  - exact (proj2 (hook_only_off_the_border (greedy_hook (mkQPoint 380 12))
                    (mkQPoint 380 12) (mkQPoint 380 12) 400 300 8 (double 1)
                    eq_refl eq_refl eq_refl eq_refl eq_refl eq_refl eq_refl)
             (fun _ => Ok (Some (true, HTMAXBUTTON))) (true, HTMAXBUTTON)
             eq_refl eq_refl eq_refl).
  - exact (proj1 (hook_only_off_the_border
                    (raising_hook RuntimeError (mkQPoint 2 150))
                    (mkQPoint 2 150) (mkQPoint 2 150) 400 300 8 (double 1)
                    eq_refl eq_refl eq_refl eq_refl eq_refl eq_refl eq_refl)
             HTLEFT eq_refl).
Defined.

(** X12.  The corner and edge tests, for any window size and any border,
    also a negative one: no resize area matches exactly on the inner
    rectangle [bw <= x <= w - bw], [bw <= y <= h - bw]; what matches
    elsewhere is one of the eight resize codes; with a border of zero or
    less no point of the window [0 <= x <= w], [0 <= y <= h] is a resize
    area. *)
Theorem resize_area_inner_rectangle (x y w h bw : Z) :
  (resize_area x y w h bw = None <->
   bw <= x <= w - bw /\ bw <= y <= h - bw) /\
  (forall code,
     resize_area x y w h bw = Some code ->
     In code [HTTOPLEFT; HTTOPRIGHT; HTBOTTOMLEFT; HTBOTTOMRIGHT;
              HTTOP; HTBOTTOM; HTLEFT; HTRIGHT]) /\
  (bw <= 0 -> 0 <= x <= w -> 0 <= y <= h -> resize_area x y w h bw = None).
Proof.
  assert (Hiff : resize_area x y w h bw = None <->
                 bw <= x <= w - bw /\ bw <= y <= h - bw).
  { unfold resize_area.
    destruct (Z.ltb_spec x bw), (Z.ltb_spec y bw),
      (Z.gtb_spec x (w - bw)), (Z.gtb_spec y (h - bw)); simpl;
      split; intros Hx; try discriminate; try lia; reflexivity. }
  split; [exact Hiff|]. split.
  - intros code. unfold resize_area.
    destruct (Z.ltb_spec x bw), (Z.ltb_spec y bw),
      (Z.gtb_spec x (w - bw)), (Z.gtb_spec y (h - bw)); simpl;
      intros Hc; try discriminate; injection Hc as <-; simpl; tauto.
  - intros Hb Hx Hy. apply Hiff. lia.
Qed.

(** X13.  A window narrower than twice the border has no top or bottom
    edge area, and one shorter than twice the border has no left or right
    edge area: every border point of such a window is taken by a corner or
    by the other pair of edges.  The top-left corner box wins wherever it
    reaches, whatever the size. *)
Theorem small_window_loses_edges (x y w h bw : Z) :
  (w < 2 * bw ->
   resize_area x y w h bw <> Some HTTOP /\
   resize_area x y w h bw <> Some HTBOTTOM) /\
  (h < 2 * bw ->
   resize_area x y w h bw <> Some HTLEFT /\
   resize_area x y w h bw <> Some HTRIGHT) /\
  (x < bw -> y < bw -> resize_area x y w h bw = Some HTTOPLEFT).
Proof.
  unfold resize_area.
  repeat split; intros;
    destruct (Z.ltb_spec x bw), (Z.ltb_spec y bw),
      (Z.gtb_spec x (w - bw)), (Z.gtb_spec y (h - bw)); simpl;
    try discriminate; try lia; reflexivity.
Qed.

Lemma small_window_loses_edges_witness :
  resize_area 5 2 12 300 8 = Some HTTOPLEFT /\
  resize_area 6 2 12 300 8 <> Some HTTOP.
Proof.
  split.
  - apply (proj2 (proj2 (small_window_loses_edges 5 2 12 300 8))); lia.
  - apply (proj1 (small_window_loses_edges 6 2 12 300 8)). lia.
Defined.

(** ** Applying the corners *)

Ltac unfold_corners :=
  unfold apply_rounded_corners, _set_rounded_region, _set_dwm_corner_preference,
    isMaximized, user32.IsZoomed, user32.SetWindowRgn,
    dwmapi.DwmSetWindowAttribute', gdi32.DeleteObject;
  unfold_monad; simpl.

(** All the paths of the corner application, with the facts at hand
    rewritten along the way. *)
Ltac crunch_corners known :=
  unfold_corners;
  repeat (break_match; simpl in *; known;
          rewrite ?catches_Exception in *; simpl in *;
          repeat match goal with
                 | H : Some ?a = Some _ |- _ => injection H as H; subst a
                 | H : Ok ?a = Ok _ |- _ => injection H as H; subst a
                 end;
          known; simpl in *;
          try discriminate; try congruence);
  rewrite <- ?app_assoc; try reflexivity.

Lemma apply_rounded_corners_frame (w : World) :
  fst (apply_rounded_corners w) = Ok tt /\
  self (snd (apply_rounded_corners w)) = self w /\
  zoomed (sys (snd (apply_rounded_corners w))) = zoomed (sys w) /\
  cursor (sys (snd (apply_rounded_corners w))) = cursor (sys w) /\
  time_time (sys (snd (apply_rounded_corners w))) = time_time (sys w) /\
  pending (sys (snd (apply_rounded_corners w))) = pending (sys w).
Proof.
  unfold_corners.
  repeat (break_match; simpl; rewrite ?catches_Exception; simpl;
          try (repeat split; fail)).
Qed.


(** X15.  On a maximized window, applying the corners clears the clip
    region with [SetWindowRgn(hwnd, 0)] and, on Windows 11, asks the
    compositor not to round; these are its only calls, whether or not the
    compositor accepts the request. *)
Theorem corners_cleared_when_maximized (w : World) :
  truthy (hwnd (self w)) = true ->
  zoomed (sys w) = true ->
  calls (sys (snd (apply_rounded_corners w))) =
    calls (sys w) ++
    call_SetWindowRgn (hwnd (self w)) 0 ::
    (if _is_windows_11 (self w)
     then [call_DwmSetWindowAttribute (hwnd (self w))
             DWMWA_WINDOW_CORNER_PREFERENCE DWMWCP_DONOTROUND]
     else []).
Proof.
  intros Hh Hz. destruct (_is_windows_11 (self w)) eqn:Hw11.
  - crunch_corners ltac:(rewrite ?Hh, ?Hz, ?Hw11 in *).
  - crunch_corners ltac:(rewrite ?Hh, ?Hz, ?Hw11 in *).
Qed.

Lemma corners_cleared_when_maximized_witness :
  calls (sys (snd (apply_rounded_corners plain_maximized))) =
    [call_SetWindowRgn (Some 4242) 0;
     call_DwmSetWindowAttribute (Some 4242)
       DWMWA_WINDOW_CORNER_PREFERENCE DWMWCP_DONOTROUND].
Proof.
  exact (corners_cleared_when_maximized plain_maximized eq_refl eq_refl).
Defined.

(** X16.  On a restored window under Windows 11, when the compositor
    accepts the corner preference, applying the corners is that one request
    for round corners: no clip region is created or installed. *)
Theorem corners_native_when_accepted (w : World) :
  truthy (hwnd (self w)) = true ->
  zoomed (sys w) = false ->
  _is_windows_11 (self w) = true ->
  DwmSetWindowAttribute (sys w) (handle_arg (hwnd (self w)))
    DWMWA_WINDOW_CORNER_PREFERENCE DWMWCP_ROUND = 0 ->
  calls (sys (snd (apply_rounded_corners w))) =
    calls (sys w) ++
    [call_DwmSetWindowAttribute (hwnd (self w))
       DWMWA_WINDOW_CORNER_PREFERENCE DWMWCP_ROUND].
Proof.
  intros Hh Hz Hw11 Hhr.
  crunch_corners ltac:(rewrite ?Hh, ?Hz, ?Hw11, ?Hhr in *).
Qed.

Lemma corners_native_when_accepted_witness :
  calls (sys (snd (apply_rounded_corners (Demo.world (mkQPoint 0 0))))) =
    [call_DwmSetWindowAttribute (Some 4242)
       DWMWA_WINDOW_CORNER_PREFERENCE DWMWCP_ROUND].
Proof.
  exact (corners_native_when_accepted (Demo.world (mkQPoint 0 0))
           eq_refl eq_refl eq_refl eq_refl).
Defined.

(** X17.  On a restored window, off Windows 11 or when the compositor
    refuses the corner preference, a round-rectangle region is installed:
    it is created over (0, 0)-(width, height) of the window rectangle with
    the radius [int(ROUND_CORNER_RADIUS * dpr)], the product being the one
    of binary64 floats, and handed to [SetWindowRgn]. *)
Theorem corners_manual_region
    (w : World) (d : float) (radius : Z) (rect : RECT) :
  truthy (hwnd (self w)) = true ->
  zoomed (sys w) = false ->
  native_refused w ->
  devicePixelRatio (window (self w)) = Ok d ->
  scaled (ROUND_CORNER_RADIUS (self w)) d = Ok radius ->
  GetWindowRect (sys w) (handle_arg (hwnd (self w))) = Some rect ->
  CreateRoundRectRgn (sys w) 0 0
    (right rect - left rect) (bottom rect - top rect) radius radius <> 0 ->
  calls (sys (snd (apply_rounded_corners w))) =
    calls (sys w) ++ native_attempt (self w) ++
    [call_SetWindowRgn (hwnd (self w))
       (CreateRoundRectRgn (sys w) 0 0
          (right rect - left rect) (bottom rect - top rect) radius radius)].
Proof.
  intros Hh Hz Href Hd Hrad Hrect Hrgn. apply Z.eqb_neq in Hrgn.
  unfold native_attempt. unfold scaled in Hrad.
  destruct (int_times_float (ROUND_CORNER_RADIUS (self w)) d) as [f | e]
    eqn:Hf; [|discriminate].
  destruct Href as [Hoff | Hhr].
  - crunch_corners
      ltac:(rewrite ?Hh, ?Hz, ?Hoff, ?Hd, ?Hf, ?Hrad, ?Hrect, ?Hrgn in * ).
  - apply Z.eqb_neq in Hhr.
    destruct (_is_windows_11 (self w)) eqn:Hw11.
    + crunch_corners
        ltac:(rewrite ?Hh, ?Hz, ?Hw11, ?Hhr, ?Hd, ?Hf, ?Hrad, ?Hrect, ?Hrgn
                in * ).
    + crunch_corners
        ltac:(rewrite ?Hh, ?Hz, ?Hw11, ?Hd, ?Hf, ?Hrad, ?Hrect, ?Hrgn in * ).
Qed.

(** Windows 10 at the scale factor 1.2: the radius is [int(15 * 1.2)],
    which is 18, and the region is made for 600 x 450. *)
Lemma corners_manual_region_witness :
  scaled 15 (double (12 # 10)) = Ok 18 /\
  calls (sys (snd (apply_rounded_corners windows_10))) =
    [call_SetWindowRgn (Some 4242) 600450018].
Proof.
  split; [vm_compute; reflexivity|].
  exact (corners_manual_region windows_10 (double (12 # 10)) 18
           (mkRECT 100 100 700 550)
           eq_refl eq_refl (or_introl eq_refl) eq_refl eq_refl eq_refl
           ltac:(discriminate)).
Defined.



(** X19.  Setting the corner preference reports its failures by raising:
    off Windows 11 or without a window handle it raises [RuntimeError]
    before any call is made; otherwise it makes the one
    [DwmSetWindowAttribute] call and raises [OSError] exactly when the
    result is not zero. *)
Theorem set_dwm_corner_preference_errors (w : World) (preference : Z) :
  (_is_windows_11 (self w) = false \/ truthy (hwnd (self w)) = false ->
   _set_dwm_corner_preference preference w = (Raise RuntimeError, w)) /\
  (_is_windows_11 (self w) = true -> truthy (hwnd (self w)) = true ->
   fst (_set_dwm_corner_preference preference w) =
     (if DwmSetWindowAttribute (sys w) (handle_arg (hwnd (self w)))
           DWMWA_WINDOW_CORNER_PREFERENCE preference =? 0
      then Ok tt else Raise OSError) /\
   calls (sys (snd (_set_dwm_corner_preference preference w))) =
     calls (sys w) ++
     [call_DwmSetWindowAttribute (hwnd (self w))
        DWMWA_WINDOW_CORNER_PREFERENCE preference]).
Proof.
  unfold _set_dwm_corner_preference, dwmapi.DwmSetWindowAttribute'.
  unfold_monad. simpl. split.
  - intros [Hoff | Hh].
    + now rewrite Hoff.
    + rewrite Hh. now rewrite orb_true_r.
  - intros Hon Hh. rewrite Hon, Hh. simpl.
    now destruct (DwmSetWindowAttribute (sys w) _ _ _ =? 0).
Qed.

Lemma set_dwm_corner_preference_errors_witness :
  _set_dwm_corner_preference DWMWCP_ROUND windows_10 =
    (Raise RuntimeError, windows_10) /\
  fst (_set_dwm_corner_preference DWMWCP_ROUND (Demo.world (mkQPoint 0 0))) =
    Ok tt.
Proof.
  split.
  - exact (proj1 (set_dwm_corner_preference_errors windows_10 DWMWCP_ROUND)
             (or_introl eq_refl)).
  - exact (proj1 (proj2 (set_dwm_corner_preference_errors
                           (Demo.world (mkQPoint 0 0)) DWMWCP_ROUND)
                    eq_refl eq_refl)).
Defined.

(** ** The delay of the debounced scheduler *)

(** *** Facts of binary64 arithmetic *)

Lemma fsub_diag (t : float) :
  fsub t t = if is_finite t then S754_zero false else S754_nan.
Proof.
  destruct t as [s | s | | s m e];
    try reflexivity; try (destruct s; reflexivity).
  unfold fsub, SFsub. cbv zeta. rewrite Z.sub_diag. reflexivity.
Qed.

Lemma digits2_pos_bounds (m : positive) :
  2 ^ (Zpos (digits2_pos m) - 1) <= Zpos m < 2 ^ Zpos (digits2_pos m).
Proof.
  induction m as [m IH | m IH |]; simpl digits2_pos.
  - rewrite Pos2Z.inj_succ.
    replace (Z.succ (Zpos (digits2_pos m)) - 1)
      with (Z.succ (Zpos (digits2_pos m) - 1)) by lia.
    rewrite !Z.pow_succ_r by lia. lia.
  - rewrite Pos2Z.inj_succ.
    replace (Z.succ (Zpos (digits2_pos m)) - 1)
      with (Z.succ (Zpos (digits2_pos m) - 1)) by lia.
    rewrite !Z.pow_succ_r by lia. lia.
  - simpl. lia.
Qed.

Lemma shl_align_value (m : positive) (e e' : Z) :
  e' <= e -> Zpos (fst (shl_align m e e')) = Zpos m * 2 ^ (e - e').
Proof.
  intros Hle. unfold shl_align.
  destruct (e' - e) as [|d|d] eqn:Hd.
  - replace (e - e') with 0 by lia. simpl. lia.
  - lia.
  - replace (e - e') with (Zpos d) by lia. simpl fst.
    change (Pos.iter xO m d) with (shift_pos d m).
    rewrite shift_pos_correct. rewrite Zpower_pos_nat, Zpower_nat_Z.
    rewrite positive_nat_Z. lia.
Qed.

(** A valid finite float has at most 53 digits, and exactly 53 above the
    least exponent. *)
Lemma valid_finite (s : bool) (m : positive) (e : Z) :
  valid (S754_finite s m e) = true ->
  - 1074 <= e /\ Zpos (digits2_pos m) <= 53 /\
  (- 1074 < e -> Zpos (digits2_pos m) = 53).
Proof.
  unfold valid, valid_binary, bounded, canonical_mantissa, fexp, emin, prec, emax.
  intros H. apply andb_true_iff in H. destruct H as (H & _).
  apply Z.eqb_eq in H. lia.
Qed.

(** Of two valid floats, the one with the higher exponent has the larger
    magnitude. *)
Lemma aligned_higher (mx my : positive) (ex ey : Z) (sx sy : bool) :
  valid (S754_finite sx mx ex) = true ->
  valid (S754_finite sy my ey) = true ->
  ey < ex ->
  Zpos my <= Zpos mx * 2 ^ (ex - ey).
Proof.
  intros Vx Vy Hlt.
  destruct (valid_finite _ _ _ Vx) as (Hx1 & Hx2 & Hx3).
  destruct (valid_finite _ _ _ Vy) as (Hy1 & Hy2 & Hy3).
  pose proof (digits2_pos_bounds mx) as Bx.
  pose proof (digits2_pos_bounds my) as By.
  rewrite Hx3 in Bx by lia.
  assert (Hy : Zpos my < 2 ^ 53).
  { apply Z.lt_le_trans with (2 ^ Zpos (digits2_pos my)); [lia|].
    apply Z.pow_le_mono_r; lia. }
  assert (Hp : 2 ^ 1 <= 2 ^ (ex - ey)) by (apply Z.pow_le_mono_r; lia).
  change (2 ^ (53 - 1)) with 4503599627370496 in Bx.
  change (2 ^ 53) with 9007199254740992 in Hy.
  change (2 ^ 1) with 2 in Hp.
  nia.
Qed.

(** Rounding keeps the sign. *)
Lemma binary_round_aux_sign (s : bool) (m e : Z) (l : location) :
  match binary_round_aux prec emax s m e l with
  | S754_zero s' | S754_infinity s' | S754_finite s' _ _ => s' = s
  | S754_nan => True
  end.
Proof.
  unfold binary_round_aux.
  destruct (shr_fexp prec emax m e l) as [mrs' e'].
  destruct (shr_fexp prec emax _ e' loc_Exact) as [mrs'' e''].
  destruct (shr_m mrs''); auto.
  destruct (_ <=? _); auto.
Qed.

Lemma binary_normalize_sign (m e : Z) :
  0 <= m -> not_negative (binary_normalize prec emax m e false).
Proof.
  intros Hm. unfold binary_normalize.
  destruct m as [|p|p]; [exact I | | lia].
  unfold binary_round.
  destruct (shl_align _ _ _) as [mz ez].
  pose proof (binary_round_aux_sign false (Zpos mz) ez loc_Exact) as Hs.
  destruct (binary_round_aux _ _ _ _ _ _); simpl; auto; subst; auto.
Qed.

(** [x - y] is not negative when [y <= x]. *)
Lemma fsub_not_negative (x y : float) :
  valid x = true -> valid y = true -> fle y x = true ->
  not_negative (fsub x y).
Proof.
  intros Vx Vy Hle.
  destruct x as [sx | sx | | sx mx ex], y as [sy | sy | | sy my ey];
    lazymatch goal with
    | |- not_negative (fsub (S754_finite _ _ _) (S754_finite _ _ _)) => idtac
    | _ => try destruct sx; try destruct sy; try discriminate; exact I
    end.
  unfold fsub, SFsub. cbv zeta. apply binary_normalize_sign.
  revert Hle. unfold fle, SFleb, SFcompare, cond_Zopp.
  change IntDef.Z.sub with Z.sub. change IntDef.Z.opp with Z.opp.
  change IntDef.Z.min with Z.min.
  change (Pos.compare_cont Eq my mx) with (Pos.compare my mx).
  destruct sx, sy; try discriminate.
  - destruct (Z.compare_spec ey ex) as [He | He | He]; try discriminate.
    + subst. rewrite Z.min_id, !shl_align_value by lia.
      rewrite Z.sub_diag. simpl (2 ^ 0).
      destruct (Pos.compare_spec my mx); cbv beta iota delta [CompOpp];
        intros Hc; try discriminate Hc; lia.
    + intros _. rewrite Z.min_l, !shl_align_value by lia.
      rewrite Z.sub_diag. simpl (2 ^ 0).
      pose proof (aligned_higher my mx ey ex true true Vy Vx He) as Ha.
      revert Ha. generalize (Z.pos my * 2 ^ (ey - ex)). lia.
  - destruct (Z.compare_spec ey ex) as [He | He | He]; try discriminate.
    + subst. rewrite Z.min_id, !shl_align_value by lia.
      rewrite Z.sub_diag. simpl (2 ^ 0).
      destruct (Pos.compare_spec my mx); cbv beta iota delta [CompOpp];
        intros Hc; try discriminate Hc; lia.
    + intros _. rewrite Z.min_r, !shl_align_value by lia.
      rewrite Z.sub_diag. simpl (2 ^ 0).
      pose proof (aligned_higher mx my ex ey false false Vx Vy He) as Ha.
      revert Ha. generalize (Z.pos mx * 2 ^ (ex - ey)). lia.
Qed.

Lemma float_of_1000 :
  float_of_int 1000 = Ok (S754_finite false 8796093022208000 (-43)).
Proof. reflexivity. Qed.

(** [int(f * 1000)] is not negative when [f] is not. *)
Lemma py_int_product_nonneg (f p : float) (ms : Z) :
  not_negative f ->
  float_times_int f 1000 = Ok p ->
  py_int p = Ok ms ->
  0 <= ms.
Proof.
  intros Hf. unfold float_times_int. rewrite float_of_1000.
  intros Hp. injection Hp as <-.
  destruct f as [s | s | | s m e]; simpl in Hf.
  - intros H. injection H as <-. lia.
  - destruct s; discriminate.
  - discriminate.
  - destruct s; [contradiction|].
    unfold fmul, SFmul. simpl xorb.
    pose proof (binary_round_aux_sign false
                  (Zpos (m * 8796093022208000)) (e + -43) loc_Exact) as Hs.
    destruct (binary_round_aux _ _ _ _ _ _) as [s' | s' | | s' m' e'];
      unfold py_int; try discriminate.
    + intros H. injection H as <-. lia.
    + subst s'. intros H. injection H as <-. simpl.
      apply Z.shiftl_nonneg. lia.
Qed.

(** The scheduler fails with the [OverflowError] or the [ValueError] of
    [int()], or with the [OverflowError] of the timer. *)
Lemma debounce_delay_errors (w : World) (e : exn) :
  debounce_delay w = Raise e -> e = OverflowError \/ e = ValueError.
Proof.
  unfold debounce_delay, elapsed_ms, float_times_int.
  rewrite float_of_1000.
  destruct (fmul _ _) as [s | s | | s m x]; unfold py_int;
    try (destruct (in_c_int _)); intros H; try discriminate;
    injection H as <-; auto.
Qed.

(** X20.  The delay handed to the timer by the debounced scheduler is a
    whole number of milliseconds from 0 to 2^31 - 1.  It is at most 50 when
    the clock is not behind the time of the last application, and it is 0
    once the elapsed milliseconds the scheduler computes have reached 50.
    When there is no such delay the scheduler raises [OverflowError] or
    [ValueError], and no timeout is scheduled. *)
Theorem debounce_delay_bounds (w : World) :
  (forall delay, debounce_delay w = Ok delay ->
     0 <= delay < 2 ^ 31 /\
     fst (_debounced_apply_corners w) = Ok tt /\
     In (call_singleShot delay cb_apply_corners_now)
        (calls (sys (snd (_debounced_apply_corners w)))) /\
     (valid (time_time (sys w)) = true ->
      valid (_last_corner_apply (self w)) = true ->
      fle (_last_corner_apply (self w)) (time_time (sys w)) = true ->
      delay <= 50) /\
     (forall elapsed, elapsed_ms w = Ok elapsed -> 50 <= elapsed -> delay = 0)) /\
  (forall e, debounce_delay w = Raise e ->
     (e = OverflowError \/ e = ValueError) /\
     fst (_debounced_apply_corners w) = Raise e /\
     pending (sys (snd (_debounced_apply_corners w))) = after_stop w /\
     triggers (calls (sys (snd (_debounced_apply_corners w)))) =
       triggers (calls (sys w))).
Proof.
  destruct (debounced_spec w) as (D1 & D2 & D3 & _).
  unfold when_scheduled in D1. split.
  - intros delay Hd. rewrite Hd in D1.
    assert (Hdef := Hd). unfold debounce_delay in Hdef.
    destruct (elapsed_ms w) as [elapsed | e] eqn:He; [|discriminate].
    cbv zeta in Hdef.
    destruct (in_c_int (Z.max 0 (50 - elapsed))) eqn:Hc; [|discriminate].
    injection Hdef as <-.
    unfold in_c_int in Hc. apply andb_true_iff in Hc. destruct Hc as (_ & Hc).
    apply Z.ltb_lt in Hc.
    split; [lia|]. split; [exact D1|]. split; [|split].
    + rewrite D2. apply in_or_app. right. unfold debounce_calls.
      rewrite Hd. apply in_or_app. right. now left.
    + intros Vt Vl Hle.
      pose proof (fsub_not_negative _ _ Vt Vl Hle) as Hn.
      unfold elapsed_ms in He.
      destruct (float_times_int _ 1000) as [p | e] eqn:Hp; [|discriminate].
      pose proof (py_int_product_nonneg _ p elapsed Hn Hp He). lia.
    + intros elapsed' He' Hge. injection He' as <-. lia.
  - intros e He. rewrite He in D1.
    split; [now apply (debounce_delay_errors w)|]. split; [exact D1|].
    split.
    + rewrite D3. unfold debounce_timeout. rewrite He. apply app_nil_r.
    + rewrite D2, triggers_app, triggers_debounce, He. lia.
Qed.

(** The theorem 10 ms after an application, and with the clock set
    back. *)
Lemma debounce_delay_bounds_witness :
  debounce_delay after_apply = Ok 40 /\
  In (call_singleShot 40 cb_apply_corners_now)
     (calls (sys (snd (_debounced_apply_corners after_apply)))) /\
  40 <= 50 /\
  fst (_debounced_apply_corners clock_set_back) = Raise OverflowError.
Proof.
  destruct (proj1 (debounce_delay_bounds after_apply) 40 eq_refl)
    as (_ & _ & Hin & Hle & _).
  split; [reflexivity|]. split; [exact Hin|]. split.
  - exact (Hle eq_refl eq_refl eq_refl).
  - exact (proj1 (proj2 (proj2 (debounce_delay_bounds clock_set_back)
                           OverflowError eq_refl))).
Defined.

(** X21.  A timer callback stamps the time of the application before it
    applies the corners, and the application leaves the stamp and the clock
    alone: a trigger that arrives while the clock still has that reading is
    scheduled a full 50 ms later.  (A clock that reads an infinity or a NaN
    makes the scheduler raise [ValueError].) *)
Theorem full_delay_after_application (w : World) :
  fst (_apply_corners_now w) = Ok tt /\
  _last_corner_apply (self (snd (_apply_corners_now w))) = time_time (sys w) /\
  time_time (sys (snd (_apply_corners_now w))) = time_time (sys w) /\
  debounce_delay (snd (_apply_corners_now w)) =
    if is_finite (time_time (sys w)) then Ok 50 else Raise ValueError.
Proof.
  assert (Hrun : _apply_corners_now w =
                 apply_rounded_corners
                   (mkWorld (set_last_corner_apply (time_time (sys w)) (self w))
                      (sys w))) by reflexivity.
  rewrite Hrun.
  destruct (apply_rounded_corners_frame
              (mkWorld (set_last_corner_apply (time_time (sys w)) (self w))
                 (sys w))) as (F1 & F2 & _ & _ & F5 & _).
  simpl in F2, F5.
  split; [exact F1|].
  split; [now rewrite F2|].
  split; [exact F5|].
  unfold debounce_delay, elapsed_ms. rewrite F2, F5. simpl _last_corner_apply.
  rewrite fsub_diag. unfold float_times_int. rewrite float_of_1000.
  destruct (is_finite (time_time (sys w))); reflexivity.
Qed.

(** ** Maximizing and restoring from the program *)









(** ** The button observer *)



(** X25.  Registering the maximize button stores it in place of any
    earlier one and tells it the state of that moment: its tooltip is set
    to "Restore" when the window is maximized and to "Maximize" otherwise.
    Nothing else of the styler changes and nothing is raised, also when
    the button's [setToolTip] raises. *)
Theorem register_maximize_button (button : QPushButton) (w : World) :
  fst (setTitlebarMaximizeButton button w) = Ok tt /\
  self (snd (setTitlebarMaximizeButton button w)) =
    set_titlebar_maximize_button (Some button) (self w) /\
  calls (sys (snd (setTitlebarMaximizeButton button w))) =
    calls (sys w) ++
    (if hasattr_setToolTip button
     then [call_setToolTip (tooltip (maximized w))]
     else []).
Proof.
  assert (Hrun : setTitlebarMaximizeButton button w =
                 _update_maximize_button_state (maximized w)
                   (mkWorld (set_titlebar_maximize_button (Some button) (self w))
                      (sys w))).
  { unfold setTitlebarMaximizeButton. unfold bind at 1. unfold modify_self.
    unfold bind at 1. rewrite isMaximized_run. reflexivity. }
  rewrite Hrun.
  destruct (update_button_spec (maximized w)
              (mkWorld (set_titlebar_maximize_button (Some button) (self w))
                 (sys w))) as (U1 & U2 & _ & _ & _ & _ & U7).
  split; [exact U1|]. split; [exact U2|].
  rewrite U7. unfold observer_calls, tooltip. simpl.
  reflexivity.
Qed.

(** ** Tearing down *)

(** X26.  [cleanup] never raises and leaves the styler object as it is,
    so the slot keeps the handle of a saved cursor.  Its calls are, in this
    order and no others: [stop()] on the stored timer object when there is
    one, and one [SetCursor] with the saved cursor when one is saved, which
    makes that cursor the active one.  The timeouts that wait afterwards are
    those the [stop()] leaves.  With no timer object and no cursor saved it
    does nothing at all. *)
Theorem cleanup_restores_cursor (w : World) :
  fst (cleanup w) = Ok tt /\
  self (snd (cleanup w)) = self w /\
  calls (sys (snd (cleanup w))) =
    calls (sys w) ++ stop_calls w ++
    (if truthy (_original_cursor (self w))
     then [call_SetCursor (handle_arg (_original_cursor (self w)))]
     else []) /\
  cursor (sys (snd (cleanup w))) =
    (if truthy (_original_cursor (self w))
     then handle_arg (_original_cursor (self w))
     else cursor (sys w)) /\
  pending (sys (snd (cleanup w))) = after_stop w /\
  zoomed (sys (snd (cleanup w))) = zoomed (sys w) /\
  (_corner_timer (self w) = None ->
   truthy (_original_cursor (self w)) = false ->
   cleanup w = (Ok tt, w)).
Proof.
  unfold cleanup, QTimer_stop, user32.SetCursor, stop_calls, after_stop.
  unfold_monad. simpl.
  destruct (_corner_timer (self w)) as [t|]; simpl;
    destruct (truthy (_original_cursor (self w))); simpl;
    repeat split; intros; try discriminate;
    rewrite <- ?app_assoc, ?app_nil_r; reflexivity.
Qed.

(** The theorem on the styler as constructed, and on the test window after
    a trigger with the arrow cursor saved. *)
Lemma cleanup_restores_cursor_witness :
  cleanup fresh = (Ok tt, fresh) /\
  calls (sys (snd (cleanup before_close))) =
    calls (sys before_close) ++
    [call_stop (mkQTimer 0); call_SetCursor 65539] /\
  cursor (sys (snd (cleanup before_close))) = 65539 /\
  _original_cursor (self (snd (cleanup before_close))) = Some 65539 /\
  pending (sys (snd (cleanup before_close))) = pending (sys before_close).
Proof.
  destruct (cleanup_restores_cursor fresh) as (_ & _ & _ & _ & _ & _ & Hnone).
  destruct (cleanup_restores_cursor before_close)
    as (_ & Hself & Hcalls & Hcur & Hpend & _).
  split; [exact (Hnone eq_refl eq_refl)|].
  split; [exact Hcalls|].
  split; [exact Hcur|].
  split; [now rewrite Hself | exact Hpend].
Defined.

(** ** The one-time setup *)

Lemma to_LONG_mod (z : Z) : to_LONG z mod 2 ^ 32 = z mod 2 ^ 32.
Proof.
  unfold to_LONG.
  rewrite (Z.mod_eq (z + 2 ^ 31) (2 ^ 32)) by lia.
  replace (z + 2 ^ 31 - 2 ^ 32 * ((z + 2 ^ 31) / 2 ^ 32) - 2 ^ 31)
    with (z + (- ((z + 2 ^ 31) / 2 ^ 32)) * 2 ^ 32) by ring.
  apply Z_mod_plus_full.
Qed.

Lemma to_LONG_testbit (z n : Z) :
  0 <= n < 32 -> Z.testbit (to_LONG z) n = Z.testbit z n.
Proof.
  intros Hn.
  rewrite <- (Z.mod_pow2_bits_low (to_LONG z) 32 n) by lia.
  rewrite to_LONG_mod. apply Z.mod_pow2_bits_low. lia.
Qed.

Lemma to_LONG_ext (a b : Z) :
  (forall n, 0 <= n < 32 -> Z.testbit a n = Z.testbit b n) ->
  to_LONG a = to_LONG b.
Proof.
  intros Hbits.
  assert (Hmod : a mod 2 ^ 32 = b mod 2 ^ 32).
  { apply Z.bits_inj'. intros n Hn.
    destruct (Z.lt_ge_cases n 32) as [Hlt | Hge].
    - rewrite !Z.mod_pow2_bits_low by lia. apply Hbits. lia.
    - rewrite !Z.mod_pow2_bits_high by lia. reflexivity. }
  unfold to_LONG.
  rewrite <- (Zplus_mod_idemp_l a), <- (Zplus_mod_idemp_l b), Hmod.
  reflexivity.
Qed.

Lemma to_LONG_range (z : Z) : in_LONG (to_LONG z).
Proof.
  unfold in_LONG, to_LONG.
  pose proof (Z.mod_pos_bound (z + 2 ^ 31) (2 ^ 32) ltac:(lia)). lia.
Qed.

Lemma frame_style_testbit (s n : Z) :
  0 <= n ->
  Z.testbit (frame_style s) n =
    (Z.testbit s n || Z.testbit WS_THICKFRAME n)
    && negb (Z.testbit WS_CAPTION n).
Proof.
  intros Hn. unfold frame_style.
  now rewrite Z.land_spec, Z.lor_spec, Z.lnot_spec.
Qed.

Lemma setup_win32_frame_style (d : Desktop) :
  truthy (hwnd (self (world d))) = true ->
  window_long (setup_win32_frame d) GWL_STYLE =
    to_LONG (frame_style (to_LONG (window_long d GWL_STYLE))) /\
  self (world (setup_win32_frame d)) = self (world d).
Proof.
  intros Hh. unfold setup_win32_frame. rewrite Hh. simpl.
  split; reflexivity.
Qed.

(** X27.  With a window handle, the setup rewrites the style of the window
    bit by bit (bits 0 to 31): a bit is set afterwards exactly when it was
    set before or is the thick-frame bit, and is not one of the two caption
    bits.  So the thick-frame bit 18 is set, the caption bits 22 and 23 are
    clear, each other bit is as it was.  The style stored fits a [LONG], no
    other window long is touched, and running the setup a second time
    stores the same style. *)
Theorem frame_style_bits (d : Desktop) :
  truthy (hwnd (self (world d))) = true ->
  (forall n, 0 <= n < 32 ->
     Z.testbit (window_long (setup_win32_frame d) GWL_STYLE) n =
       (Z.testbit (window_long d GWL_STYLE) n || Z.testbit WS_THICKFRAME n)
       && negb (Z.testbit WS_CAPTION n)) /\
  Z.testbit (window_long (setup_win32_frame d) GWL_STYLE) 18 = true /\
  Z.testbit (window_long (setup_win32_frame d) GWL_STYLE) 22 = false /\
  Z.testbit (window_long (setup_win32_frame d) GWL_STYLE) 23 = false /\
  (forall n, 0 <= n < 32 -> n <> 18 -> n <> 22 -> n <> 23 ->
     Z.testbit (window_long (setup_win32_frame d) GWL_STYLE) n =
       Z.testbit (window_long d GWL_STYLE) n) /\
  in_LONG (window_long (setup_win32_frame d) GWL_STYLE) /\
  (forall i, i <> GWL_STYLE ->
     window_long (setup_win32_frame d) i = window_long d i) /\
  window_long (setup_win32_frame (setup_win32_frame d)) GWL_STYLE =
    window_long (setup_win32_frame d) GWL_STYLE.
Proof.
  intros Hh.
  destruct (setup_win32_frame_style d Hh) as (Hs & Hself).
  assert (Hbits : forall n, 0 <= n < 32 ->
     Z.testbit (window_long (setup_win32_frame d) GWL_STYLE) n =
       (Z.testbit (window_long d GWL_STYLE) n || Z.testbit WS_THICKFRAME n)
       && negb (Z.testbit WS_CAPTION n)).
  { intros n Hn. rewrite Hs, to_LONG_testbit by lia.
    rewrite frame_style_testbit by lia.
    now rewrite to_LONG_testbit by lia. }
  assert (Hthick : forall n, 0 <= n ->
            Z.testbit WS_THICKFRAME n = (18 =? n)).
  { intros n Hn. change WS_THICKFRAME with (2 ^ 18).
    apply Z.pow2_bits_eqb. lia. }
  assert (Hcap : forall n, 0 <= n ->
            Z.testbit WS_CAPTION n = (22 =? n) || (23 =? n)).
  { intros n Hn. change WS_CAPTION with (Z.lor (2 ^ 22) (2 ^ 23)).
    rewrite Z.lor_spec, !Z.pow2_bits_eqb by lia. reflexivity. }
  split; [exact Hbits|].
  split.
  { rewrite Hbits by lia.
    change (Z.testbit WS_THICKFRAME 18) with true.
    change (Z.testbit WS_CAPTION 18) with false.
    now rewrite orb_true_r. }
  split.
  { rewrite Hbits by lia. change (Z.testbit WS_CAPTION 22) with true.
    apply andb_false_r. }
  split.
  { rewrite Hbits by lia. change (Z.testbit WS_CAPTION 23) with true.
    apply andb_false_r. }
  split.
  { intros n Hn H18 H22 H23. rewrite Hbits, Hthick, Hcap by lia.
    apply Z.eqb_neq in H18, H22, H23.
    rewrite (Z.eqb_sym 18 n), (Z.eqb_sym 22 n), (Z.eqb_sym 23 n).
    rewrite H18, H22, H23. simpl.
    now rewrite orb_false_r, andb_true_r. }
  split; [rewrite Hs; apply to_LONG_range|].
  split.
  { intros i Hi. apply Z.eqb_neq in Hi.
    unfold setup_win32_frame. rewrite Hh. simpl. now rewrite Hi. }
  assert (Hh' : truthy (hwnd (self (world (setup_win32_frame d)))) = true)
    by now rewrite Hself.
  destruct (setup_win32_frame_style (setup_win32_frame d) Hh') as (Hs' & _).
  rewrite Hs', Hs.
  apply to_LONG_ext. intros n Hn.
  rewrite !frame_style_testbit by lia.
  rewrite !to_LONG_testbit by lia.
  rewrite !frame_style_testbit by lia.
  rewrite !to_LONG_testbit by lia.
  destruct (Z.testbit (window_long d GWL_STYLE) n),
    (Z.testbit WS_THICKFRAME n), (Z.testbit WS_CAPTION n); reflexivity.
Qed.

(** The window of a new top-level widget: [WS_OVERLAPPEDWINDOW |
    WS_VISIBLE] becomes the same style without the caption bits. *)
Lemma frame_style_bits_witness :
  window_long (setup_win32_frame
                 (mkDesktop (Demo.world (mkQPoint 0 0))
                    (window_long created) [])) GWL_STYLE = 0x100F0000 /\
  Z.testbit (window_long (setup_win32_frame
                 (mkDesktop (Demo.world (mkQPoint 0 0))
                    (window_long created) [])) GWL_STYLE) 18 = true.
Proof.
  split; [reflexivity|].
  exact (proj1 (proj2 (frame_style_bits
                         (mkDesktop (Demo.world (mkQPoint 0 0))
                            (window_long created) []) eq_refl))).
Defined.

(** X28.  The setup after creation fails cleanly.  When [winId] raises,
    the exception propagates and nothing has changed.  When it answers 0,
    [RuntimeError] is raised after the null handle was stored: no method of
    the window was replaced, no call was made, and with that handle the
    styler stays inert, in that the frame setup, the blur, the corner
    application and [showMaximized] all do nothing. *)
Theorem post_init_without_window (d : Desktop) :
  (forall e, _post_init (Raise e) d = (Raise e, d)) /\
  fst (_post_init (Ok 0) d) = Raise RuntimeError /\
  hwnd (self (world (snd (_post_init (Ok 0) d)))) = Some 0 /\
  sys (world (snd (_post_init (Ok 0) d))) = sys (world d) /\
  frame_calls (snd (_post_init (Ok 0) d)) = frame_calls d /\
  window_long (snd (_post_init (Ok 0) d)) = window_long d /\
  setup_win32_frame (snd (_post_init (Ok 0) d)) = snd (_post_init (Ok 0) d) /\
  enable_acrylic_blur (snd (_post_init (Ok 0) d)) = snd (_post_init (Ok 0) d) /\
  apply_rounded_corners (world (snd (_post_init (Ok 0) d))) =
    (Ok tt, world (snd (_post_init (Ok 0) d))) /\
  showMaximized (world (snd (_post_init (Ok 0) d))) =
    (Ok tt, world (snd (_post_init (Ok 0) d))).
Proof.
  repeat split.
Qed.

(** X29.  When [winId] answers a handle, the setup after creation stores
    it, replaces the four methods of the window, rewrites the style,
    notifies the frame change with [SWP_NOMOVE | SWP_NOSIZE |
    SWP_FRAMECHANGED] and no position or size, sets the attribute
    [DWMWA_NCRENDERING_POLICY] (2) to the value 2 that constants.py names
    [DWMNCRP_DISABLED], and runs the debounced scheduler.  When the
    scheduler returns, one corner application is scheduled, the blur of the
    whole window is asked for last, and the setup returns normally.  When
    the scheduler raises, its exception leaves the setup, nothing is
    scheduled and the blur is not asked for. *)
Theorem post_init_with_window (d : Desktop) (id : Z) :
  id <> 0 ->
  fst (_post_init (Ok id) d) = when_scheduled (world d) tt /\
  hwnd (self (world (snd (_post_init (Ok id) d)))) = Some id /\
  frame_calls (snd (_post_init (Ok id) d)) =
    frame_calls d ++
    [call_setattr "nativeEvent"; call_setattr "showMaximized";
     call_setattr "showNormal"; call_setattr "isMaximized";
     call_SetWindowLongW (Some id) GWL_STYLE
       (frame_style (to_LONG (window_long d GWL_STYLE)));
     call_SetWindowPos (Some id) 0 0 0 0 0 0x23] ++
    match debounce_delay (world d) with
    | Ok _ => [call_DwmEnableBlurBehindWindow (Some id) DWM_BB_ENABLE true 0 false]
    | Raise _ => []
    end /\
  window_long (snd (_post_init (Ok id) d)) GWL_STYLE =
    to_LONG (frame_style (to_LONG (window_long d GWL_STYLE))) /\
  calls (sys (world (snd (_post_init (Ok id) d)))) =
    calls (sys (world d)) ++
    call_DwmSetWindowAttribute (Some id) 2 2 ::
    debounce_calls (world d) /\
  triggers (calls (sys (world (snd (_post_init (Ok id) d))))) =
    (triggers (calls (sys (world d))) +
     match debounce_delay (world d) with Ok _ => 1 | Raise _ => 0 end)%nat.
Proof.
  intros Hid. apply Z.eqb_neq in Hid.
  unfold _post_init. simpl truthy. rewrite Hid. simpl negb. cbv iota.
  unfold setup_win32_frame, enable_acrylic_blur. simpl.
  rewrite Hid. simpl.
  set (w1 := mkWorld (set_hwnd (Some id) (self (world d)))
               (set_calls
                  (calls (sys (world d)) ++
                   [call_DwmSetWindowAttribute (Some id)
                      DWMWA_NCRENDERING_POLICY DWMNCRP_DISABLED])
                  (sys (world d)))).
  destruct (debounced_spec w1)
    as (D1 & D2 & _ & _ & _ & _ & _ & _ & D9 & _).
  assert (Hdd : debounce_delay w1 = debounce_delay (world d))
    by (apply debounce_delay_ext; reflexivity).
  assert (Hdc : debounce_calls w1 = debounce_calls (world d)).
  { unfold debounce_calls, stop_calls. now rewrite Hdd. }
  assert (Hcalls : calls (sys (snd (_debounced_apply_corners w1))) =
                   calls (sys (world d)) ++
                   call_DwmSetWindowAttribute (Some id) 2 2 ::
                   debounce_calls (world d)).
  { rewrite D2, Hdc. simpl. now rewrite <- app_assoc. }
  assert (Hhw : hwnd (self (snd (_debounced_apply_corners w1))) = Some id)
    by now rewrite D9.
  unfold dwmapi.DwmSetWindowAttribute'. unfold_monad. simpl.
  fold w1. unfold when_scheduled in *. rewrite Hdd in D1.
  rewrite (surjective_pairing (_debounced_apply_corners w1)), D1.
  destruct (debounce_delay (world d)) as [delay | e] eqn:Hd; simpl;
    rewrite ?Hhw; simpl; rewrite ?Hid; simpl.
  - split; [reflexivity|].
    split; [first [exact Hhw | reflexivity]|].
    split; [now rewrite <- !app_assoc|].
    split; [reflexivity|].
    split; [exact Hcalls|].
    rewrite Hcalls, triggers_app.
    change (call_DwmSetWindowAttribute (Some id) 2 2 :: debounce_calls (world d))
      with ([call_DwmSetWindowAttribute (Some id) 2 2]
              ++ debounce_calls (world d)).
    rewrite triggers_app, triggers_debounce, Hd. simpl. lia.
  - split; [reflexivity|].
    split; [first [exact Hhw | reflexivity]|].
    split; [now rewrite <- !app_assoc, ?app_nil_r|].
    split; [reflexivity|].
    split; [exact Hcalls|].
    rewrite Hcalls, triggers_app.
    change (call_DwmSetWindowAttribute (Some id) 2 2 :: debounce_calls (world d))
      with ([call_DwmSetWindowAttribute (Some id) 2 2]
              ++ debounce_calls (world d)).
    rewrite triggers_app, triggers_debounce, Hd. simpl. lia.
Qed.

(** The theorem on the styler as constructed, and with the clock set
    back. *)
Lemma post_init_with_window_witness :
  fst (_post_init (Ok 4242) created) = Ok tt /\
  window_long (snd (_post_init (Ok 4242) created)) GWL_STYLE = 0x100F0000 /\
  triggers (calls (sys (world (snd (_post_init (Ok 4242) created))))) = 1%nat /\
  fst (_post_init (Ok 4242) (mkDesktop clock_set_back (window_long created) []))
    = Raise OverflowError.
Proof.
  destruct (post_init_with_window created 4242 ltac:(discriminate))
    as (H1 & _ & _ & H4 & _ & H6).
  destruct (post_init_with_window
              (mkDesktop clock_set_back (window_long created) []) 4242
              ltac:(discriminate)) as (H1' & _).
  split; [exact H1|]. split; [exact H4|]. split; [exact H6 | exact H1'].
Defined.
